(** * Only Good Reads: the review route (src/app/api/reviews/route.ts)

    A shallow embedding of the route handler [GET] and of the two fetch
    paths it chooses between, [fetchBookPageData] (the bootstrap from the
    state embedded in a book page) and [fetchReviewsViaGraphQL] (the cursor
    fetch), followed by the properties of the specification.

    Conventions of the embedding.
    - A JavaScript string is a [string]; each character stands for one code
      unit below 256.
    - A JavaScript value that comes out of [JSON.parse] or [response.json()]
      is a [value].  Numbers are the integers ([Z]): ratings, counts and
      epoch timestamps.  An object is the list of its own properties in
      [Object.keys] order.  A property that is read under a computed key
      may be inherited: that read gives a [JS.Member].  A conversion to a
      primitive may throw: the operators that convert return an [Outcome].
    - What the JavaScript runtime and the libraries compute and the source
      does not define ([JSON.parse], the conversion of a string to a
      number, [Date.prototype.toLocaleDateString], the wording of a
      [TypeError]) is the class [Runtime].
    - The two upstream collaborators are the record [Upstream]; every call
      to one of them is appended to a log, so that a theorem can say which
      calls a request makes. *)

From Stdlib Require Import ZArith List String Ascii Bool Lia.
From Stdlib Require Import Numbers.DecimalString.
From Stdlib Require Numbers.DecimalPos.
From Stdlib Require Import Recdef FunInd.
Import ListNotations.

Local Open Scope string_scope.
Local Open Scope Z_scope.

(* ------------------------------------------------------------------ *)
(** ** Strings *)

Module Str.

Definition char_code (c : ascii) : nat := nat_of_ascii c.

Definition in_range (lo hi : nat) (c : ascii) : bool :=
  (Nat.leb lo (char_code c) && Nat.leb (char_code c) hi)%bool.

Definition is_digit (c : ascii) : bool := in_range 48 57 c.
Definition is_lower (c : ascii) : bool := in_range 97 122 c.
Definition is_upper (c : ascii) : bool := in_range 65 90 c.

(** [s.startsWith(p)] *)
Definition startsWith (p s : string) : bool := String.prefix p s.

(** [s.includes(p)]: [p] occurs somewhere in [s]. *)
Fixpoint includes (p s : string) : bool :=
  if String.prefix p s then true
  else match s with
       | EmptyString => false
       | String _ r => includes p r
       end.

Fixpoint drop (n : nat) (s : string) : string :=
  match n, s with
  | O, _ => s
  | S _, EmptyString => EmptyString
  | S k, String _ r => drop k r
  end.

(** [s.replace(p, "")] for a string pattern [p]: the first occurrence of
    [p] is removed, the rest is kept. *)
Fixpoint remove_first (p s : string) : string :=
  if String.prefix p s then drop (String.length p) s
  else match s with
       | EmptyString => EmptyString
       | String c r => String c (remove_first p r)
       end.

(** Decimal form of an integer, as [Number.prototype.toString] prints it. *)
Definition of_Z (z : Z) : string := NilZero.string_of_int (Z.to_int z).
Definition of_nat (n : nat) : string := NilZero.string_of_uint (Nat.to_uint n).

End Str.

(* ------------------------------------------------------------------ *)
(** ** The regular expression [/<[^>]*>/g] *)

(** After [<] has been read: [[^>]*] takes every character that is not
    [>], greedily, and [>] must follow.  Giving back characters never
    helps, since each of them is not [>]; the match therefore ends at the
    first [>], and there is none when the string has no [>].  The result is
    what follows the match. *)
Fixpoint tag_end (s : string) : option string :=
  match s with
  | EmptyString => None
  | String c r => if Ascii.eqb c ">" then Some r else tag_end r
  end.

(** [text.replace(/<[^>]*>/g, "")]: the matches are looked for from left to
    right, each search starting where the previous match ended; what lies
    between the matches is kept. *)
Function stripAllTags (s : string) {measure String.length s} : string :=
  match s with
  | EmptyString => EmptyString
  | String c r =>
      if Ascii.eqb c "<" then
        match tag_end r with
        | Some rest => stripAllTags rest
        | None => String c (stripAllTags r)
        end
      else String c (stripAllTags r)
  end.
Proof.
  - intros s c r _ _. simpl.
    induction r as [|d r IH]; simpl; intros rest H; [discriminate|].
    destruct (Ascii.eqb d ">").
    + injection H as <-. lia.
    + specialize (IH _ H). lia.
  - intros; simpl; lia.
  - intros; simpl; lia.
Defined.

(** "No [<...>] delimited substring": a [<] with a [>] somewhere after it. *)
Definition no_tag (s : string) : Prop :=
  ~ exists a b c : string, s = a ++ "<" ++ b ++ ">" ++ c.

(** The same, decided. *)
Fixpoint has_gt (s : string) : bool :=
  match s with
  | EmptyString => false
  | String c r => if Ascii.eqb c ">" then true else has_gt r
  end.

Fixpoint has_tag (s : string) : bool :=
  match s with
  | EmptyString => false
  | String c r => if Ascii.eqb c "<" then (has_gt r || has_tag r)%bool else has_tag r
  end.

(** The specification's wording of [stripAllTags], as a relation between a
    text and its stripped form: going from left to right, a [<] together
    with everything up to the nearest following [>] is removed, and the
    scan goes on after that [>] (what was removed is not looked at again); a
    [<] with no [>] after it, and every other character, is kept. *)
Inductive Stripped : string -> string -> Prop :=
| Stripped_nil : Stripped "" ""
| Stripped_keep c r out :
    c <> "<"%char -> Stripped r out -> Stripped (String c r) (String c out)
| Stripped_open r out :
    has_gt r = false -> Stripped r out -> Stripped (String "<" r) (String "<" out)
| Stripped_tag b rest out :
    has_gt b = false -> Stripped rest out ->
    Stripped ("<" ++ b ++ ">" ++ rest) out.

(* ------------------------------------------------------------------ *)
(** ** The regular expression [/["']?(da2-[a-z0-9]+)["']?/i] *)

Module KeyPattern.

Definition is_quote (c : ascii) : bool :=
  (Nat.eqb (Str.char_code c) 34 || Nat.eqb (Str.char_code c) 39)%bool.

(** A member of [[a-z0-9]] under the [i] flag. *)
Definition is_key_char (c : ascii) : bool :=
  (Str.is_lower c || Str.is_upper c || Str.is_digit c)%bool.

Fixpoint key_chars (s : string) : string :=
  match s with
  | EmptyString => EmptyString
  | String c r => if is_key_char c then String c (key_chars r) else EmptyString
  end.

(** The group [(da2-[a-z0-9]+)] at the start of [s]: the text it captures.
    The [+] is greedy and the optional quote after it cannot fail, so the
    first attempt, with the longest run, is the match. *)
Definition group_here (s : string) : option string :=
  match s with
  | String c1 (String c2 (String c3 (String c4 r))) =>
      if ((Ascii.eqb c1 "d" || Ascii.eqb c1 "D") &&
          (Ascii.eqb c2 "a" || Ascii.eqb c2 "A") &&
          Ascii.eqb c3 "2" && Ascii.eqb c4 "-")%bool
      then match key_chars r with
           | EmptyString => None
           | run => Some (String c1 (String c2 (String c3 (String c4 run))))
           end
      else None
  | _ => None
  end.

(** The whole pattern at the start of [s]: the optional quote is tried
    first, and given up when the group does not follow it. *)
Definition match_here (s : string) : option string :=
  match s with
  | EmptyString => None
  | String q r =>
      if is_quote q then
        match group_here r with
        | Some k => Some k
        | None => group_here s
        end
      else group_here s
  end.

(** [s.match(re)]: the leftmost position where the pattern matches; the
    result is group 1 of the match, [None] when [match] returns [null]. *)
Fixpoint first_match (s : string) : option string :=
  match match_here s with
  | Some k => Some k
  | None => match s with
            | EmptyString => None
            | String _ r => first_match r
            end
  end.

End KeyPattern.

(* ------------------------------------------------------------------ *)
(** ** JavaScript values *)

#[local] Set Warnings "-register-all".

Inductive value : Type :=
| VUndef
| VNull
| VBool (b : bool)
| VNum (z : Z)
| VStr (s : string)
| VArr (l : list value)
| VObj (l : list (string * value)).

(** A Number that may be [NaN]: the result of [parseInt] and of [ToNumber]. *)
Inductive number : Type :=
| NaN
| Num (z : Z).

(** A computation that may throw. *)
Inductive Outcome (A : Type) : Type :=
| Return (a : A)
| Throw.
Arguments Return {A} a.
Arguments Throw {A}.

Definition obind {A B} (m : Outcome A) (k : A -> Outcome B) : Outcome B :=
  match m with
  | Return a => k a
  | Throw => Throw
  end.

Declare Scope outcome_scope.
Delimit Scope outcome_scope with outcome.
Notation "x <- m ;; k" := (obind m (fun x => k))
  (at level 61, m at next level, right associativity) : outcome_scope.

(** What the runtime and the libraries compute. *)
Class Runtime : Type := {
  (** [JSON.parse(s)]; [None] when it throws a [SyntaxError]. *)
  JSON_parse : string -> option value;
  (** The runtime's conversion of a String to a Number. *)
  StringToNumber : string -> number;
  (** [new Date(v).toLocaleDateString()], for a value [v] whose conversion
      to a primitive returns *)
  toLocaleDateString : value -> string;
  (** The message of the [TypeError] that the conversion of a value to a
      primitive throws *)
  TypeError_message : value -> string
}.

Module JS.

(** [ToBoolean] *)
Definition truthy (v : value) : bool :=
  match v with
  | VUndef | VNull => false
  | VBool b => b
  | VNum z => negb (z =? 0)
  | VStr s => negb (String.eqb s "")
  | VArr _ | VObj _ => true
  end.

(** [a || b] *)
Definition or (a b : value) : value := if truthy a then a else b.


(** Whether the conversion of a value to a primitive returns.  An object
    is converted by its [valueOf] and [toString]: the inherited [valueOf]
    returns the object itself, which is no primitive, so that the
    conversion rests on [toString]; an own [toString] of an object that
    was parsed cannot be called and hides the inherited one, and then a
    [TypeError] is thrown.  An array is converted by [join], which converts
    every element that is neither [undefined] nor [null]. *)
Fixpoint convertible (v : value) : bool :=
  match v with
  | VArr l => forallb convertible l
  | VObj l => negb (existsb (fun p => String.eqb (fst p) "toString") l)
  | _ => true
  end.

(** The string of a value whose conversion returns; a number is printed
    in full, as JavaScript prints the integers below 10^21. *)
Fixpoint ToString (v : value) : string :=
  match v with
  | VUndef => "undefined"
  | VNull => "null"
  | VBool b => if b then "true" else "false"
  | VNum z => Str.of_Z z
  | VStr s => s
  | VArr l =>
      (fix join (l : list value) : string :=
         match l with
         | [] => ""
         | x :: r =>
             let e := match x with
                      | VUndef | VNull => ""
                      | _ => ToString x
                      end in
             match r with
             | [] => e
             | _ :: _ => e ++ "," ++ join r
             end
         end) l
  | VObj _ => "[object Object]"
  end.

(** [ToString] as the code runs it, in [encodeURIComponent(v)] and in the
    key of [o[v]]: it throws when the conversion does. *)
Definition to_string (v : value) : Outcome string :=
  if convertible v then Return (ToString v) else Throw.

Definition lookup (l : list (string * value)) (k : string) : value :=
  match find (fun p => String.eqb (fst p) k) l with
  | Some p => snd p
  | None => VUndef
  end.

Fixpoint chars (s : string) : list value :=
  match s with
  | EmptyString => []
  | String c r => VStr (String c "") :: chars r
  end.

(** The elements of an array, and the characters of a string, under their
    index keys and [length]. *)
Definition indexed (l : list value) (k : string) : value :=
  if String.eqb k "length" then VNum (Z.of_nat (List.length l))
  else match find (fun i => String.eqb (Str.of_nat i) k) (seq 0 (List.length l)) with
       | Some i => nth i l VUndef
       | None => VUndef
       end.

(** The property [k] of a value that is neither [undefined] nor [null]. *)
Definition own (v : value) (k : string) : value :=
  match v with
  | VObj l => lookup l k
  | VArr l => indexed l k
  | VStr s => indexed (chars s) k
  | _ => VUndef
  end.

Definition is_nullish (v : value) : bool :=
  match v with
  | VUndef | VNull => true
  | _ => false
  end.

(** [v.k] and [v[k]]: a [TypeError] on [undefined] and [null]. *)
Definition member (v : value) (k : string) : Outcome value :=
  if is_nullish v then Throw else Return (own v k).

(** [v?.k] *)
Definition optional (v : value) (k : string) : value :=
  if is_nullish v then VUndef else own v k.

(** [own] reads the properties that a value has of its own, which is all
    that a read under one of the fixed keys of the source can find.  A
    read under a computed key can also find what the value inherits: a
    built-in function, which has a [name], or, under [__proto__], the
    prototype itself. *)
Inductive Member : Type :=
| Data (v : value)
| Builtin (name : string)
| Prototype.

Definition has_index (n : nat) (k : string) : bool :=
  (String.eqb k "length"
   || existsb (fun i => String.eqb (Str.of_nat i) k) (seq 0 n))%bool.

Definition has_own (v : value) (k : string) : bool :=
  match v with
  | VObj l => existsb (fun p => String.eqb (fst p) k) l
  | VArr l => has_index (List.length l) k
  | VStr s => has_index (String.length s) k
  | _ => false
  end.

(** The functions of [Object.prototype], each of which has the name of its
    key, but for the constructor. *)
Definition Object_prototype : list string :=
  ["constructor"; "__defineGetter__"; "__defineSetter__"; "hasOwnProperty";
   "__lookupGetter__"; "__lookupSetter__"; "isPrototypeOf";
   "propertyIsEnumerable"; "toString"; "valueOf"; "toLocaleString"].

Definition constructor_name (v : value) : string :=
  match v with
  | VArr _ => "Array"
  | VStr _ => "String"
  | VNum _ => "Number"
  | VBool _ => "Boolean"
  | _ => "Object"
  end.

(** The property [k] of a value that is neither [undefined] nor [null],
    own or inherited.  What an object inherits is what [Object.prototype]
    has.  An array, a string, a number and a boolean have that too, under
    the same names; the further methods of their own prototypes, which
    vary with the version of the language, are not listed: the source
    reads under a computed key from the entity cache only, and only once
    it has found a work key in it, which nothing but an object has. *)
Definition get (v : value) (k : string) : Member :=
  if has_own v k then Data (own v k)
  else if String.eqb k "__proto__" then Prototype
  else if existsb (String.eqb k) Object_prototype
  then Builtin (if String.eqb k "constructor" then constructor_name v else k)
  else Data VUndef.

(** [v[k]] for a computed key [k]: a [TypeError] on [undefined] and
    [null], and when the key cannot be converted. *)
Definition index (v k : value) : Outcome Member :=
  (if is_nullish v then Throw else
   key <- to_string k ;;
   Return (get v key))%outcome.

(** [ToBoolean] of what a read found. *)
Definition truthy_member (m : Member) : bool :=
  match m with
  | Data v => truthy v
  | Builtin _ | Prototype => true
  end.

(** [m?.k] and [m.k] for one of the keys that the source reads from what
    it found under a computed key: [name], [webUrl] and [node].  A function
    has a [name] and neither of the others; a prototype has none of
    them. *)
Definition field (m : Member) (k : string) : value :=
  match m with
  | Data v => optional v k
  | Builtin name => if String.eqb k "name" then VStr name else VUndef
  | Prototype => VUndef
  end.

Definition read (m : Member) (k : string) : Outcome value :=
  match m with
  | Data v => member v k
  | _ => Return (field m k)
  end.

(** [Object.keys(v)] *)
Definition Object_keys (v : value) : Outcome (list string) :=
  match v with
  | VUndef | VNull => Throw
  | VObj l => Return (map fst l)
  | VArr l => Return (map Str.of_nat (seq 0 (List.length l)))
  | VStr s => Return (map Str.of_nat (seq 0 (String.length s)))
  | VBool _ | VNum _ => Return []
  end.

Section WithRuntime.
Context {rt : Runtime}.

(** [ToNumber] of a value whose conversion returns; an array or an object
    goes through its string form. *)
Definition ToNumber (v : value) : number :=
  match v with
  | VUndef => NaN
  | VNull => Num 0
  | VBool b => Num (if b then 1 else 0)
  | VNum z => Num z
  | VStr s => StringToNumber s
  | VArr _ | VObj _ => StringToNumber (ToString v)
  end.

(** [v >= n] and [v < n] for a Number literal [n] and a value [v] whose
    conversion returns: both are false on [NaN]. *)
Definition ge (v : value) (n : Z) : bool :=
  match ToNumber v with
  | NaN => false
  | Num z => n <=? z
  end.

Definition lt (v : value) (n : Z) : bool :=
  match ToNumber v with
  | NaN => false
  | Num z => z <? n
  end.

(** [v >= n] as the code runs it: it throws when the conversion of [v]
    does. *)
Definition at_least (v : value) (n : Z) : Outcome bool :=
  if convertible v then Return (ge v n) else Throw.

End WithRuntime.

(** [a === n] and [a > n] on Numbers. *)
Definition number_is (a : number) (n : Z) : bool :=
  match a with
  | NaN => false
  | Num z => z =? n
  end.

Definition number_gt (a : number) (n : Z) : bool :=
  match a with
  | NaN => false
  | Num z => n <? z
  end.

(** White space that [parseInt] skips, among the code units below 256. *)
Definition is_white_space (c : ascii) : bool :=
  (Str.in_range 9 13 c || Nat.eqb (Str.char_code c) 32
   || Nat.eqb (Str.char_code c) 160)%bool.

Fixpoint trim_start (s : string) : string :=
  match s with
  | EmptyString => EmptyString
  | String c r => if is_white_space c then trim_start r else s
  end.

Definition digit_value (c : ascii) : Z := Z.of_nat (Str.char_code c) - 48.

(** The value of the longest run of decimal digits at the start of [s];
    [acc] is [None] until a digit has been read. *)
Fixpoint leading_digits (acc : option Z) (s : string) : option Z :=
  match s with
  | EmptyString => acc
  | String c r =>
      if Str.is_digit c then
        leading_digits
          (Some (10 * match acc with Some a => a | None => 0 end + digit_value c)) r
      else acc
  end.

(** [parseInt(s, 10)], exact: [parseInt] rounds a run of digits worth
    more than 2^53 to a double. *)
Definition parseInt (s : string) : number :=
  let t := trim_start s in
  let signed :=
    match t with
    | String c r =>
        if Ascii.eqb c "-" then (-1, r)
        else if Ascii.eqb c "+" then (1, r)
        else (1, t)
    | EmptyString => (1, t)
    end in
  match leading_digits None (snd signed) with
  | None => NaN
  | Some m => Num (fst signed * m)
  end.

End JS.

(* ------------------------------------------------------------------ *)
(** ** The data of the route *)

Module Review.
Record t : Type := {
  id : value;
  rating : value;
  reviewer : value;
  reviewerUrl : value;
  date : string;
  content : string
}.
End Review.

Module BookInfo.
Record t : Type := {
  title : value;
  author : value;
  coverUrl : value
}.
End BookInfo.

(** What [fetchBookPageData] resolves to when it is not [null]. *)
Module PageData.
Record t : Type := {
  workId : string;
  bookInfo : BookInfo.t;
  initialReviews : list Review.t;
  nextPageToken : value;
  totalCount : value;
  apiKey : value
}.
End PageData.

(** What [fetchReviewsViaGraphQL] resolves to when it is not [null]. *)
Module GraphQLResult.
Record t : Type := {
  reviews : list Review.t;
  nextPageToken : value;
  totalCount : value
}.
End GraphQLResult.

(** The [pagination] object of a response; [apiKey] is [None] when the
    object has no such property. *)
Module Pagination.
Record t : Type := {
  currentPage : number;
  hasNext : bool;
  hasPrev : bool;
  nextPageToken : value;
  workId : string;
  apiKey : option value
}.
End Pagination.

(** The body of a success response; [book] is [None] for [null]. *)
Module Body.
Record t : Type := {
  book : option BookInfo.t;
  reviews : list Review.t;
  totalFiltered : nat;
  totalCount : value;
  pagination : Pagination.t
}.
End Body.

(** [NextResponse.json(body, { status })]: the object handed to it, before
    it is serialized. *)
Inductive Response : Type :=
| Failure (status : Z) (error : string)
| Success (body : Body.t).

Definition status_of (r : Response) : Z :=
  match r with
  | Failure st _ => st
  | Success _ => 200
  end.

(** The query parameters, each as [searchParams.get] returns it. *)
Record Request : Type := {
  q_url : option string;
  q_page : option string;
  q_pageToken : option string;
  q_workId : option string;
  q_apiKey : option string
}.

(** Truthiness of a [string | null], and [s || d]. *)
Definition given (s : option string) : bool :=
  match s with
  | Some t => negb (String.eqb t "")
  | None => false
  end.

Definition or_else (s : option string) (d : string) : string :=
  match s with
  | Some t => if String.eqb t "" then d else t
  | None => d
  end.

(** [s || null] *)
Definition or_null (s : option string) : option string :=
  if given s then s else None.

(* ------------------------------------------------------------------ *)
(** ** The upstream collaborators *)

(** The book page after [cheerio.load]: what [$("#__NEXT_DATA__").html()]
    returns ([None] for [null]), and [$(script).html()] of every [script]
    element in document order. *)
Record Document : Type := {
  NEXT_DATA_html : option string;
  script_html : list (option string)
}.

Record HttpResponse (A : Type) : Type := {
  ok : bool;
  payload : A
}.
Arguments ok {A} _.
Arguments payload {A} _.

(** The variable part of the POST to the GraphQL endpoint. *)
Record GraphQLCall : Type := {
  x_api_key : string;
  resourceType : string;
  resourceId : string;
  limit : Z;
  after : option string
}.

(** [fetch] rejects ([None]) or resolves to a response.  The payload of the
    query service is [response.json()], [None] when that throws. *)
Record Upstream : Type := {
  book_page : string -> option (HttpResponse Document);
  review_service : GraphQLCall -> option (HttpResponse (option value))
}.

Inductive Call : Type :=
| PageFetch (url : string)
| GraphQLQuery (q : GraphQLCall).

(** A computation that calls upstream: it extends the log of calls and
    returns or throws. *)
Definition IO (A : Type) : Type := list Call -> Outcome A * list Call.

Definition iret {A} (a : A) : IO A := fun log => (Return a, log).

Definition ibind {A B} (m : IO A) (k : A -> IO B) : IO B :=
  fun log =>
    match m log with
    | (Return a, log') => k a log'
    | (Throw, log') => (Throw, log')
    end.

Definition lift {A} (m : Outcome A) : IO A := fun log => (m, log).

(** [try { m } catch { h }] *)
Definition try_catch {A} (m h : IO A) : IO A :=
  fun log =>
    match m log with
    | (Return a, log') => (Return a, log')
    | (Throw, log') => h log'
    end.

Declare Scope io_scope.
Delimit Scope io_scope with io.
Notation "x <- m ;; k" := (ibind m (fun x => k))
  (at level 61, m at next level, right associativity) : io_scope.

Definition of_fetch {A} (r : option (HttpResponse A)) : Outcome (HttpResponse A) :=
  match r with
  | Some response => Return response
  | None => Throw
  end.

(* ------------------------------------------------------------------ *)
(** ** The route *)

Definition FALLBACK_API_KEY : string := "da2-xpgsdydkbregjhpr6ejzqdhuwy".

Section Route.
Context {rt : Runtime} (up : Upstream).

Definition fetch_page (url : string) : IO (HttpResponse Document) :=
  fun log => (of_fetch (book_page up url), (log ++ [PageFetch url])%list).

Definition fetch_graphql (q : GraphQLCall) : IO (HttpResponse (option value)) :=
  fun log => (of_fetch (review_service up q), (log ++ [GraphQLQuery q])%list).

(** *** The normalizer, as both paths write it *)

(** [text?.replace(/<[^>]*>/g, "") || ""]: a text that is neither a string
    nor nullish has no [replace] to call. *)
Definition content_of (text : value) : Outcome string :=
  match text with
  | VUndef | VNull => Return ""
  | VStr t => Return (or_else (Some (stripAllTags t)) "")
  | _ => Throw
  end.

(** [createdAt ? new Date(createdAt).toLocaleDateString() : ""]: the
    constructor converts its argument to a primitive. *)
Definition date_of (createdAt : value) : Outcome string :=
  if JS.truthy createdAt
  then if JS.convertible createdAt
       then Return (toLocaleDateString createdAt)
       else Throw
  else Return "".

(** *** fetchBookPageData *)

(** Lines 95-105: the loop over the script elements, left at the first
    match. *)
Fixpoint scanScripts (scriptTags : list (option string)) (apiKey : value) : value :=
  match scriptTags with
  | [] => apiKey
  | script :: rest =>
      let scriptContent := or_else script "" in
      match KeyPattern.first_match scriptContent with
      | Some k => VStr k
      | None => scanScripts rest apiKey
      end
  end.

(** Line 107:
    [nextData?.runtimeConfig || nextData?.props?.pageProps?.runtimeConfig] *)
Definition runtimeConfig_of (nextData : value) : value :=
  JS.or (JS.optional nextData "runtimeConfig")
        (JS.optional (JS.optional (JS.optional nextData "props") "pageProps")
                     "runtimeConfig").

(** Lines 95-110. *)
Definition resolveApiKey (doc : Document) (nextData : value) : Outcome value :=
  (let apiKey := scanScripts (script_html doc) (VStr FALLBACK_API_KEY) in
   let runtimeConfig := runtimeConfig_of nextData in
   if JS.truthy (JS.optional runtimeConfig "apiKey")
   then JS.member runtimeConfig "apiKey"
   else Return apiKey)%outcome.

(** Lines 120-143. *)
Definition extractBookInfo (apolloState : value) (keys : list string)
  : Outcome BookInfo.t :=
  (let bookKeys := filter (Str.startsWith "Book:") keys in
   match bookKeys with
   | [] =>
       Return {| BookInfo.title := VStr "Unknown Title";
                 BookInfo.author := VStr "Unknown Author";
                 BookInfo.coverUrl := VStr "" |}
   | k :: _ =>
       book <- JS.member apolloState k ;;
       let title := JS.or (JS.optional book "title") (VStr "Unknown Title") in
       let coverUrl := JS.or (JS.optional book "imageUrl") (VStr "") in
       author <-
         (if JS.truthy (JS.optional (JS.optional book "primaryContributorEdge") "__ref")
          then
            edge <- JS.member book "primaryContributorEdge" ;;
            contribKey <- JS.member edge "__ref" ;;
            contrib <- JS.index apolloState contribKey ;;
            if JS.truthy (JS.optional (JS.field contrib "node") "__ref")
            then
              node <- JS.read contrib "node" ;;
              ref <- JS.member node "__ref" ;;
              authorData <- JS.index apolloState ref ;;
              Return (JS.or (JS.field authorData "name") (VStr "Unknown Author"))
            else Return (VStr "Unknown Author")
          else Return (VStr "Unknown Author")) ;;
       Return {| BookInfo.title := title;
                 BookInfo.author := author;
                 BookInfo.coverUrl := coverUrl |}
   end)%outcome.

(** Lines 154-163: the reviewer of a review entity, through its
    [creator.__ref]. *)
Definition resolveReviewer (apolloState review : value) : Outcome (value * value) :=
  (creator <- JS.member review "creator" ;;
   if JS.truthy (JS.optional creator "__ref") then
     ref <- JS.member creator "__ref" ;;
     userData <- JS.index apolloState ref ;;
     if JS.truthy_member userData then
       name <- JS.read userData "name" ;;
       webUrl <- JS.read userData "webUrl" ;;
       Return (JS.or name (VStr "Anonymous"), JS.or webUrl (VStr ""))
     else Return (VStr "Anonymous", VStr "")
   else Return (VStr "Anonymous", VStr ""))%outcome.

(** Lines 152-175: the body of the loop over the review keys; [None] when
    the review is not pushed. *)
Definition reviewOfEntity (apolloState review : value) : Outcome (option Review.t) :=
  (if negb (JS.truthy review) then Return None else
   rating <- JS.member review "rating" ;;
   good <- JS.at_least rating 4 ;;
   if negb good then Return None else
   who <- resolveReviewer apolloState review ;;
   id <- JS.member review "id" ;;
   createdAt <- JS.member review "createdAt" ;;
   date <- date_of createdAt ;;
   text <- JS.member review "text" ;;
   content <- content_of text ;;
   Return (Some {| Review.id := id;
                   Review.rating := rating;
                   Review.reviewer := fst who;
                   Review.reviewerUrl := snd who;
                   Review.date := date;
                   Review.content := content |}))%outcome.

(** Lines 151-176: [reviews] is the array built so far. *)
Fixpoint collectEntities (apolloState : value) (reviewKeys : list string)
    (reviews : list Review.t) : Outcome (list Review.t) :=
  (match reviewKeys with
   | [] => Return reviews
   | key :: rest =>
       review <- JS.member apolloState key ;;
       pushed <- reviewOfEntity apolloState review ;;
       collectEntities apolloState rest
         match pushed with
         | Some r => (reviews ++ [r])%list
         | None => reviews
         end
   end)%outcome.

(** Line 91: [nextData?.props?.pageProps?.apolloState] *)
Definition apolloState_of (nextData : value) : value :=
  JS.optional (JS.optional (JS.optional nextData "props") "pageProps")
              "apolloState".

(** Lines 90-192: the body of the [try]. *)
Definition extractPageData (doc : Document) (nextDataScript : string)
  : Outcome (option PageData.t) :=
  (nextData <- match JSON_parse nextDataScript with
               | Some v => Return v
               | None => Throw
               end ;;
   let apolloState := apolloState_of nextData in
   if negb (JS.truthy apolloState) then Return None else
   apiKey <- resolveApiKey doc nextData ;;
   keys <- JS.Object_keys apolloState ;;
   match find (Str.startsWith "Work:kca://work/") keys with
   | None => Return None
   | Some workKey =>
       let workId := Str.remove_first "Work:" workKey in
       bookInfo <- extractBookInfo apolloState keys ;;
       let reviewKeys := filter (Str.startsWith "Review:") keys in
       reviews <- collectEntities apolloState reviewKeys [] ;;
       rootQuery <- JS.member apolloState "ROOT_QUERY" ;;
       rootKeys <- JS.Object_keys rootQuery ;;
       reviewsData <-
         match find (Str.startsWith "getReviews") rootKeys with
         | Some getReviewsKey => JS.member rootQuery getReviewsKey
         | None => Return VNull
         end ;;
       Return (Some {|
         PageData.workId := workId;
         PageData.bookInfo := bookInfo;
         PageData.initialReviews := reviews;
         PageData.nextPageToken :=
           JS.or (JS.optional (JS.optional reviewsData "pageInfo") "nextPageToken")
                 VNull;
         PageData.totalCount := JS.or (JS.optional reviewsData "totalCount") (VNum 0);
         PageData.apiKey := apiKey |})
   end)%outcome.

Definition fetchBookPageData (url : string) : IO (option PageData.t) :=
  (response <- fetch_page url ;;
   if negb (ok response) then iret None else
   let doc := payload response in
   let nextDataScript := NEXT_DATA_html doc in
   if negb (given nextDataScript) then iret None else
   try_catch (lift (extractPageData doc (or_else nextDataScript "")))
             (iret None))%io.

(** *** fetchReviewsViaGraphQL *)

(** Lines 248-260: the body of the loop over the edges. *)
Definition reviewOfNode (node : value) : Outcome (option Review.t) :=
  (if negb (JS.truthy node) then Return None else
   rating <- JS.member node "rating" ;;
   good <- JS.at_least rating 4 ;;
   if negb good then Return None else
   id <- JS.member node "id" ;;
   creator <- JS.member node "creator" ;;
   createdAt <- JS.member node "createdAt" ;;
   date <- date_of createdAt ;;
   text <- JS.member node "text" ;;
   content <- content_of text ;;
   Return (Some {| Review.id := id;
                   Review.rating := rating;
                   Review.reviewer :=
                     JS.or (JS.optional creator "name") (VStr "Anonymous");
                   Review.reviewerUrl :=
                     JS.or (JS.optional creator "webUrl") (VStr "");
                   Review.date := date;
                   Review.content := content |}))%outcome.

(** What [for (const edge of v)] goes through: the elements of an array,
    the characters of a string; anything else is not iterable. *)
Definition iterate (v : value) : Outcome (list value) :=
  match v with
  | VArr l => Return l
  | VStr s => Return (JS.chars s)
  | _ => Throw
  end.

(** Lines 247-261. *)
Fixpoint collectEdges (edges : list value) (reviews : list Review.t)
  : Outcome (list Review.t) :=
  (match edges with
   | [] => Return reviews
   | edge :: rest =>
       node <- JS.member edge "node" ;;
       pushed <- reviewOfNode node ;;
       collectEdges rest
         match pushed with
         | Some r => (reviews ++ [r])%list
         | None => reviews
         end
   end)%outcome.

(** Line 243: [data?.data?.getReviews] *)
Definition connection_of (data : value) : value :=
  JS.optional (JS.optional data "data") "getReviews".

(** Lines 242-267, after the response was found [ok]. *)
Definition extractConnection (json : option value) : Outcome (option GraphQLResult.t) :=
  (data <- match json with
           | Some v => Return v
           | None => Throw
           end ;;
   let reviewsConnection := connection_of data in
   if negb (JS.truthy reviewsConnection) then Return None else
   edges <- JS.member reviewsConnection "edges" ;;
   items <- iterate (JS.or edges (VArr [])) ;;
   reviews <- collectEdges items [] ;;
   pageInfo <- JS.member reviewsConnection "pageInfo" ;;
   totalCount <- JS.member reviewsConnection "totalCount" ;;
   Return (Some {|
     GraphQLResult.reviews := reviews;
     GraphQLResult.nextPageToken :=
       JS.or (JS.optional pageInfo "nextPageToken") VNull;
     GraphQLResult.totalCount := JS.or totalCount (VNum 0) |}))%outcome.

Definition fetchReviewsViaGraphQL (workId : string) (pageToken : option string)
    (apiKey : string) : IO (option GraphQLResult.t) :=
  (let variables :=
     {| x_api_key := apiKey;
        resourceType := "WORK";
        resourceId := workId;
        limit := 30;
        after := if given pageToken then pageToken else None |} in
   try_catch
     (response <- fetch_graphql variables ;;
      if negb (ok response) then iret None else
      lift (extractConnection (payload response)))
     (iret None))%io.

(** *** GET *)

(** Lines 307-320: the body of the bootstrap response. *)
Definition bootstrapBody (pageData : PageData.t) : Body.t :=
  {| Body.book := Some (PageData.bookInfo pageData);
     Body.reviews := PageData.initialReviews pageData;
     Body.totalFiltered := List.length (PageData.initialReviews pageData);
     Body.totalCount := PageData.totalCount pageData;
     Body.pagination := {|
       Pagination.currentPage := Num 1;
       Pagination.hasNext := JS.truthy (PageData.nextPageToken pageData);
       Pagination.hasPrev := false;
       Pagination.nextPageToken := PageData.nextPageToken pageData;
       Pagination.workId := PageData.workId pageData;
       Pagination.apiKey := Some (PageData.apiKey pageData) |} |}.

(** Lines 337-349: the body of the cursor response. *)
Definition cursorBody (page : number) (workId : string)
    (graphqlResult : GraphQLResult.t) : Body.t :=
  {| Body.book := None;
     Body.reviews := GraphQLResult.reviews graphqlResult;
     Body.totalFiltered := List.length (GraphQLResult.reviews graphqlResult);
     Body.totalCount := GraphQLResult.totalCount graphqlResult;
     Body.pagination := {|
       Pagination.currentPage := page;
       Pagination.hasNext := JS.truthy (GraphQLResult.nextPageToken graphqlResult);
       Pagination.hasPrev := JS.number_gt page 1;
       Pagination.nextPageToken := GraphQLResult.nextPageToken graphqlResult;
       Pagination.workId := workId;
       Pagination.apiKey := None |} |}.

(** Line 276: [parseInt(searchParams.get("page") || "1", 10)] *)
Definition page_of (request : Request) : number :=
  JS.parseInt (or_else (q_page request) "1").

Definition GET (request : Request) : IO Response :=
  (let url := q_url request in
   let page := page_of request in
   let pageToken := q_pageToken request in
   let workId := q_workId request in
   let apiKey := q_apiKey request in
   if negb (given url) then iret (Failure 400 "Missing 'url' query parameter") else
   if negb (Str.includes "goodreads.com" (or_else url "")) then
     iret (Failure 400 "URL must be a Goodreads URL")
   else
     try_catch
       (if (JS.number_is page 1 || negb (given workId))%bool then
          pageData <- fetchBookPageData (or_else url "") ;;
          match pageData with
          | None => iret (Failure 500 "Failed to fetch book data")
          | Some pageData => iret (Success (bootstrapBody pageData))
          end
        else
          graphqlResult <-
            fetchReviewsViaGraphQL (or_else workId "") (or_null pageToken)
                                   (or_else apiKey FALLBACK_API_KEY) ;;
          match graphqlResult with
          | None => iret (Failure 500 "Failed to fetch reviews")
          | Some graphqlResult =>
              iret (Success (cursorBody page (or_else workId "") graphqlResult))
          end)
       (iret (Failure 500 "Failed to fetch and parse reviews")))%io.

End Route.

(* ------------------------------------------------------------------ *)
(** ** The two modes of the handler *)

(** The request passed both validations of lines 281-293. *)
Definition valid_url (request : Request) (url : string) : Prop :=
  q_url request = Some url /\ url <> "" /\ Str.includes "goodreads.com" url = true.

(** Line 297 *)
Definition bootstrap_mode (request : Request) : bool :=
  (JS.number_is (page_of request) 1 || negb (given (q_workId request)))%bool.

(** Lines 324-328: the call of the cursor fetch. *)
Definition cursor_query (request : Request) : GraphQLCall :=
  {| x_api_key := or_else (q_apiKey request) FALLBACK_API_KEY;
     resourceType := "WORK";
     resourceId := or_else (q_workId request) "";
     limit := 30;
     after := or_null (q_pageToken request) |}.

(* ------------------------------------------------------------------ *)
(** ** What the specification talks about *)

(** The host that a url names: what stands between [://] and the next
    [/], [?] or [#], after a [user@] and before a [:port], in lower case. *)
Module Url.










End Url.

Section Notions.
Context {rt : Runtime} (up : Upstream).

(** A review of a returned [reviews] array: of the bootstrap, of the cursor
    fetch, or of a response of the handler. *)
Inductive produced (r : Review.t) : Prop :=
| produced_bootstrap (url : string) (log log' : list Call) (pageData : PageData.t) :
    fetchBookPageData up url log = (Return (Some pageData), log') ->
    In r (PageData.initialReviews pageData) ->
    produced r
| produced_cursor (workId : string) (pageToken : option string) (apiKey : string)
    (log log' : list Call) (graphqlResult : GraphQLResult.t) :
    fetchReviewsViaGraphQL up workId pageToken apiKey log
      = (Return (Some graphqlResult), log') ->
    In r (GraphQLResult.reviews graphqlResult) ->
    produced r
| produced_response (request : Request) (log log' : list Call) (body : Body.t) :
    GET up request log = (Return (Success body), log') ->
    In r (Body.reviews body) ->
    produced r.

(** The rating of a favourable review: [rating >= 4] holds and [rating < 4]
    does not, as JavaScript evaluates them; a rating that is an integer is
    at least 4, and is 4 or 5 when upstream keeps to the scale 1-5. *)
Definition favourable (r : Review.t) : Prop :=
  JS.ge (Review.rating r) 4 = true /\
  JS.lt (Review.rating r) 4 = false /\
  forall z, Review.rating r = VNum z ->
            4 <= z /\ (1 <= z <= 5 -> z = 4 \/ z = 5).

(** What the cache holds under the reference that a review entity names
    as its creator ([undefined] when it names none): the user entity under
    that key or, when the cache has no such key, what the cache inherits
    under that name. *)
Definition entityCreator (apolloState review : value) : JS.Member :=
  let ref := JS.optional (JS.own review "creator") "__ref" in
  if JS.truthy ref then JS.get apolloState (JS.ToString ref) else JS.Data VUndef.

(** [normalised raw creator r]: the review [r] was pushed for the raw record
    [raw], whose creator record is [creator], by the loop body of one of
    the two paths. *)
Inductive normalised : value -> JS.Member -> Review.t -> Prop :=
| normalised_entity apolloState review r :
    reviewOfEntity apolloState review = Return (Some r) ->
    normalised review (entityCreator apolloState review) r
| normalised_node node r :
    reviewOfNode node = Return (Some r) ->
    normalised node (JS.Data (JS.own node "creator")) r.





(** The first script, in document order, whose content matches the key
    pattern, and the key it holds. *)
Inductive FirstScriptMatch : list (option string) -> option string -> Prop :=
| FirstScriptMatch_none scripts :
    Forall (fun s => KeyPattern.first_match (or_else s "") = None) scripts ->
    FirstScriptMatch scripts None
| FirstScriptMatch_at before script rest k :
    Forall (fun s => KeyPattern.first_match (or_else s "") = None) before ->
    KeyPattern.first_match (or_else script "") = Some k ->
    FirstScriptMatch (before ++ script :: rest) (Some k).

Fixpoint first_script_match (scripts : list (option string)) : option string :=
  match scripts with
  | [] => None
  | s :: rest =>
      match KeyPattern.first_match (or_else s "") with
      | Some k => Some k
      | None => first_script_match rest
      end
  end.

(** The credential as step 7 of section 4.1 of the specification resolves
    it: the first script match; if there is none, the credential field of
    the runtime configuration; if that is absent too, the fallback. *)
Definition specified_apiKey (doc : Document) (nextData : value) : value :=
  match first_script_match (script_html doc) with
  | Some k => VStr k
  | None =>
      let field := JS.optional (runtimeConfig_of nextData) "apiKey" in
      if JS.truthy field then field else VStr FALLBACK_API_KEY
  end.

Definition apiKey_as_specified : Prop :=
  forall url log log' pageData response script nextData,
    fetchBookPageData up url log = (Return (Some pageData), log') ->
    book_page up url = Some response ->
    NEXT_DATA_html (payload response) = Some script ->
    JSON_parse script = Some nextData ->
    PageData.apiKey pageData = specified_apiKey (payload response) nextData.

(** The credential as the code resolves it. *)
Definition resolved_apiKey (doc : Document) (nextData : value) (key : value) : Prop :=
  let field := JS.optional (runtimeConfig_of nextData) "apiKey" in
  exists m,
    FirstScriptMatch (script_html doc) m /\
    key = if JS.truthy field then field
          else match m with
               | Some k => VStr k
               | None => VStr FALLBACK_API_KEY
               end.

(** "Every successful response echoes both the work identifier and the
    credential." *)
Definition echo_as_specified : Prop :=
  forall request log log' body,
    GET up request log = (Return (Success body), log') ->
    exists key, Pagination.apiKey (Body.pagination body) = Some key.

(** The ways the bootstrap of [url] fails that section 7 of the
    specification lists, and a throw at any later step. *)
Inductive BootstrapFailure (url : string) : Prop :=
| page_not_ok response :
    book_page up url = Some response ->
    ok response = false ->
    BootstrapFailure url
| hydration_state_missing response :
    book_page up url = Some response ->
    ok response = true ->
    given (NEXT_DATA_html (payload response)) = false ->
    BootstrapFailure url
| embedded_json_malformed response script :
    book_page up url = Some response ->
    ok response = true ->
    NEXT_DATA_html (payload response) = Some script -> script <> "" ->
    JSON_parse script = None ->
    BootstrapFailure url
| entity_cache_missing response script nextData :
    book_page up url = Some response ->
    ok response = true ->
    NEXT_DATA_html (payload response) = Some script -> script <> "" ->
    JSON_parse script = Some nextData ->
    JS.truthy (apolloState_of nextData) = false ->
    BootstrapFailure url
| work_entity_missing response script nextData keys :
    book_page up url = Some response ->
    ok response = true ->
    NEXT_DATA_html (payload response) = Some script -> script <> "" ->
    JSON_parse script = Some nextData ->
    JS.Object_keys (apolloState_of nextData) = Return keys ->
    Forall (fun k => Str.startsWith "Work:kca://work/" k = false) keys ->
    BootstrapFailure url
| extraction_throws response script :
    book_page up url = Some response ->
    ok response = true ->
    NEXT_DATA_html (payload response) = Some script -> script <> "" ->
    extractPageData (payload response) script = Throw ->
    BootstrapFailure url.

End Notions.

(* ------------------------------------------------------------------ *)
(** ** A small world to run the route in *)

Module Demo.

Definition obj (l : list (string * value)) : value := VObj l.

Definition user1 : value :=
  obj [("name", VStr ""); ("webUrl", VStr "https://www.goodreads.com/user/show/1")].

Definition user2 : value :=
  obj [("name", VStr "Paul"); ("webUrl", VStr "")].

Definition root_query (withQuery : bool) : value :=
  obj (if withQuery
       then [("getReviews({})",
              obj [("totalCount", VNum 3);
                   ("pageInfo", obj [("nextPageToken", VStr "tok2")])])]
       else []).

Definition entities : list (string * value) :=
  [("Book:kca://book/1",
    obj [("title", VStr "Dune");
         ("imageUrl", VStr "https://img/dune.jpg");
         ("primaryContributorEdge", obj [("__ref", VStr "Edge:1")])]);
   ("Edge:1", obj [("node", obj [("__ref", VStr "Contributor:9")])]);
   ("Contributor:9", obj [("name", VStr "Frank Herbert")]);
   ("User:1", user1);
   ("User:2", user2);
   ("Review:1",
    obj [("id", VStr "r1"); ("rating", VNum 5); ("createdAt", VNum 1700000000000);
         ("text", VStr "Great <b>book</b>, a<b");
         ("creator", obj [("__ref", VStr "User:1")])]);
   ("Review:2",
    obj [("id", VStr "r2"); ("rating", VNum 2); ("createdAt", VNum 1700000000001);
         ("text", VStr "Dull"); ("creator", obj [("__ref", VStr "User:2")])]);
   ("Review:3",
    obj [("id", VStr "r3"); ("rating", VNum 4); ("createdAt", VNum 0);
         ("text", VNull); ("creator", obj [("__ref", VStr "User:2")])])].

Definition work_id : string := "kca://work/amzn1.gr.work.v1.dune".

Definition apolloState (withQuery : bool) : value :=
  obj (("ROOT_QUERY", root_query withQuery)
       :: ("Work:kca://work/amzn1.gr.work.v1.dune", obj [])
       :: entities).

Definition state_of (cache : value) (config : list (string * value)) : value :=
  obj [("props", obj [("pageProps", obj (("apolloState", cache) :: config))])].

Definition nextData (config : list (string * value)) (withQuery : bool) : value :=
  state_of (apolloState withQuery) config.

(** A node of the query service whose creator has an empty name. *)
Definition node_r7 : value :=
  obj [("id", VStr "r7"); ("rating", VNum 4);
       ("createdAt", VNum 1700000000002);
       ("text", VStr "<p>Fine</p>");
       ("creator", user1)].

(** The answer of the query service for the second page. *)
Definition page2 : value :=
  obj [("data",
        obj [("getReviews",
              obj [("totalCount", VNum 3);
                   ("edges",
                    VArr [obj [("node", node_r7)];
                          obj [("node",
                                obj [("id", VStr "r8"); ("rating", VNum 3);
                                     ("createdAt", VNum 1700000000003);
                                     ("text", VStr "Meh");
                                     ("creator", user2)])]]);
                   ("pageInfo", obj [("nextPageToken", VNull)])])])].

(** A value that cannot be converted to a primitive: [{"toString": 0}]. *)
Definition opaque : value := obj [("toString", VNum 0)].

(** The answer of the query service for a work one of whose reviews has
    such a rating. *)
Definition opaque_work_id : string := "kca://work/opaque".

Definition page_opaque : value :=
  obj [("data",
        obj [("getReviews",
              obj [("totalCount", VNum 2);
                   ("edges",
                    VArr [obj [("node", node_r7)];
                          obj [("node", obj [("id", VStr "r12");
                                             ("rating", opaque)])]]);
                   ("pageInfo", obj [("nextPageToken", VNull)])])])].

(** The embedded states that the runtime can parse, each under the name
    that stands for its JSON text. *)
Definition documents : list (string * value) :=
  [("STATE", nextData [] true);
   ("STATE-WITH-CONFIG",
    nextData [("runtimeConfig", obj [("apiKey", VStr "da2-fromconfig")])] true);
   ("STATE-LAST-PAGE", nextData [] false);
   ("STATE-WITHOUT-CACHE", obj [("props", obj [("pageProps", obj [])])]);
   ("STATE-WITHOUT-WORK",
    state_of (obj (("ROOT_QUERY", root_query true) :: entities)) []);
   ("STATE-WITH-NUMERIC-TEXT",
    state_of (obj [("ROOT_QUERY", root_query true);
                   ("Work:kca://work/amzn1.gr.work.v1.dune", obj []);
                   ("Review:9", obj [("id", VStr "r9"); ("rating", VNum 5);
                                     ("text", VNum 42)])]) []);
   ("STATE-WITH-INHERITED-CREATOR",
    state_of (obj [("ROOT_QUERY", root_query true);
                   ("Work:kca://work/amzn1.gr.work.v1.dune", obj []);
                   ("Review:10", obj [("id", VStr "r10"); ("rating", VNum 5);
                                      ("text", VStr "Good");
                                      ("creator",
                                       obj [("__ref", VStr "constructor")])])]) []);
   ("STATE-WITH-OPAQUE-RATING",
    state_of (obj [("ROOT_QUERY", root_query true);
                   ("Work:kca://work/amzn1.gr.work.v1.dune", obj []);
                   ("Review:11", obj [("id", VStr "r11"); ("rating", opaque);
                                      ("text", VStr "Good")])]) [])].

Fixpoint assoc {A : Type} (l : list (string * A)) (k : string) : option A :=
  match l with
  | [] => None
  | (k', a) :: rest => if String.eqb k' k then Some a else assoc rest k
  end.

#[local] Instance runtime : Runtime := {|
  JSON_parse := assoc documents;
  StringToNumber := fun _ => NaN;
  toLocaleDateString := fun v => "on " ++ JS.ToString v;
  TypeError_message := fun _ => "Cannot convert object to primitive value"
|}.

Definition book_url : string := "https://www.goodreads.com/book/show/1".
Definition config_url : string := "https://www.goodreads.com/book/show/2".
Definition last_url : string := "https://www.goodreads.com/book/show/3".
Definition gone_url : string := "https://www.goodreads.com/book/show/404".

Definition page (ok : bool) (nextData : option string) (scripts : list (option string))
  : option (HttpResponse Document) :=
  Some {| ok := ok;
          payload := {| NEXT_DATA_html := nextData; script_html := scripts |} |}.

(** The book pages; a url that is not listed is answered with a status
    that is not ok, and the last one is not answered at all. *)
Definition pages : list (string * option (HttpResponse Document)) :=
  [(book_url,
    page true (Some "STATE")
         [Some "window.x = 1"; None;
          Some "cfg = {key: 'da2-frompage1', alt: 'da2-other'}"; Some "STATE"]);
   (config_url,
    page true (Some "STATE-WITH-CONFIG")
         [Some "cfg = {key: 'da2-frompage2'}"; Some "STATE-WITH-CONFIG"]);
   (last_url, page true (Some "STATE-LAST-PAGE") [Some "STATE-LAST-PAGE"]);
   ("https://www.goodreads.com/book/show/5", page true None [Some "window.x = 1"]);
   ("https://www.goodreads.com/book/show/6", page true (Some "{props:") [Some "{props:"]);
   ("https://www.goodreads.com/book/show/7",
    page true (Some "STATE-WITHOUT-CACHE") [Some "STATE-WITHOUT-CACHE"]);
   ("https://www.goodreads.com/book/show/8",
    page true (Some "STATE-WITHOUT-WORK") [Some "STATE-WITHOUT-WORK"]);
   ("https://www.goodreads.com/book/show/9",
    page true (Some "STATE-WITH-NUMERIC-TEXT") [Some "STATE-WITH-NUMERIC-TEXT"]);
   ("https://www.goodreads.com/unreachable", None);
   ("https://www.goodreads.com/book/show/10",
    page true (Some "STATE-WITH-INHERITED-CREATOR") [Some "STATE-WITH-INHERITED-CREATOR"]);
   ("https://www.goodreads.com/book/show/11",
    page true (Some "STATE-WITH-OPAQUE-RATING") [Some "STATE-WITH-OPAQUE-RATING"])].

Definition upstream : Upstream := {|
  book_page := fun url =>
    match assoc pages url with
    | Some answer => answer
    | None => page false None []
    end;
  review_service := fun q =>
    if String.eqb (resourceId q) work_id
    then Some {| ok := true; payload := Some page2 |}
    else if String.eqb (resourceId q) opaque_work_id
    then Some {| ok := true; payload := Some page_opaque |}
    else Some {| ok := false; payload := None |}
|}.

Definition request (url : string) (page : option string)
    (pageToken workId apiKey : option string) : Request :=
  {| q_url := Some url; q_page := page; q_pageToken := pageToken;
     q_workId := workId; q_apiKey := apiKey |}.

(** The request for the first page of a book, as the client sends it. *)
Definition first_page (url : string) : Request :=
  request url (Some "1") None None None.

(** The request for the second page, as the client sends it. *)
Definition second_page : Request :=
  request book_url (Some "2") (Some "tok2") (Some work_id) (Some "da2-frompage1").

(** The two reviews that the bootstrap of [book_url] pushes, and the whole
    of what that bootstrap returns. *)
Definition review_r1 : Review.t :=
  {| Review.id := VStr "r1";
     Review.rating := VNum 5;
     Review.reviewer := VStr "Anonymous";
     Review.reviewerUrl := VStr "https://www.goodreads.com/user/show/1";
     Review.date := "on 1700000000000";
     Review.content := "Great book, a<b" |}.

Definition review_r3 : Review.t :=
  {| Review.id := VStr "r3";
     Review.rating := VNum 4;
     Review.reviewer := VStr "Paul";
     Review.reviewerUrl := VStr "";
     Review.date := "";
     Review.content := "" |}.

Definition page1 : PageData.t :=
  {| PageData.workId := work_id;
     PageData.bookInfo := {| BookInfo.title := VStr "Dune";
                             BookInfo.author := VStr "Frank Herbert";
                             BookInfo.coverUrl := VStr "https://img/dune.jpg" |};
     PageData.initialReviews := [review_r1; review_r3];
     PageData.nextPageToken := VStr "tok2";
     PageData.totalCount := VNum 3;
     PageData.apiKey := VStr "da2-frompage1" |}.

(** What the bootstrap of [config_url] returns: the page has a key in a
    script and another one in its runtime configuration. *)
Definition page1_config : PageData.t :=
  {| PageData.workId := PageData.workId page1;
     PageData.bookInfo := PageData.bookInfo page1;
     PageData.initialReviews := PageData.initialReviews page1;
     PageData.nextPageToken := PageData.nextPageToken page1;
     PageData.totalCount := PageData.totalCount page1;
     PageData.apiKey := VStr "da2-fromconfig" |}.

(** The review that the cursor fetch pushes for [node_r7], and the whole of
    what that fetch returns. *)
Definition review_r7 : Review.t :=
  {| Review.id := VStr "r7";
     Review.rating := VNum 4;
     Review.reviewer := VStr "Anonymous";
     Review.reviewerUrl := VStr "https://www.goodreads.com/user/show/1";
     Review.date := "on 1700000000002";
     Review.content := "Fine" |}.

(** The review of the page whose creator reference is [constructor]. *)
Definition review_r10 : Review.t :=
  {| Review.id := VStr "r10";
     Review.rating := VNum 5;
     Review.reviewer := VStr "Object";
     Review.reviewerUrl := VStr "";
     Review.date := "";
     Review.content := "Good" |}.

Definition page2_result : GraphQLResult.t :=
  {| GraphQLResult.reviews := [review_r7];
     GraphQLResult.nextPageToken := VNull;
     GraphQLResult.totalCount := VNum 3 |}.

End Demo.

(* ------------------------------------------------------------------ *)
(** ** Further notions: what the two loops keep, how the query service
    fails *)

Section MoreNotions.
Context {rt : Runtime} (up : Upstream).

(** The test of lines 153 and 249: [record && record.rating >= 4]. *)
Definition kept (record : value) : bool :=
  (JS.truthy record && JS.ge (JS.own record "rating") 4)%bool.

(** A text that [content_of] accepts: a string, [null] or [undefined]. *)
Definition text_like (v : value) : bool :=
  match v with
  | VUndef | VNull | VStr _ => true
  | _ => false
  end.

(** A timestamp that [date_of] accepts, and a reference that can be made
    a key: a falsy value, which is not converted, or a value whose
    conversion returns. *)
Definition date_like (v : value) : bool := implb (JS.truthy v) (JS.convertible v).

Definition key_like (v : value) : bool := implb (JS.truthy v) (JS.convertible v).

(** Line 247: [reviewsConnection.edges || []] *)
Definition edges_of (data : value) : value :=
  JS.or (JS.own (connection_of data) "edges") (VArr []).

End MoreNotions.

Section LoopNotions.
Context {rt : Runtime}.

(** A node that the body of the cursor loop gets past: when it is truthy
    its rating can be compared, and when it is kept its timestamp can be
    made a date and its text is a string or nullish. *)
Definition node_sound (node : value) : bool :=
  implb (JS.truthy node)
        (JS.convertible (JS.own node "rating") &&
         implb (JS.ge (JS.own node "rating") 4)
               (date_like (JS.own node "createdAt") &&
                text_like (JS.own node "text")))%bool.

(** An edge whose node is kept, and an edge the cursor loop gets past: it
    is not [null], and its node is sound. *)
Definition edge_kept (edge : value) : bool := kept (JS.own edge "node").

Definition edge_sound (edge : value) : bool :=
  (negb (JS.is_nullish edge) && node_sound (JS.own edge "node"))%bool.

(** The same for a review entity of the cache, of which the reference to
    the creator is made a key as well, and for the key of one. *)
Definition entity_sound (review : value) : bool :=
  implb (JS.truthy review)
        (JS.convertible (JS.own review "rating") &&
         implb (JS.ge (JS.own review "rating") 4)
               (key_like (JS.optional (JS.own review "creator") "__ref") &&
                date_like (JS.own review "createdAt") &&
                text_like (JS.own review "text")))%bool.

Definition key_kept (apolloState : value) (key : string) : bool :=
  kept (JS.own apolloState key).

Definition key_sound (apolloState : value) (key : string) : bool :=
  entity_sound (JS.own apolloState key).


End LoopNotions.

Section QueryNotions.
Context {rt : Runtime} (up : Upstream).

(** The ways the cursor fetch of the query [q] fails: the fetch is
    rejected; the status is not ok; the body is not JSON; the connection
    object is missing; its edges cannot be iterated; one of the edges is
    not sound: it is [null], or the rating of its node cannot be compared,
    or its node is kept and has a timestamp that cannot be made a date or
    a text that is neither a string nor nullish. *)
Inductive QueryFailure (q : GraphQLCall) : Prop :=
| query_rejected :
    review_service up q = None ->
    QueryFailure q
| query_not_ok response :
    review_service up q = Some response ->
    ok response = false ->
    QueryFailure q
| query_body_not_json response :
    review_service up q = Some response ->
    ok response = true ->
    payload response = None ->
    QueryFailure q
| query_connection_missing response data :
    review_service up q = Some response ->
    ok response = true ->
    payload response = Some data ->
    JS.truthy (connection_of data) = false ->
    QueryFailure q
| query_edges_not_iterable response data :
    review_service up q = Some response ->
    ok response = true ->
    payload response = Some data ->
    JS.truthy (connection_of data) = true ->
    iterate (edges_of data) = Throw ->
    QueryFailure q
| query_edge_unsound response data items :
    review_service up q = Some response ->
    ok response = true ->
    payload response = Some data ->
    JS.truthy (connection_of data) = true ->
    iterate (edges_of data) = Return items ->
    forallb edge_sound items = false ->
    QueryFailure q.

End QueryNotions.

(* ------------------------------------------------------------------ *)
(** ** Further notions: shapes of strings *)

Fixpoint all_chars (f : ascii -> bool) (s : string) : bool :=
  match s with
  | EmptyString => true
  | String c r => (f c && all_chars f r)%bool
  end.

(** A text of the form [da2-] (in either case) followed by one or more
    letters or digits, and nothing else. *)
Definition key_shaped (k : string) : bool :=
  match k with
  | String c1 (String c2 (String c3 (String c4 run))) =>
      ((Ascii.eqb c1 "d" || Ascii.eqb c1 "D") &&
       (Ascii.eqb c2 "a" || Ascii.eqb c2 "A") &&
       Ascii.eqb c3 "2" && Ascii.eqb c4 "-" &&
       negb (String.eqb run "") && all_chars KeyPattern.is_key_char run)%bool
  | _ => false
  end.

(** [starts_with_key_char s]: the first character of [s] is a letter or a
    digit. *)
Definition starts_with_key_char (s : string) : bool :=
  match s with
  | EmptyString => false
  | String c _ => KeyPattern.is_key_char c
  end.

(** [sub] is [s] with some characters left out. *)
Inductive subsequence : string -> string -> Prop :=
| subsequence_nil : subsequence "" ""
| subsequence_keep c sub s : subsequence sub s -> subsequence (String c sub) (String c s)
| subsequence_drop c sub s : subsequence sub s -> subsequence sub (String c s).

(** The integer that a run of decimal digits stands for, after the digits
    worth [acc] that were read before it. *)
Fixpoint decimal_value (acc : Z) (d : Decimal.uint) : Z :=
  match d with
  | Decimal.Nil => acc
  | Decimal.D0 d => decimal_value (10 * acc) d
  | Decimal.D1 d => decimal_value (10 * acc + 1) d
  | Decimal.D2 d => decimal_value (10 * acc + 2) d
  | Decimal.D3 d => decimal_value (10 * acc + 3) d
  | Decimal.D4 d => decimal_value (10 * acc + 4) d
  | Decimal.D5 d => decimal_value (10 * acc + 5) d
  | Decimal.D6 d => decimal_value (10 * acc + 6) d
  | Decimal.D7 d => decimal_value (10 * acc + 7) d
  | Decimal.D8 d => decimal_value (10 * acc + 8) d
  | Decimal.D9 d => decimal_value (10 * acc + 9) d
  end.

Definition starts_with_digit (s : string) : bool :=
  match s with
  | EmptyString => false
  | String c _ => Str.is_digit c
  end.

(* ------------------------------------------------------------------ *)
(** ** The page that calls the route (src/app/page.tsx)

    The component [Home] keeps its state in nine [useState] cells and
    changes it in three handlers, each of which calls the route through
    [fetchReviews].  A handler is embedded as the function from the state
    it starts in to the state it leaves when its request has been answered:
    the controls are disabled while a request is in flight, so that the
    handlers run one after the other.

    What the page receives is the body that the route gave to
    [NextResponse.json], after [JSON.stringify] and [response.json()]: a
    [currentPage] that is [NaN] arrives as [null]; nothing else that the
    page reads is changed.  The query string is taken as the parameters it
    carries: [encodeURIComponent] and [searchParams.get] undo each other. *)

Module Client.

(** An array, with the values under its index keys ([undefined] for a
    hole) and the values that were stored under other integer keys, the
    latest first. *)
Record JSArray : Type := {
  items : list value;
  others : list (Z * value)
}.

Definition is_index (i : Z) : bool := ((0 <=? i) && (i <? 4294967295))%bool.

Fixpoint other (l : list (Z * value)) (i : Z) : value :=
  match l with
  | [] => VUndef
  | (k, v) :: rest => if k =? i then v else other rest i
  end.

(** [a[i]] *)
Definition get (a : JSArray) (i : Z) : value :=
  if is_index i then nth (Z.to_nat i) (items a) VUndef else other (others a) i.

Fixpoint set_nth (l : list value) (n : nat) (v : value) : list value :=
  match n, l with
  | O, [] => [v]
  | O, _ :: rest => v :: rest
  | S k, [] => VUndef :: set_nth [] k v
  | S k, x :: rest => x :: set_nth rest k v
  end.

(** [a[i] = v]: an index past the end extends the array. *)
Definition set (a : JSArray) (i : Z) (v : value) : JSArray :=
  if is_index i
  then {| items := set_nth (items a) (Z.to_nat i) v; others := others a |}
  else {| items := items a; others := (i, v) :: others a |}.

(** [[...a]]: the indexed values only. *)
Definition spread (a : JSArray) : JSArray := {| items := items a; others := [] |}.

(** [s.trim()] *)
Fixpoint trim_end (s : string) : string :=
  match s with
  | EmptyString => EmptyString
  | String c r =>
      let r' := trim_end r in
      if (JS.is_white_space c && String.eqb r' "")%bool then EmptyString
      else String c r'
  end.

Definition trim (s : string) : string := trim_end (JS.trim_start s).

(** What [data] holds: the body of a success, or, had a response with an
    ok status carried an error body, that body, which has no [pagination]. *)
Inductive Shown : Type :=
| ShownBody (body : Body.t)
| ShownError (message : string).

Record State : Type := {
  url : string;
  loading : bool;
  error : option string;
  data : option Shown;
  currentUrl : string;
  bookInfo : option BookInfo.t;
  workId : option string;
  apiKey : value;
  pageTokens : JSArray
}.

(** The state of the first render. *)
Definition initial : State :=
  {| url := ""; loading := false; error := None; data := None; currentUrl := "";
     bookInfo := None; workId := None; apiKey := VNull;
     pageTokens := {| items := [VNull]; others := [] |} |}.

Definition setUrl (v : string) (s : State) : State :=
  {| url := v; loading := loading s; error := error s; data := data s;
     currentUrl := currentUrl s; bookInfo := bookInfo s; workId := workId s;
     apiKey := apiKey s; pageTokens := pageTokens s |}.

Definition setLoading (v : bool) (s : State) : State :=
  {| url := url s; loading := v; error := error s; data := data s;
     currentUrl := currentUrl s; bookInfo := bookInfo s; workId := workId s;
     apiKey := apiKey s; pageTokens := pageTokens s |}.

Definition setError (v : option string) (s : State) : State :=
  {| url := url s; loading := loading s; error := v; data := data s;
     currentUrl := currentUrl s; bookInfo := bookInfo s; workId := workId s;
     apiKey := apiKey s; pageTokens := pageTokens s |}.

Definition setData (v : option Shown) (s : State) : State :=
  {| url := url s; loading := loading s; error := error s; data := v;
     currentUrl := currentUrl s; bookInfo := bookInfo s; workId := workId s;
     apiKey := apiKey s; pageTokens := pageTokens s |}.

Definition setCurrentUrl (v : string) (s : State) : State :=
  {| url := url s; loading := loading s; error := error s; data := data s;
     currentUrl := v; bookInfo := bookInfo s; workId := workId s;
     apiKey := apiKey s; pageTokens := pageTokens s |}.

Definition setBookInfo (v : option BookInfo.t) (s : State) : State :=
  {| url := url s; loading := loading s; error := error s; data := data s;
     currentUrl := currentUrl s; bookInfo := v; workId := workId s;
     apiKey := apiKey s; pageTokens := pageTokens s |}.

Definition setWorkId (v : option string) (s : State) : State :=
  {| url := url s; loading := loading s; error := error s; data := data s;
     currentUrl := currentUrl s; bookInfo := bookInfo s; workId := v;
     apiKey := apiKey s; pageTokens := pageTokens s |}.

Definition setApiKey (v : value) (s : State) : State :=
  {| url := url s; loading := loading s; error := error s; data := data s;
     currentUrl := currentUrl s; bookInfo := bookInfo s; workId := workId s;
     apiKey := v; pageTokens := pageTokens s |}.

(** [setPageTokens((prev) => f(prev))] *)
Definition setPageTokens (f : JSArray -> JSArray) (s : State) : State :=
  {| url := url s; loading := loading s; error := error s; data := data s;
     currentUrl := currentUrl s; bookInfo := bookInfo s; workId := workId s;
     apiKey := apiKey s; pageTokens := f (pageTokens s) |}.

(** What [fetch(apiUrl)] and [response.json()] give: they reject, with an
    error that has a message, or there is a response. *)
Inductive Answer : Type :=
| Rejected (message : string)
| Answered (response : Response).

(** [response.ok] *)
Definition response_ok (response : Response) : bool :=
  ((200 <=? status_of response) && (status_of response <=? 299))%bool.

(** [result.error] *)
Definition error_of (response : Response) : option string :=
  match response with
  | Failure _ message => Some message
  | Success _ => None
  end.

(** A parameter that is added to the query only when its value is truthy,
    and then as [encodeURIComponent] converts it. *)
Definition parameter (v : value) : option string :=
  if JS.truthy v then Some (JS.ToString v) else None.

(** Whether adding the parameter returns: [encodeURIComponent] throws a
    [TypeError] on a value that cannot be converted. *)
Definition encodable (v : value) : bool := implb (JS.truthy v) (JS.convertible v).

(** Lines 78-87: the query of [apiUrl], once it is built. *)
Definition query (bookUrl : string) (page : Z) (pageToken : value)
    (existingWorkId : option string) (existingApiKey : value) : Request :=
  {| q_url := Some bookUrl;
     q_page := Some (Str.of_Z page);
     q_pageToken := parameter pageToken;
     q_workId := or_null existingWorkId;
     q_apiKey := parameter existingApiKey |}.

(** Lines 96-121: the state after a response with an ok status. *)
Definition store (page : Z) (bookUrl : string) (response : Response) (s : State)
  : State :=
  match response with
  | Success result =>
      let s := match Body.book result with
               | Some book => setBookInfo (Some book) s
               | None => s
               end in
      let s := if given (Some (Pagination.workId (Body.pagination result)))
               then setWorkId (Some (Pagination.workId (Body.pagination result))) s
               else s in
      let s := match Pagination.apiKey (Body.pagination result) with
               | Some key => if JS.truthy key then setApiKey key s else s
               | None => s
               end in
      let token := Pagination.nextPageToken (Body.pagination result) in
      let s := if JS.truthy token
               then setPageTokens (fun prev => set (spread prev) page token) s
               else s in
      setCurrentUrl bookUrl (setData (Some (ShownBody result)) s)
  | Failure _ message =>
      setCurrentUrl bookUrl (setData (Some (ShownError message)) s)
  end.

Section WithServer.
Context {rt : Runtime}.
Variable server : Request -> Answer.

(** Lines 65-127: what is thrown in the [try], while [apiUrl] is built or
    by the request, is caught, and its message becomes the error. *)
Definition fetchReviews (s : State) (bookUrl : string) (page : Z) (pageToken : value)
    (existingWorkId : option string) (existingApiKey : value) : State :=
  if String.eqb (trim bookUrl) "" then s else
  let s := setError None (setLoading true s) in
  let s :=
    if negb (encodable pageToken)
    then setError (Some (TypeError_message pageToken)) s
    else if negb (encodable existingApiKey)
    then setError (Some (TypeError_message existingApiKey)) s
    else
      match server (query bookUrl page pageToken existingWorkId existingApiKey) with
      | Rejected message => setError (Some message) s
      | Answered response =>
          if negb (response_ok response)
          then setError (Some (or_else (error_of response) "Failed to fetch reviews")) s
          else store page bookUrl response s
      end in
  setLoading false s.

(** Lines 129-137. *)
Definition handleSubmit (s : State) : State :=
  let cleared :=
    setPageTokens (fun _ => {| items := [VNull]; others := [] |})
      (setApiKey VNull (setWorkId None (setBookInfo None (setData None s)))) in
  fetchReviews cleared (url s) 1 VUndef None VUndef.

(** [currentPage + 1] and [currentPage - 1], where [currentPage] arrived
    as a number or, for [NaN], as [null]. *)
Definition plus_one (currentPage : number) : Z :=
  match currentPage with
  | NaN => 0 + 1
  | Num z => z + 1
  end.

Definition minus_one (currentPage : number) : Z :=
  match currentPage with
  | NaN => 0 - 1
  | Num z => z - 1
  end.

(** Lines 139-145; reading [pagination] off an error body throws, and the
    state stays as it is. *)
Definition goToNextPage (s : State) : State :=
  match data s with
  | None => s
  | Some (ShownError _) => s
  | Some (ShownBody body) =>
      let nextPage := plus_one (Pagination.currentPage (Body.pagination body)) in
      let token := Pagination.nextPageToken (Body.pagination body) in
      fetchReviews s (currentUrl s) nextPage token (workId s) (apiKey s)
  end.

(** Lines 147-159. *)
Definition goToPrevPage (s : State) : State :=
  match data s with
  | None => s
  | Some (ShownError _) => s
  | Some (ShownBody body) =>
      let prevPage := minus_one (Pagination.currentPage (Body.pagination body)) in
      if prevPage =? 1 then fetchReviews s (currentUrl s) 1 VUndef None VUndef
      else
        let token := get (pageTokens s) (prevPage - 1) in
        fetchReviews s (currentUrl s) prevPage token (workId s) (apiKey s)
  end.

(** Line 161: [data?.book || bookInfo] *)
Definition displayBook (s : State) : option BookInfo.t :=
  match data s with
  | Some (ShownBody body) =>
      match Body.book body with
      | Some book => Some book
      | None => bookInfo s
      end
  | _ => bookInfo s
  end.

(** What the user does: typing into the box, and the three controls, each
    of which does nothing while it is disabled or not rendered. *)
Inductive Event : Type :=
| Type_ (text : string)
| Submit
| Previous
| Next.

Definition react (s : State) (e : Event) : State :=
  match e with
  | Type_ text => setUrl text s
  | Submit => if loading s then s else handleSubmit s
  | Previous =>
      match data s with
      | Some (ShownBody body) =>
          if (negb (Pagination.hasPrev (Body.pagination body)) || loading s)%bool
          then s else goToPrevPage s
      | _ => s
      end
  | Next =>
      match data s with
      | Some (ShownBody body) =>
          if (negb (Pagination.hasNext (Body.pagination body)) || loading s)%bool
          then s else goToNextPage s
      | _ => s
      end
  end.

Definition run (s : State) (events : list Event) : State := fold_left react events s.

End WithServer.

(** [l.map(f)] for an [f] that may throw. *)
Fixpoint each {A B : Type} (f : A -> Outcome B) (l : list A) : Outcome (list B) :=
  (match l with
   | [] => Return []
   | x :: rest =>
       y <- f x ;;
       ys <- each f rest ;;
       Return (y :: ys)
   end)%outcome.

(** Lines 37-52: which of the five stars of a rating are lit
    ([star <= rating]). *)
Definition StarRating {rt : Runtime} (rating : value) : Outcome (list bool) :=
  each (fun star => JS.at_least rating star) [1; 2; 3; 4; 5].

(** The route as the server of the page. *)
Definition route {rt : Runtime} (up : Upstream) (request : Request) : Answer :=
  match fst (GET up request []) with
  | Return response => Answered response
  | Throw => Rejected "Internal Server Error"
  end.

End Client.

(** The route of the small world as the server of the page. *)
Module DemoPage.

Definition server : Request -> Client.Answer :=
  Client.route (rt := Demo.runtime) Demo.upstream.

End DemoPage.

(* ------------------------------------------------------------------ *)
(** ** What the page remembers of its session *)

Section Session.
Context {rt : Runtime} (up : Upstream).

(** The request that fetches once more the page that is shown: page 1 is
    bootstrapped; a later page is asked for with the token that the page
    stored for the page before it. *)
Definition refetch (s : Client.State) (n : Z) : Request :=
  if n =? 1
  then Client.query (Client.currentUrl s) 1 VUndef None VUndef
  else Client.query (Client.currentUrl s) n
                    (Client.get (Client.pageTokens s) (n - 1))
                    (Client.workId s) (Client.apiKey s).

(** The state shows page [n] of a session: [body] is what the route
    answers to the request that fetches the page once more, a request
    that can be built when it carries a token and a credential; what the
    page remembers of the work, the credential and the book is what the
    bootstrap of the current url finds, and the token of the page that is
    shown, when there is one, is stored under the number of the page. *)
Record showing (s : Client.State) (body : Body.t) (n : Z) (pageData : PageData.t)
  : Prop := {
  showing_data : Client.data s = Some (Client.ShownBody body);
  showing_page : Pagination.currentPage (Body.pagination body) = Num n;
  showing_from_one : 1 <= n;
  showing_bootstrap :
    fst (fetchBookPageData up (Client.currentUrl s) []) = Return (Some pageData);
  showing_workId : Client.workId s = Some (PageData.workId pageData);
  showing_apiKey : Client.apiKey s = PageData.apiKey pageData;
  showing_bookInfo : Client.bookInfo s = Some (PageData.bookInfo pageData);
  showing_refetch : Client.route up (refetch s n) = Client.Answered (Success body);
  showing_token :
    JS.truthy (Pagination.nextPageToken (Body.pagination body)) = true ->
    Client.get (Client.pageTokens s) n
    = Pagination.nextPageToken (Body.pagination body);
  showing_sent :
    n <> 1 ->
    Client.encodable (Client.get (Client.pageTokens s) (n - 1)) = true /\
    Client.encodable (Client.apiKey s) = true
}.

(** A state at rest: no request is in flight, and either nothing is shown
    or a page of a session is. *)
Definition coherent (s : Client.State) : Prop :=
  Client.loading s = false /\
  (Client.data s = None \/ exists body n pageData, showing s body n pageData).

End Session.

(** No page beyond [k] is shown. *)
Definition within (k : Z) (s : Client.State) : Prop :=
  forall body n,
    Client.data s = Some (Client.ShownBody body) ->
    Pagination.currentPage (Body.pagination body) = Num n ->
    n <= k.
(* ------------------------------------------------------------------ *)
(** ** Examples *)

Example strip_element : stripAllTags "a<b>c" = "ac".
Proof. vm_compute. reflexivity. Qed.
Example strip_once : stripAllTags "<<b>script>x<" = "script>x<".
Proof. vm_compute. reflexivity. Qed.
Example strip_comparison : stripAllTags "1 < 2 and 3 > 2" = "1  2".
Proof. vm_compute. reflexivity. Qed.
Example strip_unclosed : stripAllTags "a > b < c" = "a > b < c".
Proof. vm_compute. reflexivity. Qed.

Example parseInt_prefix : JS.parseInt " 42px" = Num 42.
Proof. reflexivity. Qed.
Example parseInt_negative : JS.parseInt "-3" = Num (-3).
Proof. reflexivity. Qed.
Example parseInt_letters : JS.parseInt "abc" = NaN.
Proof. reflexivity. Qed.
Example parseInt_no_hex : JS.parseInt "0x10" = Num 0.
Proof. reflexivity. Qed.
Example parseInt_sign_only : JS.parseInt "-" = NaN.
Proof. reflexivity. Qed.

Example key_in_quotes :
  KeyPattern.first_match "var k = 'DA2-abcXYZ09'; da2-zz" = Some "DA2-abcXYZ09".
Proof. reflexivity. Qed.
Example key_needs_a_character : KeyPattern.first_match "da2- da2-q_" = Some "da2-q".
Proof. reflexivity. Qed.
Example key_inside_a_word : KeyPattern.first_match "xda2-7f" = Some "da2-7f".
Proof. reflexivity. Qed.
Example key_absent : KeyPattern.first_match "da2_abc 'da2-'" = None.
Proof. reflexivity. Qed.

Example ToString_array :
  JS.ToString (VArr [VNum 1; VNull; VArr [VStr "a"; VNum (-2)]]) = "1,,a,-2".
Proof. reflexivity. Qed.
Example ToString_zero : JS.ToString (VNum 0) = "0".
Proof. reflexivity. Qed.
Example own_index : JS.own (VArr [VNum 7; VNum 8]) "1" = VNum 8.
Proof. reflexivity. Qed.

Example inherited_constructor : JS.get (VObj []) "constructor" = JS.Builtin "Object".
Proof. reflexivity. Qed.
Example own_constructor :
  JS.get (VObj [("constructor", VNum 1)]) "constructor" = JS.Data (VNum 1).
Proof. reflexivity. Qed.
Example inherited_prototype : JS.get (VObj []) "__proto__" = JS.Prototype.
Proof. reflexivity. Qed.
Example absent_key : JS.get (VObj [("a", VNum 1)]) "b" = JS.Data VUndef.
Proof. reflexivity. Qed.
Example name_of_a_function :
  JS.field (JS.Builtin "hasOwnProperty") "name" = VStr "hasOwnProperty".
Proof. reflexivity. Qed.

Example own_toString_cannot_be_called :
  JS.to_string (VObj [("toString", VNum 0)]) = Throw.
Proof. reflexivity. Qed.
Example own_valueOf_is_passed_over :
  JS.to_string (VObj [("valueOf", VNum 0)]) = Return "[object Object]".
Proof. reflexivity. Qed.
Example array_converts_its_elements :
  JS.to_string (VArr [VNum 1; VObj [("toString", VNull)]]) = Throw.
Proof. reflexivity. Qed.
Example array_skips_null :
  JS.to_string (VArr [VNum 1; VNull; VStr "a"]) = Return "1,,a".
Proof. reflexivity. Qed.

(* ------------------------------------------------------------------ *)
(** ** Properties of [stripAllTags] *)

Section Strip.

Lemma tag_end_none (s : string) : tag_end s = None <-> has_gt s = false.
Proof.
  induction s as [|c r IH]; simpl; [tauto|].
  destruct (Ascii.eqb c ">"); [split; discriminate | exact IH].
Qed.

Lemma tag_end_some (s rest : string) :
  tag_end s = Some rest -> exists b, s = b ++ ">" ++ rest /\ has_gt b = false.
Proof.
  revert rest; induction s as [|c r IH]; simpl; intros rest H; [discriminate|].
  destruct (Ascii.eqb c ">") eqn:E.
  - apply Ascii.eqb_eq in E; subst c. injection H as <-.
    exists ""; split; reflexivity.
  - destruct (IH _ H) as (b & -> & Hb).
    exists (String c b); split; [reflexivity|]. simpl. now rewrite E.
Qed.

Lemma tag_end_app (b rest : string) :
  has_gt b = false -> tag_end (b ++ ">" ++ rest) = Some rest.
Proof.
  induction b as [|c b IH]; simpl; intros H; [reflexivity|].
  destruct (Ascii.eqb c ">"); [discriminate | auto].
Qed.

Lemma has_gt_app (b c : string) : has_gt (b ++ ">" ++ c) = true.
Proof.
  induction b as [|x b IH]; simpl; [reflexivity|].
  now destruct (Ascii.eqb x ">").
Qed.

Lemma has_gt_split (s : string) :
  has_gt s = true -> exists b c, s = b ++ ">" ++ c.
Proof.
  induction s as [|x r IH]; simpl; [discriminate|].
  destruct (Ascii.eqb x ">") eqn:E; intros H.
  - apply Ascii.eqb_eq in E; subst x. now exists "", r.
  - destruct (IH H) as (b & c & ->). now exists (String x b), c.
Qed.

Lemma has_gt_stripAllTags (s : string) :
  has_gt s = false -> has_gt (stripAllTags s) = false.
Proof.
  functional induction (stripAllTags s); simpl; intros H; auto.
  - (* a tag was closed, so there is a [>] *)
    destruct (Ascii.eqb c ">"); [discriminate|].
    apply tag_end_none in H. congruence.
  - destruct (Ascii.eqb c ">"); [discriminate | auto].
  - destruct (Ascii.eqb c ">"); [discriminate | auto].
Qed.

Lemma has_tag_stripAllTags (s : string) : has_tag (stripAllTags s) = false.
Proof.
  functional induction (stripAllTags s); simpl; auto.
  - rewrite e0, IHs0, orb_false_r.
    apply has_gt_stripAllTags, tag_end_none; assumption.
  - now rewrite e0.
Qed.

Lemma has_tag_no_tag (s : string) : has_tag s = false <-> no_tag s.
Proof.
  split.
  - intros H (a & b & c & ->).
    pose proof (has_gt_app b c) as G; simpl in G.
    revert H. induction a as [|x a IH]; simpl.
    + now rewrite G.
    + destruct (Ascii.eqb x "<"); [|exact IH].
      intros H; apply orb_false_iff in H. tauto.
  - intros H. destruct (has_tag s) eqn:E; [|reflexivity].
    exfalso; apply H; clear H.
    induction s as [|x r IH]; simpl in E; [discriminate|].
    destruct (Ascii.eqb x "<") eqn:Ex.
    + apply Ascii.eqb_eq in Ex; subst x.
      destruct (has_gt r) eqn:Eg.
      * destruct (has_gt_split _ Eg) as (b & c & ->). now exists "", b, c.
      * destruct (IH E) as (a & b & c & ->). now exists (String "<" a), b, c.
    + destruct (IH E) as (a & b & c & ->). now exists (String x a), b, c.
Qed.

Lemma Stripped_stripAllTags (s : string) : Stripped s (stripAllTags s).
Proof.
  functional induction (stripAllTags s).
  - constructor.
  - apply Ascii.eqb_eq in e0; subst c.
    destruct (tag_end_some _ _ e1) as (b & -> & Hb).
    now apply (Stripped_tag b rest).
  - apply Ascii.eqb_eq in e0; subst c.
    apply Stripped_open; [now apply tag_end_none | assumption].
  - apply Stripped_keep; [|assumption].
    intros ->. now rewrite Ascii.eqb_refl in e0.
Qed.

Lemma Stripped_unique (s out : string) : Stripped s out -> out = stripAllTags s.
Proof.
  induction 1 as [|c r out Hc _ IH|r out Hr _ IH|b rest out Hb _ IH];
    rewrite stripAllTags_equation.
  - reflexivity.
  - apply Ascii.eqb_neq in Hc. rewrite Hc. now f_equal.
  - rewrite Ascii.eqb_refl. apply tag_end_none in Hr. rewrite Hr. now f_equal.
  - pose proof (tag_end_app b rest Hb) as G. simpl in G |- *. now rewrite G.
Qed.

End Strip.

(* ------------------------------------------------------------------ *)
(** ** How the two fetch paths build their results *)

(** [H : (x <- m ;; k) = Return _]: [m] returned. *)
Ltac bind_inv H x E :=
  match type of H with
  | obind ?m _ = Return _ =>
      destruct m as [x|] eqn:E; [cbn [obind] in H | discriminate H]
  end.

(** [H : (if b then _ else _) = _]: name the test. *)
Ltac test_inv H E :=
  match type of H with
  | (if ?b then _ else _) = _ => destruct b eqn:E
  end.

Lemma or_else_Some (s : string) : or_else (Some s) "" = s.
Proof.
  unfold or_else. destruct (String.eqb s "") eqn:E; [|reflexivity].
  now apply String.eqb_eq in E.
Qed.

Lemma given_Some (o : option string) :
  given o = true -> exists s, o = Some s /\ s <> "" /\ or_else o "" = s.
Proof.
  destruct o as [s|]; simpl; [|discriminate].
  intros H. exists s. destruct (String.eqb s "") eqn:E; [discriminate|].
  apply String.eqb_neq in E. auto.
Qed.

Lemma member_Return (v x : value) (k : string) :
  JS.member v k = Return x -> x = JS.own v k /\ JS.is_nullish v = false.
Proof.
  unfold JS.member. destruct (JS.is_nullish v); [discriminate|].
  intros H; injection H as <-. auto.
Qed.

Lemma member_truthy (v : value) (k : string) :
  JS.truthy v = true -> JS.member v k = Return (JS.own v k).
Proof. destruct v; simpl; try discriminate; reflexivity. Qed.

Lemma optional_own (v : value) (k : string) :
  JS.is_nullish v = false -> JS.optional v k = JS.own v k.
Proof. unfold JS.optional. now intros ->. Qed.

Lemma optional_falsy (v : value) (k : string) :
  String.eqb k "length" = false ->
  JS.truthy v = false -> JS.optional v k = VUndef.
Proof.
  intros Hk. destruct v as [| |b|z|s| |]; simpl; try discriminate; try reflexivity.
  intros H. apply negb_false_iff, String.eqb_eq in H; subst s.
  unfold JS.optional, JS.own, JS.indexed; simpl. now rewrite Hk.
Qed.

Section Paths.
Context {rt : Runtime} (up : Upstream).

Lemma at_least_Return (v : value) (n : Z) (b : bool) :
  JS.at_least v n = Return b -> JS.convertible v = true /\ b = JS.ge v n.
Proof.
  unfold JS.at_least. destruct (JS.convertible v); [|discriminate].
  intros H; injection H as <-. auto.
Qed.

Lemma to_string_Return (v : value) (k : string) :
  JS.to_string v = Return k -> JS.convertible v = true /\ k = JS.ToString v.
Proof.
  unfold JS.to_string. destruct (JS.convertible v); [|discriminate].
  intros H; injection H as <-. auto.
Qed.

Lemma index_Return (v k : value) (m : JS.Member) :
  JS.index v k = Return m ->
  JS.is_nullish v = false /\ JS.convertible k = true /\
  m = JS.get v (JS.ToString k).
Proof.
  unfold JS.index. destruct (JS.is_nullish v); [discriminate|].
  intros H. bind_inv H key Ek. apply to_string_Return in Ek as [Hc ->].
  injection H as <-. auto.
Qed.


Lemma content_of_Return (text : value) (c : string) :
  content_of text = Return c ->
  has_tag c = false /\
  (forall t, text = VStr t -> c = stripAllTags t) /\
  (JS.is_nullish text = true -> c = "").
Proof.
  destruct text; unfold content_of; try discriminate; intros H; injection H as <-;
    try (repeat split; try reflexivity; discriminate).
  pose proof (or_else_Some (stripAllTags s)) as E; unfold or_else in E.
  rewrite E. repeat split.
  - apply has_tag_stripAllTags.
  - intros t [= ->]. reflexivity.
  - discriminate.
Qed.

(** What a pushed review of the bootstrap path is made of. *)
Lemma reviewOfEntity_Some (apolloState review : value) (r : Review.t) :
  reviewOfEntity apolloState review = Return (Some r) ->
  JS.truthy review = true /\
  Review.id r = JS.own review "id" /\
  Review.rating r = JS.own review "rating" /\
  JS.ge (Review.rating r) 4 = true /\
  resolveReviewer apolloState review
    = Return (Review.reviewer r, Review.reviewerUrl r) /\
  date_of (JS.own review "createdAt") = Return (Review.date r) /\
  content_of (JS.own review "text") = Return (Review.content r) /\
  JS.convertible (Review.rating r) = true.
Proof.
  unfold reviewOfEntity. intros H.
  test_inv H Et; [discriminate|]. apply negb_false_iff in Et.
  rewrite !(member_truthy _ _ Et) in H. cbn [obind] in H.
  bind_inv H good Eg. apply at_least_Return in Eg as [Hc ->].
  test_inv H Egd; [discriminate|]. apply negb_false_iff in Egd.
  bind_inv H who Ew. bind_inv H d Ed. bind_inv H c Ec.
  injection H as <-. cbn. destruct who. auto 10.
Qed.

(** What a pushed review of the cursor path is made of. *)
Lemma reviewOfNode_Some (node : value) (r : Review.t) :
  reviewOfNode node = Return (Some r) ->
  JS.truthy node = true /\
  Review.id r = JS.own node "id" /\
  Review.rating r = JS.own node "rating" /\
  JS.ge (Review.rating r) 4 = true /\
  Review.reviewer r
    = JS.or (JS.optional (JS.own node "creator") "name") (VStr "Anonymous") /\
  Review.reviewerUrl r
    = JS.or (JS.optional (JS.own node "creator") "webUrl") (VStr "") /\
  date_of (JS.own node "createdAt") = Return (Review.date r) /\
  content_of (JS.own node "text") = Return (Review.content r) /\
  JS.convertible (Review.rating r) = true.
Proof.
  unfold reviewOfNode. intros H.
  test_inv H Et; [discriminate|]. apply negb_false_iff in Et.
  rewrite !(member_truthy _ _ Et) in H. cbn [obind] in H.
  bind_inv H good Eg. apply at_least_Return in Eg as [Hc ->].
  test_inv H Egd; [discriminate|]. apply negb_false_iff in Egd.
  bind_inv H d Ed. bind_inv H c Ec.
  injection H as <-. cbn. auto 10.
Qed.

(** The loop over the review keys only appends, and what it appends are the
    pushed reviews of entities of the cache. *)
Lemma collectEntities_Return (apolloState : value) (reviewKeys : list string) :
  forall reviews out,
    collectEntities apolloState reviewKeys reviews = Return out ->
    exists pushed,
      out = (reviews ++ pushed)%list /\
      Forall (fun r => exists key,
                  In key reviewKeys /\
                  reviewOfEntity apolloState (JS.own apolloState key)
                    = Return (Some r)) pushed.
Proof.
  induction reviewKeys as [|key rest IH]; intros reviews out H; simpl in H.
  - injection H as <-. exists []. now rewrite app_nil_r.
  - bind_inv H review Er. apply member_Return in Er as [-> _].
    bind_inv H pushed Ep.
    destruct (IH _ _ H) as (more & -> & Hmore).
    assert (Hrest : Forall (fun r => exists key0,
                  In key0 (key :: rest) /\
                  reviewOfEntity apolloState (JS.own apolloState key0)
                    = Return (Some r)) more).
    { eapply Forall_impl; [|exact Hmore].
      intros r (k & Hk & E). exists k. simpl; auto. }
    destruct pushed as [r|].
    + exists (r :: more). rewrite <- app_assoc. split; [reflexivity|].
      constructor; [|assumption]. exists key. simpl; auto.
    + exists more. auto.
Qed.

Lemma collectEdges_Return (edges : list value) :
  forall reviews out,
    collectEdges edges reviews = Return out ->
    exists pushed,
      out = (reviews ++ pushed)%list /\
      Forall (fun r => exists edge,
                  In edge edges /\
                  reviewOfNode (JS.own edge "node") = Return (Some r)) pushed.
Proof.
  induction edges as [|edge rest IH]; intros reviews out H; simpl in H.
  - injection H as <-. exists []. now rewrite app_nil_r.
  - bind_inv H node En. apply member_Return in En as [-> _].
    bind_inv H pushed Ep.
    destruct (IH _ _ H) as (more & -> & Hmore).
    assert (Hrest : Forall (fun r => exists edge0,
                  In edge0 (edge :: rest) /\
                  reviewOfNode (JS.own edge0 "node") = Return (Some r)) more).
    { eapply Forall_impl; [|exact Hmore].
      intros r (e & He & E). exists e. simpl; auto. }
    destruct pushed as [r|].
    + exists (r :: more). rewrite <- app_assoc. split; [reflexivity|].
      constructor; [|assumption]. exists edge. simpl; auto.
    + exists more. auto.
Qed.

End Paths.

Section Fetches.
Context {rt : Runtime} (up : Upstream).

(** Both fetch functions make exactly one call, whatever they return. *)
Lemma fetchBookPageData_log (url : string) (log : list Call) :
  snd (fetchBookPageData up url log) = (log ++ [PageFetch url])%list.
Proof.
  unfold fetchBookPageData, ibind, fetch_page, try_catch, lift, iret.
  destruct (book_page up url) as [response|]; simpl; [|reflexivity].
  destruct (ok response); simpl; [|reflexivity].
  destruct (given _); simpl; [|reflexivity].
  now destruct (extractPageData _ _).
Qed.

Lemma fetchReviewsViaGraphQL_log (workId : string) (pageToken : option string)
    (apiKey : string) (log : list Call) :
  snd (fetchReviewsViaGraphQL up workId pageToken apiKey log)
  = (log ++ [GraphQLQuery {| x_api_key := apiKey;
                             resourceType := "WORK";
                             resourceId := workId;
                             limit := 30;
                             after := or_null pageToken |}])%list.
Proof.
  unfold fetchReviewsViaGraphQL, ibind, fetch_graphql, try_catch, lift, iret, or_null.
  destruct (review_service up _) as [response|]; simpl; [|reflexivity].
  destruct (ok response); simpl; [|reflexivity].
  now destruct (extractConnection _).
Qed.

(** The cursor fetch catches everything. *)
Lemma fetchReviewsViaGraphQL_returns (workId : string) (pageToken : option string)
    (apiKey : string) (log : list Call) :
  exists res, fst (fetchReviewsViaGraphQL up workId pageToken apiKey log) = Return res.
Proof.
  unfold fetchReviewsViaGraphQL, ibind, fetch_graphql, try_catch, lift, iret.
  destruct (review_service up _) as [response|]; simpl; [|now exists None].
  destruct (ok response); simpl; [|now exists None].
  destruct (extractConnection _) as [res|]; simpl; [now exists res | now exists None].
Qed.

Lemma fetchBookPageData_Some (url : string) (log log' : list Call) (pd : PageData.t) :
  fetchBookPageData up url log = (Return (Some pd), log') ->
  exists response script,
    book_page up url = Some response /\
    ok response = true /\
    NEXT_DATA_html (payload response) = Some script /\
    script <> "" /\
    extractPageData (payload response) script = Return (Some pd).
Proof.
  unfold fetchBookPageData, ibind, fetch_page, try_catch, lift, iret.
  destruct (book_page up url) as [response|]; simpl; [|discriminate].
  destruct (ok response) eqn:Eok; simpl; [|discriminate].
  destruct (given _) eqn:Eg; simpl; [|discriminate].
  destruct (given_Some _ Eg) as (script & Es & Hne & Eo). rewrite Eo.
  destruct (extractPageData _ _) as [res|] eqn:Ex; [|discriminate].
  intros [= -> _]. exists response, script. auto.
Qed.

Lemma fetchReviewsViaGraphQL_Some (workId : string) (pageToken : option string)
    (apiKey : string) (log log' : list Call) (res : GraphQLResult.t) :
  fetchReviewsViaGraphQL up workId pageToken apiKey log = (Return (Some res), log') ->
  exists response,
    review_service up {| x_api_key := apiKey;
                         resourceType := "WORK";
                         resourceId := workId;
                         limit := 30;
                         after := or_null pageToken |} = Some response /\
    ok response = true /\
    extractConnection (payload response) = Return (Some res).
Proof.
  unfold fetchReviewsViaGraphQL, ibind, fetch_graphql, try_catch, lift, iret, or_null.
  destruct (review_service up _) as [response|]; simpl; [|discriminate].
  destruct (ok response) eqn:Eok; simpl; [|discriminate].
  destruct (extractConnection _) as [r|] eqn:Ex; [|discriminate].
  intros [= -> _]. exists response. auto.
Qed.

(** The parts of a bootstrap result. *)
Lemma extractPageData_Some (doc : Document) (script : string) (pd : PageData.t) :
  extractPageData doc script = Return (Some pd) ->
  exists nextData keys workKey reviewsData,
    JSON_parse script = Some nextData /\
    JS.truthy (apolloState_of nextData) = true /\
    resolveApiKey doc nextData = Return (PageData.apiKey pd) /\
    JS.Object_keys (apolloState_of nextData) = Return keys /\
    find (Str.startsWith "Work:kca://work/") keys = Some workKey /\
    PageData.workId pd = Str.remove_first "Work:" workKey /\
    extractBookInfo (apolloState_of nextData) keys = Return (PageData.bookInfo pd) /\
    collectEntities (apolloState_of nextData)
                    (filter (Str.startsWith "Review:") keys) []
      = Return (PageData.initialReviews pd) /\
    PageData.nextPageToken pd
      = JS.or (JS.optional (JS.optional reviewsData "pageInfo") "nextPageToken") VNull /\
    PageData.totalCount pd = JS.or (JS.optional reviewsData "totalCount") (VNum 0).
Proof.
  unfold extractPageData. intros H.
  destruct (JSON_parse script) as [nextData|] eqn:Ep; [|discriminate].
  cbn [obind] in H.
  test_inv H Et; [discriminate|]. apply negb_false_iff in Et.
  bind_inv H key Ek. bind_inv H keys Eks.
  destruct (find _ keys) as [workKey|] eqn:Ew; [|discriminate].
  bind_inv H info Ei. bind_inv H reviews Er. bind_inv H rootQuery Erq.
  bind_inv H rootKeys Erk. bind_inv H reviewsData Ed.
  injection H as <-. cbn.
  exists nextData, keys, workKey, reviewsData. auto 12.
Qed.

(** The parts of a cursor result. *)
Lemma extractConnection_Some (json : option value) (res : GraphQLResult.t) :
  extractConnection json = Return (Some res) ->
  exists data items,
    json = Some data /\
    JS.truthy (connection_of data) = true /\
    iterate (JS.or (JS.own (connection_of data) "edges") (VArr [])) = Return items /\
    collectEdges items [] = Return (GraphQLResult.reviews res) /\
    GraphQLResult.nextPageToken res
      = JS.or (JS.optional (JS.own (connection_of data) "pageInfo") "nextPageToken")
              VNull /\
    GraphQLResult.totalCount res
      = JS.or (JS.own (connection_of data) "totalCount") (VNum 0).
Proof.
  unfold extractConnection. intros H.
  destruct json as [data|]; [|discriminate]. cbn [obind] in H.
  test_inv H Et; [discriminate|]. apply negb_false_iff in Et.
  rewrite !(member_truthy _ _ Et) in H. cbn [obind] in H.
  bind_inv H items Ei. bind_inv H reviews Er.
  injection H as <-. cbn. exists data, items. auto 10.
Qed.

(** A value that went through [|| null] is [null] or truthy. *)
Lemma or_null_truthy (v : value) :
  JS.truthy (JS.or v VNull) = true <-> JS.or v VNull <> VNull.
Proof.
  unfold JS.or. destruct (JS.truthy v) eqn:E.
  - split; [|now intros _]. intros _ ->. discriminate.
  - simpl. split; [discriminate | congruence].
Qed.

End Fetches.

(* ------------------------------------------------------------------ *)
(** ** The route handler, case by case *)

Section Handler.
Context {rt : Runtime} (up : Upstream).

Lemma or_null_idem (s : option string) : or_null (or_null s) = or_null s.
Proof. unfold or_null. destruct (given s) eqn:E; [now rewrite E | reflexivity]. Qed.

Lemma valid_url_given (request : Request) (url : string) :
  valid_url request url ->
  given (q_url request) = true /\ or_else (q_url request) "" = url.
Proof.
  intros (-> & Hne & _). simpl. apply String.eqb_neq in Hne. now rewrite Hne.
Qed.

(** In bootstrap mode the page is fetched, and nothing else. *)
Lemma GET_bootstrap (request : Request) (url : string) (log : list Call) :
  valid_url request url -> bootstrap_mode request = true ->
  GET up request log =
  (Return match fst (fetchBookPageData up url log) with
          | Return (Some pageData) => Success (bootstrapBody pageData)
          | Return None => Failure 500 "Failed to fetch book data"
          | Throw => Failure 500 "Failed to fetch and parse reviews"
          end,
   (log ++ [PageFetch url])%list).
Proof.
  intros Hv Hm. destruct (valid_url_given _ _ Hv) as [Hg Hu].
  destruct Hv as (_ & _ & Hi).
  unfold GET. rewrite Hg, Hu, Hi. cbn [negb].
  unfold bootstrap_mode in Hm. rewrite Hm.
  unfold try_catch, ibind, iret.
  pose proof (fetchBookPageData_log up url log) as Hl.
  destruct (fetchBookPageData up url log) as [[[pd|]|] log']; simpl in Hl |- *;
    now subst log'.
Qed.

(** In the other mode the query service is called, and nothing else. *)
Lemma GET_cursor (request : Request) (url : string) (log : list Call) :
  valid_url request url -> bootstrap_mode request = false ->
  GET up request log =
  (Return match fst (fetchReviewsViaGraphQL up (or_else (q_workId request) "")
                       (or_null (q_pageToken request))
                       (or_else (q_apiKey request) FALLBACK_API_KEY) log) with
          | Return (Some graphqlResult) =>
              Success (cursorBody (page_of request) (or_else (q_workId request) "")
                                  graphqlResult)
          | Return None => Failure 500 "Failed to fetch reviews"
          | Throw => Failure 500 "Failed to fetch and parse reviews"
          end,
   (log ++ [GraphQLQuery (cursor_query request)])%list).
Proof.
  intros Hv Hm. destruct (valid_url_given _ _ Hv) as [Hg Hu].
  destruct Hv as (_ & _ & Hi).
  unfold GET. rewrite Hg, Hu, Hi. cbn [negb].
  unfold bootstrap_mode in Hm. rewrite Hm.
  unfold try_catch, ibind, iret.
  pose proof (fetchReviewsViaGraphQL_log up (or_else (q_workId request) "")
                (or_null (q_pageToken request))
                (or_else (q_apiKey request) FALLBACK_API_KEY) log) as Hl.
  rewrite or_null_idem in Hl. fold (cursor_query request) in Hl.
  destruct (fetchReviewsViaGraphQL _ _ _ _ _) as [[[res|]|] log']; simpl in Hl |- *;
    now subst log'.
Qed.

(** A request that is answered with data passed the validations. *)
Lemma GET_Success (request : Request) (log log' : list Call) (body : Body.t) :
  GET up request log = (Return (Success body), log') ->
  exists url, valid_url request url.
Proof.
  unfold GET, iret. destruct (given (q_url request)) eqn:Hg; cbn [negb]; [|discriminate].
  destruct (given_Some _ Hg) as (url & Hu & Hne & Ho). rewrite Ho.
  destruct (Str.includes _ url) eqn:Hi; cbn [negb]; [|discriminate].
  intros _. exists url. repeat split; assumption.
Qed.

(** The data of a success response are those of one of the two fetches. *)
Lemma GET_Success_cases (request : Request) (log log' : list Call) (body : Body.t) :
  GET up request log = (Return (Success body), log') ->
  exists url, valid_url request url /\
    ((bootstrap_mode request = true /\
      exists pageData,
        fetchBookPageData up url log = (Return (Some pageData), log') /\
        body = bootstrapBody pageData)
     \/
     (bootstrap_mode request = false /\
      exists graphqlResult,
        fetchReviewsViaGraphQL up (or_else (q_workId request) "")
          (or_null (q_pageToken request))
          (or_else (q_apiKey request) FALLBACK_API_KEY) log
        = (Return (Some graphqlResult), log') /\
        body = cursorBody (page_of request) (or_else (q_workId request) "")
                          graphqlResult)).
Proof.
  intros H. destruct (GET_Success _ _ _ _ H) as (url & Hv).
  exists url; split; [assumption|].
  destruct (bootstrap_mode request) eqn:Hm; [left | right]; (split; [reflexivity|]).
  - rewrite (GET_bootstrap _ _ log Hv Hm) in H.
    pose proof (fetchBookPageData_log up url log) as Hl.
    destruct (fetchBookPageData up url log) as [[[pd|]|] l]; simpl in H, Hl;
      try discriminate.
    injection H as <- <-. subst l. now exists pd.
  - rewrite (GET_cursor _ _ log Hv Hm) in H.
    pose proof (fetchReviewsViaGraphQL_log up (or_else (q_workId request) "")
                  (or_null (q_pageToken request))
                  (or_else (q_apiKey request) FALLBACK_API_KEY) log) as Hl.
    rewrite or_null_idem in Hl. fold (cursor_query request) in Hl.
    destruct (fetchReviewsViaGraphQL _ _ _ _ _) as [[[res|]|] l]; simpl in H, Hl;
      try discriminate.
    injection H as <- <-. subst l. now exists res.
Qed.

(** The handler answers every request: nothing escapes its [try]. *)
Lemma GET_returns (request : Request) (log : list Call) :
  exists response, fst (GET up request log) = Return response.
Proof.
  destruct (given (q_url request)) eqn:Hg.
  - destruct (given_Some _ Hg) as (url & Hu & Hne & Ho).
    destruct (Str.includes "goodreads.com" url) eqn:Hi.
    + assert (Hv : valid_url request url) by (repeat split; assumption).
      destruct (bootstrap_mode request) eqn:Hm.
      * rewrite (GET_bootstrap _ _ log Hv Hm). simpl. eauto.
      * rewrite (GET_cursor _ _ log Hv Hm). simpl. eauto.
    + unfold GET. rewrite Hg, Ho, Hi. simpl. eauto.
  - unfold GET. rewrite Hg. simpl. eauto.
Qed.

End Handler.

(* ------------------------------------------------------------------ *)
(** ** Where a produced review comes from *)

Section Provenance.
Context {rt : Runtime} (up : Upstream).

Lemma bootstrap_review_normalised (url : string) (log log' : list Call)
    (pageData : PageData.t) (r : Review.t) :
  fetchBookPageData up url log = (Return (Some pageData), log') ->
  In r (PageData.initialReviews pageData) ->
  exists apolloState review, reviewOfEntity apolloState review = Return (Some r).
Proof.
  intros H Hin.
  destruct (fetchBookPageData_Some up _ _ _ _ H) as (response & script & _ & _ & _ & _ & Hx).
  destruct (extractPageData_Some _ _ _ Hx)
    as (nextData & keys & workKey & reviewsData & _ & _ & _ & _ & _ & _ & _ & Hc & _).
  destruct (collectEntities_Return _ _ _ _ Hc) as (pushed & Hout & Hall).
  rewrite Hout in Hin. simpl in Hin.
  rewrite Forall_forall in Hall. destruct (Hall _ Hin) as (key & _ & Hr).
  eauto.
Qed.

Lemma cursor_review_normalised (workId : string) (pageToken : option string)
    (apiKey : string) (log log' : list Call) (graphqlResult : GraphQLResult.t)
    (r : Review.t) :
  fetchReviewsViaGraphQL up workId pageToken apiKey log
    = (Return (Some graphqlResult), log') ->
  In r (GraphQLResult.reviews graphqlResult) ->
  exists node, reviewOfNode node = Return (Some r).
Proof.
  intros H Hin.
  destruct (fetchReviewsViaGraphQL_Some up _ _ _ _ _ _ H) as (response & _ & _ & Hx).
  destruct (extractConnection_Some _ _ Hx) as (data & items & _ & _ & _ & Hc & _).
  destruct (collectEdges_Return _ _ _ Hc) as (pushed & Hout & Hall).
  rewrite Hout in Hin. simpl in Hin.
  rewrite Forall_forall in Hall. destruct (Hall _ Hin) as (edge & _ & Hr).
  eauto.
Qed.

(** Every produced review was pushed by one of the two loop bodies. *)
Lemma produced_normalised (r : Review.t) :
  produced up r -> exists raw creator, normalised raw creator r.
Proof.
  intros [url log log' pd H Hin|w t k log log' res H Hin|request log log' body H Hin].
  - destruct (bootstrap_review_normalised _ _ _ _ _ H Hin) as (st & review & Hr).
    eexists _, _. exact (normalised_entity _ _ _ Hr).
  - destruct (cursor_review_normalised _ _ _ _ _ _ _ H Hin) as (node & Hr).
    eexists _, _. exact (normalised_node _ _ Hr).
  - destruct (GET_Success_cases up _ _ _ _ H)
      as (url & _ & [(_ & pd & Hf & ->)|(_ & res & Hf & ->)]); simpl in Hin.
    + destruct (bootstrap_review_normalised _ _ _ _ _ Hf Hin) as (st & review & Hr).
      eexists _, _. exact (normalised_entity _ _ _ Hr).
    + destruct (cursor_review_normalised _ _ _ _ _ _ _ Hf Hin) as (node & Hr).
      eexists _, _. exact (normalised_node _ _ Hr).
Qed.

Lemma normalised_rating (raw : value) (creator : JS.Member) (r : Review.t) :
  normalised raw creator r ->
  Review.rating r = JS.own raw "rating" /\ JS.ge (Review.rating r) 4 = true.
Proof.
  intros [st review r' H|node r' H].
  - apply reviewOfEntity_Some in H. tauto.
  - apply reviewOfNode_Some in H. tauto.
Qed.

Lemma normalised_content (raw : value) (creator : JS.Member) (r : Review.t) :
  normalised raw creator r ->
  content_of (JS.own raw "text") = Return (Review.content r).
Proof.
  intros [st review r' H|node r' H].
  - apply reviewOfEntity_Some in H. tauto.
  - apply reviewOfNode_Some in H. tauto.
Qed.

Lemma ge_favourable (r : Review.t) :
  JS.ge (Review.rating r) 4 = true -> favourable r.
Proof.
  unfold favourable, JS.ge, JS.lt. intros H.
  destruct (JS.ToNumber (Review.rating r)) as [|n] eqn:E; [discriminate|].
  apply Z.leb_le in H. repeat split.
  - now apply Z.leb_le.
  - apply Z.ltb_ge. assumption.
  - rewrite H0 in E. simpl in E. injection E as ->. assumption.
  - rewrite H0 in E. simpl in E. injection E as ->. lia.
Qed.

End Provenance.

(* ------------------------------------------------------------------ *)
(** ** The claims of the specification *)

(** C1. Every review of a returned [reviews] array, of the bootstrap, of
    the cursor fetch or of a response, has a rating of at least 4: the test
    [rating >= 4] holds of it and [rating < 4] does not, an integer rating
    is at least 4, and it is 4 or 5 when it lies on the scale 1-5. *)
Theorem produced_rating_at_least_4 {rt : Runtime} (up : Upstream) (r : Review.t) :
  produced up r -> favourable r.
Proof.
  intros H. destruct (produced_normalised up r H) as (raw & creator & Hn).
  apply ge_favourable. now destruct (normalised_rating _ _ _ Hn).
Qed.

(** The first review of the first page of the book. *)
Lemma produced_rating_at_least_4_witness :
  favourable (rt := Demo.runtime) Demo.review_r1.
Proof.
  apply (produced_rating_at_least_4 (rt := Demo.runtime) Demo.upstream).
  apply (produced_response (rt := Demo.runtime) Demo.upstream _
           (Demo.request Demo.book_url None None None None) [] 
           [PageFetch Demo.book_url] (bootstrapBody Demo.page1)).
  - vm_compute. reflexivity.
  - simpl. auto.
Defined.

(** C2. On both paths the content of a pushed review is the normalizer's
    reading of the text of its raw record: free of [<...>], and, when the
    text is a string, the text with every [<...>] removed from left to
    right and without a second pass, which is exactly what [Stripped]
    relates the text to.  Every review of a returned array was pushed that
    way, so its content is free of [<...>]. *)
Theorem produced_content_stripped {rt : Runtime} (up : Upstream) :
  (forall raw creator r,
     normalised raw creator r ->
     no_tag (Review.content r) /\
     forall t, JS.own raw "text" = VStr t ->
       Review.content r = stripAllTags t /\
       Stripped t (Review.content r) /\
       (forall out, Stripped t out -> out = Review.content r)) /\
  (forall r,
     produced up r ->
     no_tag (Review.content r) /\
     exists raw creator, normalised raw creator r).
Proof.
  assert (A : forall raw creator r,
     normalised raw creator r ->
     no_tag (Review.content r) /\
     forall t, JS.own raw "text" = VStr t ->
       Review.content r = stripAllTags t /\
       Stripped t (Review.content r) /\
       (forall out, Stripped t out -> out = Review.content r)).
  { intros raw creator r Hn.
    pose proof (normalised_content _ _ _ Hn) as Hc.
    destruct (content_of_Return _ _ Hc) as (Ht & Hs & _).
    split; [now apply has_tag_no_tag|].
    intros t Et. rewrite (Hs t Et). repeat split.
    - apply Stripped_stripAllTags.
    - apply Stripped_unique. }
  split; [exact A|].
  intros r H. destruct (produced_normalised up r H) as (raw & creator & Hn).
  split; [apply (A _ _ _ Hn) | eauto].
Qed.

(** A node of the second page, and the first review of the first page. *)
Lemma produced_content_stripped_witness :
  (no_tag (Review.content Demo.review_r7) /\
   Review.content Demo.review_r7 = stripAllTags "<p>Fine</p>" /\
   Stripped "<p>Fine</p>" (Review.content Demo.review_r7)) /\
  (no_tag (Review.content Demo.review_r1) /\
   exists raw creator, normalised (rt := Demo.runtime) raw creator Demo.review_r1).
Proof.
  destruct (produced_content_stripped (rt := Demo.runtime) Demo.upstream) as [A B].
  split.
  - destruct (A Demo.node_r7 (JS.Data Demo.user1) Demo.review_r7) as [Hno Ht].
    + apply (normalised_node (rt := Demo.runtime) Demo.node_r7 Demo.review_r7).
      vm_compute. reflexivity.
    + destruct (Ht "<p>Fine</p>" eq_refl) as (He & Hs & _). auto.
  - apply B.
    apply (produced_bootstrap (rt := Demo.runtime) Demo.upstream _
             Demo.book_url [] [PageFetch Demo.book_url] Demo.page1).
    + vm_compute. reflexivity.
    + simpl. auto.
Defined.

(* ------------------------------------------------------------------ *)
(** *** The credential *)

Section Credential.
Context {rt : Runtime}.

Lemma first_script_match_spec (scripts : list (option string)) :
  FirstScriptMatch scripts (first_script_match scripts).
Proof.
  induction scripts as [|s rest IH]; simpl.
  - constructor. constructor.
  - destruct (KeyPattern.first_match (or_else s "")) as [k|] eqn:E.
    + apply (FirstScriptMatch_at [] s rest k); [constructor | assumption].
    + inversion IH as [scripts Hall Es Em|before script rest' k Hall Hk Es Em].
      * constructor. constructor; assumption.
      * apply (FirstScriptMatch_at (s :: before) script rest' k); [|assumption].
        constructor; assumption.
Qed.

Lemma scanScripts_first (scripts : list (option string)) (apiKey : value) :
  scanScripts scripts apiKey
  = match first_script_match scripts with
    | Some k => VStr k
    | None => apiKey
    end.
Proof.
  induction scripts as [|s rest IH]; simpl; [reflexivity|].
  now destruct (KeyPattern.first_match (or_else s "")).
Qed.

(** Lines 95-110 never throw, and the field of the runtime configuration,
    when it is truthy, overrides what the scripts gave. *)
Lemma resolveApiKey_resolved (doc : Document) (nextData : value) :
  exists key, resolveApiKey doc nextData = Return key /\
              resolved_apiKey doc nextData key.
Proof.
  unfold resolveApiKey, resolved_apiKey.
  rewrite scanScripts_first.
  destruct (JS.truthy (JS.optional (runtimeConfig_of nextData) "apiKey")) eqn:Et.
  - unfold JS.optional, JS.member in *.
    destruct (JS.is_nullish (runtimeConfig_of nextData)); [discriminate|].
    eexists; split; [reflexivity|].
    exists (first_script_match (script_html doc)).
    split; [apply first_script_match_spec | reflexivity].
  - eexists; split; [reflexivity|].
    exists (first_script_match (script_html doc)).
    split; [apply first_script_match_spec | reflexivity].
Qed.

End Credential.

(** C3, as the specification has it, fails: on a page with a key in a
    script and a key in the runtime configuration, the bootstrap returns the
    key of the configuration, not the script match. *)
Lemma apiKey_as_specified_counterexample :
  ~ apiKey_as_specified (rt := Demo.runtime) Demo.upstream.
Proof.
  intros H.
  specialize (H Demo.config_url [] [PageFetch Demo.config_url] Demo.page1_config
                {| ok := true;
                   payload := {| NEXT_DATA_html := Some "STATE-WITH-CONFIG";
                                 script_html := [Some "cfg = {key: 'da2-frompage2'}";
                                                 Some "STATE-WITH-CONFIG"] |} |}
                "STATE-WITH-CONFIG"
                (Demo.nextData
                   [("runtimeConfig", Demo.obj [("apiKey", VStr "da2-fromconfig")])]
                   true)).
  vm_compute in H.
  specialize (H eq_refl eq_refl eq_refl eq_refl). discriminate H.
Qed.

(** C3, amended. The credential of a bootstrap result is: the [apiKey]
    field of the runtime configuration of the embedded state when that
    field is truthy; otherwise the key of the first script, in document
    order, that matches the key pattern; otherwise the fallback constant. *)
Theorem bootstrap_apiKey_priority {rt : Runtime} (up : Upstream)
    (url : string) (log log' : list Call) (pageData : PageData.t) :
  fetchBookPageData up url log = (Return (Some pageData), log') ->
  exists response script nextData,
    book_page up url = Some response /\
    NEXT_DATA_html (payload response) = Some script /\
    JSON_parse script = Some nextData /\
    resolved_apiKey (payload response) nextData (PageData.apiKey pageData).
Proof.
  intros H.
  destruct (fetchBookPageData_Some up _ _ _ _ H) as (response & script & Hb & _ & Hs & _ & Hx).
  destruct (extractPageData_Some _ _ _ Hx)
    as (nextData & keys & workKey & reviewsData & Hp & _ & Hk & _).
  exists response, script, nextData. repeat split; try assumption.
  destruct (resolveApiKey_resolved (payload response) nextData) as (key & Hr & Hres).
  rewrite Hr in Hk. injection Hk as <-. assumption.
Qed.

(** The page with a key in a script and a key in its configuration. *)
Lemma bootstrap_apiKey_priority_witness :
  exists response script nextData,
    book_page Demo.upstream Demo.config_url = Some response /\
    NEXT_DATA_html (payload response) = Some script /\
    JSON_parse (Runtime := Demo.runtime) script = Some nextData /\
    resolved_apiKey (payload response) nextData (VStr "da2-fromconfig").
Proof.
  apply (bootstrap_apiKey_priority (rt := Demo.runtime) Demo.upstream
           Demo.config_url [] [PageFetch Demo.config_url] Demo.page1_config).
  vm_compute. reflexivity.
Defined.

(* ------------------------------------------------------------------ *)
(** *** The echo of the session *)

(** C4, as the specification has it, fails: the response for the second
    page has no [apiKey] in its pagination object. *)
Lemma echo_as_specified_counterexample :
  ~ echo_as_specified (rt := Demo.runtime) Demo.upstream.
Proof.
  intros H.
  destruct (H Demo.second_page []
              [GraphQLQuery (cursor_query Demo.second_page)]
              (cursorBody (Num 2) Demo.work_id Demo.page2_result))
    as (key & Hkey).
  - vm_compute. reflexivity.
  - discriminate Hkey.
Qed.

(** C4, amended. Every successful response echoes the work identifier: the
    one the bootstrap found, or the one the request supplied.  The bootstrap
    response also echoes the credential; the cursor response has no
    [apiKey] in its pagination object. *)
Theorem response_echo {rt : Runtime} (up : Upstream)
    (request : Request) (log log' : list Call) (body : Body.t) :
  GET up request log = (Return (Success body), log') ->
  (bootstrap_mode request = true /\
   exists url pageData,
     fetchBookPageData up url log = (Return (Some pageData), log') /\
     Pagination.workId (Body.pagination body) = PageData.workId pageData /\
     Pagination.apiKey (Body.pagination body) = Some (PageData.apiKey pageData))
  \/
  (bootstrap_mode request = false /\
   q_workId request = Some (Pagination.workId (Body.pagination body)) /\
   Pagination.workId (Body.pagination body) <> "" /\
   Pagination.apiKey (Body.pagination body) = None).
Proof.
  intros H.
  destruct (GET_Success_cases up _ _ _ _ H)
    as (url & _ & [(Hm & pd & Hf & ->)|(Hm & res & Hf & ->)]).
  - left. split; [assumption|]. exists url, pd. auto.
  - right. split; [assumption|]. simpl.
    unfold bootstrap_mode in Hm. apply orb_false_iff in Hm as [_ Hw].
    apply negb_false_iff in Hw.
    destruct (given_Some _ Hw) as (w & Ew & Hne & Eo).
    rewrite Eo, Ew. auto.
Qed.

(** The response for the second page of the book. *)
Lemma response_echo_witness :
  Pagination.workId
    (Body.pagination (cursorBody (Num 2) Demo.work_id Demo.page2_result))
    = Demo.work_id /\
  Pagination.apiKey
    (Body.pagination (cursorBody (Num 2) Demo.work_id Demo.page2_result))
    = None.
Proof.
  destruct (response_echo (rt := Demo.runtime) Demo.upstream Demo.second_page []
              [GraphQLQuery (cursor_query Demo.second_page)]
              (cursorBody (Num 2) Demo.work_id Demo.page2_result))
    as [(Hm & _)|(_ & Hw & _ & Hk)].
  - vm_compute. reflexivity.
  - discriminate Hm.
  - split; [reflexivity | exact Hk].
Defined.

(* ------------------------------------------------------------------ *)
(** *** The two modes *)

Section ModeFacts.
Context {rt : Runtime} (up : Upstream).

(** What the token of a bootstrap result is. *)
Lemma bootstrap_token (url : string) (log log' : list Call) (pageData : PageData.t) :
  fetchBookPageData up url log = (Return (Some pageData), log') ->
  (JS.truthy (PageData.nextPageToken pageData) = true
   <-> PageData.nextPageToken pageData <> VNull).
Proof.
  intros H.
  destruct (fetchBookPageData_Some up _ _ _ _ H) as (response & script & _ & _ & _ & _ & Hx).
  destruct (extractPageData_Some _ _ _ Hx)
    as (nextData & keys & workKey & reviewsData & _ & _ & _ & _ & _ & _ & _ & _ & -> & _).
  apply or_null_truthy.
Qed.

Lemma cursor_token (workId : string) (pageToken : option string) (apiKey : string)
    (log log' : list Call) (graphqlResult : GraphQLResult.t) :
  fetchReviewsViaGraphQL up workId pageToken apiKey log
    = (Return (Some graphqlResult), log') ->
  (JS.truthy (GraphQLResult.nextPageToken graphqlResult) = true
   <-> GraphQLResult.nextPageToken graphqlResult <> VNull).
Proof.
  intros H.
  destruct (fetchReviewsViaGraphQL_Some up _ _ _ _ _ _ H) as (response & _ & _ & Hx).
  destruct (extractConnection_Some _ _ Hx) as (data & items & _ & _ & _ & _ & -> & _).
  apply or_null_truthy.
Qed.


End ModeFacts.





(* ------------------------------------------------------------------ *)
(** *** Validation *)




(* ------------------------------------------------------------------ *)
(** *** Failures of the bootstrap *)

Section Failures.
Context {rt : Runtime} (up : Upstream).

Lemma find_none_Forall {A : Type} (f : A -> bool) (l : list A) :
  Forall (fun x => f x = false) l -> find f l = None.
Proof.
  induction 1 as [|x l Hx _ IH]; simpl; [reflexivity|]. now rewrite Hx.
Qed.

Lemma given_nonempty (script : string) : script <> "" -> given (Some script) = true.
Proof. intros H. simpl. apply String.eqb_neq in H. now rewrite H. Qed.

Lemma or_else_nonempty (script : string) :
  script <> "" -> or_else (Some script) "" = script.
Proof. intros H. simpl. apply String.eqb_neq in H. now rewrite H. Qed.

(** Each of the failures makes [fetchBookPageData] resolve to [null]. *)
Lemma BootstrapFailure_null (url : string) (log : list Call) :
  BootstrapFailure up url -> fst (fetchBookPageData up url log) = Return None.
Proof.
  unfold fetchBookPageData, ibind, fetch_page, try_catch, lift, iret.
  intros [response Hb Hok
         |response Hb Hok Hg
         |response script Hb Hok Hs Hne Hp
         |response script nextData Hb Hok Hs Hne Hp Ht
         |response script nextData keys Hb Hok Hs Hne Hp Hk Hall
         |response script Hb Hok Hs Hne Hx];
    rewrite Hb; simpl; rewrite Hok; simpl; try reflexivity.
  - now rewrite Hg.
  - rewrite Hs, (given_nonempty _ Hne), (or_else_nonempty _ Hne). simpl.
    unfold extractPageData. now rewrite Hp.
  - rewrite Hs, (given_nonempty _ Hne), (or_else_nonempty _ Hne). simpl.
    unfold extractPageData. rewrite Hp. cbn [obind]. now rewrite Ht.
  - rewrite Hs, (given_nonempty _ Hne), (or_else_nonempty _ Hne). simpl.
    unfold extractPageData. rewrite Hp. cbn [obind].
    destruct (JS.truthy (apolloState_of nextData)); [|reflexivity]. cbn [negb].
    destruct (resolveApiKey_resolved (payload response) nextData) as (key & -> & _).
    cbn [obind]. rewrite Hk. cbn [obind].
    now rewrite (find_none_Forall _ _ Hall).
  - rewrite Hs, (given_nonempty _ Hne), (or_else_nonempty _ Hne). simpl.
    now rewrite Hx.
Qed.

End Failures.

(** C8. Whichever way the bootstrap fails (the page fetch is not ok; the
    hydration-state element is missing or empty; its JSON is malformed; the
    entity cache is missing; there is no work entity; some later step
    throws), the request is answered with the same response: status 500
    with the one error [Failed to fetch book data], and no data. *)
Theorem bootstrap_failure_is_opaque {rt : Runtime} (up : Upstream)
    (request : Request) (url : string) (log : list Call) :
  valid_url request url ->
  bootstrap_mode request = true ->
  BootstrapFailure up url ->
  GET up request log
  = (Return (Failure 500 "Failed to fetch book data"), (log ++ [PageFetch url])%list).
Proof.
  intros Hv Hm Hf.
  rewrite (GET_bootstrap up _ _ log Hv Hm).
  now rewrite (BootstrapFailure_null up url log Hf).
Qed.

(** A book page that is answered with a status that is not ok. *)
Lemma bootstrap_failure_is_opaque_witness :
  GET (rt := Demo.runtime) Demo.upstream
      (Demo.first_page Demo.gone_url) []
  = (Return (Failure 500 "Failed to fetch book data"), [PageFetch Demo.gone_url]).
Proof.
  apply (bootstrap_failure_is_opaque (rt := Demo.runtime) Demo.upstream
           (Demo.first_page Demo.gone_url) Demo.gone_url []).
  - split; [reflexivity | split; [discriminate | reflexivity]].
  - reflexivity.
  - apply (page_not_ok (rt := Demo.runtime) Demo.upstream _
             {| ok := false;
                payload := {| NEXT_DATA_html := None; script_html := [] |} |});
      reflexivity.
Defined.

(* ------------------------------------------------------------------ *)
(** *** The normalizer *)

Section Normalizer.
Context {rt : Runtime}.

Lemma truthy_optional_own (v : value) (k : string) :
  JS.truthy v = true -> JS.optional v k = JS.own v k.
Proof. destruct v; simpl; try discriminate; reflexivity. Qed.

(** What is read from what was found under a computed key. *)
Lemma read_field (m : JS.Member) (k : string) :
  JS.truthy_member m = true -> JS.read m k = Return (JS.field m k).
Proof.
  destruct m as [v| |]; simpl; try reflexivity.
  intros Ht. now rewrite (member_truthy _ _ Ht), (truthy_optional_own _ _ Ht).
Qed.

Lemma field_falsy (m : JS.Member) (k : string) :
  String.eqb k "length" = false ->
  JS.truthy_member m = false -> JS.field m k = VUndef.
Proof.
  destruct m as [v| |]; simpl; try discriminate.
  intros Hk Ht. now apply optional_falsy.
Qed.

(** Lines 154-163 in terms of what the cache holds under the reference. *)
Lemma resolveReviewer_creator (apolloState review name webUrl : value) :
  resolveReviewer apolloState review = Return (name, webUrl) ->
  name = JS.or (JS.field (entityCreator apolloState review) "name")
               (VStr "Anonymous") /\
  webUrl = JS.or (JS.field (entityCreator apolloState review) "webUrl") (VStr "").
Proof.
  unfold resolveReviewer, entityCreator. intros H.
  bind_inv H creator Ec. apply member_Return in Ec as [-> _].
  destruct (JS.truthy (JS.optional (JS.own review "creator") "__ref")) eqn:Et.
  - bind_inv H ref Er. apply member_Return in Er as [-> Hn].
    rewrite (optional_own _ _ Hn).
    bind_inv H userData Eu. apply index_Return in Eu as (_ & _ & ->).
    test_inv H Eud.
    + rewrite !(read_field _ _ Eud) in H. cbn [obind] in H.
      injection H as <- <-. auto.
    + injection H as <- <-.
      rewrite (field_falsy _ "name" eq_refl Eud).
      rewrite (field_falsy _ "webUrl" eq_refl Eud). auto.
  - injection H as <- <-. auto.
Qed.

End Normalizer.




(* ------------------------------------------------------------------ *)
(** *** The page parameter *)



Example page_zero :
  page_of (Demo.request Demo.book_url (Some "0") None (Some Demo.work_id) None) = Num 0.
Proof. reflexivity. Qed.
Example page_negative :
  page_of (Demo.request Demo.book_url (Some "-3") None (Some Demo.work_id) None) = Num (-3).
Proof. reflexivity. Qed.
Example page_not_a_number :
  page_of (Demo.request Demo.book_url (Some "two") None (Some Demo.work_id) None) = NaN.
Proof. reflexivity. Qed.
Example page_zero_served_by_cursor :
  GET (rt := Demo.runtime) Demo.upstream
      (Demo.request Demo.book_url (Some "0") None (Some Demo.work_id) None) []
  = (Return (Success (cursorBody (Num 0) Demo.work_id Demo.page2_result)),
     [GraphQLQuery {| x_api_key := FALLBACK_API_KEY; resourceType := "WORK";
                      resourceId := Demo.work_id; limit := 30; after := None |}]).
Proof. vm_compute. reflexivity. Qed.

(* ------------------------------------------------------------------ *)
(** ** The route at work *)

Section Runs.
Existing Instance Demo.runtime.

Example first_page_of_the_book :
  GET Demo.upstream (Demo.first_page Demo.book_url) []
  = (Return (Success (bootstrapBody Demo.page1)), [PageFetch Demo.book_url]).
Proof. vm_compute. reflexivity. Qed.

Example second_page_of_the_book :
  GET Demo.upstream Demo.second_page []
  = (Return (Success (cursorBody (Num 2) Demo.work_id Demo.page2_result)),
     [GraphQLQuery {| x_api_key := "da2-frompage1"; resourceType := "WORK";
                      resourceId := Demo.work_id; limit := 30;
                      after := Some "tok2" |}]).
Proof. vm_compute. reflexivity. Qed.

(** An empty [workId] is not a supplied one: the request is bootstrapped. *)
Example empty_workId_is_bootstrap :
  GET Demo.upstream (Demo.request Demo.book_url (Some "2") (Some "tok2") (Some "") None) []
  = (Return (Success (bootstrapBody Demo.page1)), [PageFetch Demo.book_url]).
Proof. vm_compute. reflexivity. Qed.

(** The page without a query in its cache is the last one. *)
Example last_page_has_no_next :
  exists body,
    GET Demo.upstream (Demo.first_page Demo.last_url) []
      = (Return (Success body), [PageFetch Demo.last_url]) /\
    Pagination.hasNext (Body.pagination body) = false /\
    Pagination.nextPageToken (Body.pagination body) = VNull /\
    Pagination.apiKey (Body.pagination body) = Some (VStr FALLBACK_API_KEY).
Proof. eexists. split; [vm_compute; reflexivity | repeat split]. Qed.

(** One response for every way the bootstrap fails. *)
Example missing_element_fails :
  fst (GET Demo.upstream (Demo.first_page "https://www.goodreads.com/book/show/5") [])
  = Return (Failure 500 "Failed to fetch book data").
Proof. vm_compute. reflexivity. Qed.
Example malformed_json_fails :
  fst (GET Demo.upstream (Demo.first_page "https://www.goodreads.com/book/show/6") [])
  = Return (Failure 500 "Failed to fetch book data").
Proof. vm_compute. reflexivity. Qed.
Example missing_cache_fails :
  fst (GET Demo.upstream (Demo.first_page "https://www.goodreads.com/book/show/7") [])
  = Return (Failure 500 "Failed to fetch book data").
Proof. vm_compute. reflexivity. Qed.
Example missing_work_fails :
  fst (GET Demo.upstream (Demo.first_page "https://www.goodreads.com/book/show/8") [])
  = Return (Failure 500 "Failed to fetch book data").
Proof. vm_compute. reflexivity. Qed.
Example numeric_text_fails :
  fst (GET Demo.upstream (Demo.first_page "https://www.goodreads.com/book/show/9") [])
  = Return (Failure 500 "Failed to fetch book data").
Proof. vm_compute. reflexivity. Qed.

(** A review whose creator reference is the name of something that every
    object inherits is given the name of that as its reviewer. *)
Example inherited_creator :
  GET Demo.upstream (Demo.first_page "https://www.goodreads.com/book/show/10") []
  = (Return (Success
       (bootstrapBody
          {| PageData.workId := Demo.work_id;
             PageData.bookInfo := {| BookInfo.title := VStr "Unknown Title";
                                     BookInfo.author := VStr "Unknown Author";
                                     BookInfo.coverUrl := VStr "" |};
             PageData.initialReviews := [Demo.review_r10];
             PageData.nextPageToken := VStr "tok2";
             PageData.totalCount := VNum 3;
             PageData.apiKey := VStr FALLBACK_API_KEY |})),
     [PageFetch "https://www.goodreads.com/book/show/10"]).
Proof. vm_compute. reflexivity. Qed.

(** A rating that cannot be converted to a primitive cannot be compared:
    the comparison throws, and the whole page fails, on either path. *)
Example opaque_rating_fails :
  fst (GET Demo.upstream (Demo.first_page "https://www.goodreads.com/book/show/11") [])
  = Return (Failure 500 "Failed to fetch book data").
Proof. vm_compute. reflexivity. Qed.
Example opaque_rating_fails_the_cursor :
  fst (GET Demo.upstream
           (Demo.request Demo.book_url (Some "2") None (Some Demo.opaque_work_id) None)
           [])
  = Return (Failure 500 "Failed to fetch reviews").
Proof. vm_compute. reflexivity. Qed.

(** A fetch that is not answered at all is not one of those failures: it
    is the unexpected error of the handler. *)
Example unanswered_fetch :
  GET Demo.upstream (Demo.first_page "https://www.goodreads.com/unreachable") []
  = (Return (Failure 500 "Failed to fetch and parse reviews"),
     [PageFetch "https://www.goodreads.com/unreachable"]).
Proof. vm_compute. reflexivity. Qed.

(** The check of the url is a search for the text [goodreads.com]: a url
    of another host that mentions it passes, and its page is fetched. *)
Example mention_of_the_domain_passes :
  GET Demo.upstream (Demo.first_page "https://example.org/?from=goodreads.com") []
  = (Return (Failure 500 "Failed to fetch book data"),
     [PageFetch "https://example.org/?from=goodreads.com"]).
Proof. vm_compute. reflexivity. Qed.

End Runs.

(* ------------------------------------------------------------------ *)
(** ** Further properties of the route *)

(** X1. The handler answers every request, with status 400, 500 or 200,
    and makes at most one upstream call: none when it answers 400, the
    fetch of the book page alone in bootstrap mode, the query alone
    otherwise. *)
Theorem GET_answers_with_one_call {rt : Runtime} (up : Upstream)
    (request : Request) (log : list Call) :
  exists response calls,
    GET up request log = (Return response, (log ++ calls)%list) /\
    ((status_of response = 400 /\ calls = []) \/
     (exists url,
        valid_url request url /\
        (status_of response = 200 \/ status_of response = 500) /\
        calls = if bootstrap_mode request
                then [PageFetch url]
                else [GraphQLQuery (cursor_query request)])).
Proof.
  destruct (given (q_url request)) eqn:Hg.
  - destruct (given_Some _ Hg) as (url & Hu & Hne & Ho).
    destruct (Str.includes "goodreads.com" url) eqn:Hi.
    + assert (Hv : valid_url request url) by (repeat split; assumption).
      destruct (bootstrap_mode request) eqn:Hm.
      * rewrite (GET_bootstrap up _ _ log Hv Hm).
        eexists _, [PageFetch url]. split; [reflexivity|].
        right. exists url. split; [assumption|]. split; [|reflexivity].
        destruct (fst (fetchBookPageData up url log)) as [[pd|]|]; simpl; auto.
      * rewrite (GET_cursor up _ _ log Hv Hm).
        eexists _, [GraphQLQuery (cursor_query request)]. split; [reflexivity|].
        right. exists url. split; [assumption|]. split; [|reflexivity].
        destruct (fst (fetchReviewsViaGraphQL up _ _ _ log)) as [[res|]|]; simpl; auto.
    + exists (Failure 400 "URL must be a Goodreads URL"), [].
      unfold GET. rewrite Hg, Ho, Hi, app_nil_r. simpl. auto.
  - exists (Failure 400 "Missing 'url' query parameter"), [].
    unfold GET. rewrite Hg, app_nil_r. simpl. auto.
Qed.

Section Boundary.
Context {rt : Runtime} (up : Upstream).

(** The bootstrap throws exactly when the fetch of the page is rejected. *)
Lemma fetchBookPageData_Throw (url : string) (log : list Call) :
  fst (fetchBookPageData up url log) = Throw <-> book_page up url = None.
Proof.
  unfold fetchBookPageData, ibind, fetch_page, try_catch, lift, iret.
  destruct (book_page up url) as [response|]; simpl; [|tauto].
  split; [|discriminate].
  destruct (ok response); simpl; [|discriminate].
  destruct (given _); simpl; [|discriminate].
  now destruct (extractPageData _ _).
Qed.

End Boundary.

(** X2. The handler's own [catch] answers only one kind of request: one
    served by the bootstrap whose fetch of the book page was rejected.  A
    rejected query, like every other failure of the cursor fetch, is caught
    inside [fetchReviewsViaGraphQL] and never gets this message. *)
Theorem boundary_catch_only_for_rejected_page {rt : Runtime} (up : Upstream)
    (request : Request) (log : list Call) :
  fst (GET up request log) = Return (Failure 500 "Failed to fetch and parse reviews")
  <->
  exists url,
    valid_url request url /\ bootstrap_mode request = true /\
    book_page up url = None.
Proof.
  split.
  - intros H.
    destruct (given (q_url request)) eqn:Hg.
    + destruct (given_Some _ Hg) as (url & Hu & Hne & Ho).
      destruct (Str.includes "goodreads.com" url) eqn:Hi.
      * assert (Hv : valid_url request url) by (repeat split; assumption).
        exists url. split; [assumption|].
        destruct (bootstrap_mode request) eqn:Hm.
        -- split; [reflexivity|].
           rewrite (GET_bootstrap up _ _ log Hv Hm) in H. simpl in H.
           apply (fetchBookPageData_Throw up url log).
           destruct (fst (fetchBookPageData up url log)) as [[pd|]|];
             [discriminate H | discriminate H | reflexivity].
        -- exfalso.
           rewrite (GET_cursor up _ _ log Hv Hm) in H. simpl in H.
           destruct (fetchReviewsViaGraphQL_returns up (or_else (q_workId request) "")
                       (or_null (q_pageToken request))
                       (or_else (q_apiKey request) FALLBACK_API_KEY) log) as (res & Hr).
           rewrite Hr in H. destruct res; discriminate H.
      * unfold GET in H. rewrite Hg, Ho, Hi in H. discriminate H.
    + unfold GET in H. rewrite Hg in H. discriminate H.
  - intros (url & Hv & Hm & Hb).
    rewrite (GET_bootstrap up _ _ log Hv Hm). simpl.
    apply (fetchBookPageData_Throw up url log) in Hb. now rewrite Hb.
Qed.

(* ------------------------------------------------------------------ *)
(** *** What the two loops keep, and what makes them throw *)

Section Loops.
Context {rt : Runtime}.

Lemma truthy_not_nullish (v : value) : JS.truthy v = true -> JS.is_nullish v = false.
Proof. destruct v; simpl; congruence. Qed.

Lemma truthy_optional (v : value) (k : string) :
  JS.truthy (JS.optional v k) = true ->
  JS.is_nullish v = false /\ JS.optional v k = JS.own v k.
Proof.
  unfold JS.optional. destruct (JS.is_nullish v); [discriminate | auto].
Qed.

Lemma member_not_nullish (v : value) (k : string) :
  JS.is_nullish v = false -> JS.member v k = Return (JS.own v k).
Proof. unfold JS.member. now intros ->. Qed.

Lemma content_of_text_like (text : value) :
  (text_like text = true -> exists c, content_of text = Return c) /\
  (text_like text = false -> content_of text = Throw).
Proof.
  destruct text; simpl; split; intros H; try discriminate; try reflexivity; eauto.
Qed.

Lemma to_string_convertible (v : value) :
  JS.convertible v = true -> JS.to_string v = Return (JS.ToString v).
Proof. unfold JS.to_string. now intros ->. Qed.

Lemma to_string_Throw (v : value) :
  JS.convertible v = false -> JS.to_string v = Throw.
Proof. unfold JS.to_string. now intros ->. Qed.

Lemma date_of_date_like (createdAt : value) :
  (date_like createdAt = true -> exists d, date_of createdAt = Return d) /\
  (date_like createdAt = false -> date_of createdAt = Throw).
Proof.
  unfold date_like, date_of.
  destruct (JS.truthy createdAt), (JS.convertible createdAt); simpl;
    split; intros H; try discriminate; try reflexivity; eauto.
Qed.

Lemma read_truthy (m : JS.Member) (k : string) :
  JS.truthy_member m = true -> exists x, JS.read m k = Return x.
Proof.
  destruct m as [v| |]; simpl; eauto.
  intros Ht. rewrite (member_truthy _ _ Ht). eauto.
Qed.

(** The reviewer of a truthy review entity is resolved exactly when its
    reference can be made a key. *)
Lemma resolveReviewer_cases (apolloState review : value) :
  JS.truthy review = true -> JS.is_nullish apolloState = false ->
  (key_like (JS.optional (JS.own review "creator") "__ref") = true ->
   exists who, resolveReviewer apolloState review = Return who) /\
  (key_like (JS.optional (JS.own review "creator") "__ref") = false ->
   resolveReviewer apolloState review = Throw).
Proof.
  intros Ht Hs. unfold resolveReviewer, key_like.
  rewrite (member_truthy _ _ Ht). cbn [obind].
  destruct (JS.truthy (JS.optional (JS.own review "creator") "__ref")) eqn:Er;
    cbn [implb]; [|split; [eauto | discriminate]].
  destruct (truthy_optional _ _ Er) as [Hn Eo].
  rewrite (member_not_nullish _ _ Hn). cbn [obind].
  rewrite Eo. unfold JS.index. rewrite Hs.
  destruct (JS.convertible (JS.own (JS.own review "creator") "__ref")) eqn:Ec.
  - split; [intros _ | discriminate].
    rewrite (to_string_convertible _ Ec). cbn [obind].
    destruct (JS.truthy_member _) eqn:Eu; [|eauto].
    destruct (read_truthy _ "name" Eu) as (x & ->).
    destruct (read_truthy _ "webUrl" Eu) as (y & ->). cbn [obind]. eauto.
  - split; [discriminate | intros _].
    now rewrite (to_string_Throw _ Ec).
Qed.

(** The three cases of the body of the bootstrap loop. *)
Lemma reviewOfEntity_cases (apolloState review : value) :
  JS.is_nullish apolloState = false ->
  (entity_sound review = true -> kept review = false ->
   reviewOfEntity apolloState review = Return None) /\
  (entity_sound review = true -> kept review = true ->
   exists r, reviewOfEntity apolloState review = Return (Some r)) /\
  (entity_sound review = false -> reviewOfEntity apolloState review = Throw).
Proof.
  intros Hs. unfold entity_sound, kept, reviewOfEntity, JS.at_least.
  destruct (JS.truthy review) eqn:Et; cbn [negb andb implb].
  2:{ repeat split; try discriminate; reflexivity. }
  rewrite !(member_truthy _ _ Et). cbn [obind].
  destruct (JS.convertible (JS.own review "rating")); cbn [andb obind].
  2:{ repeat split; try discriminate; reflexivity. }
  destruct (JS.ge (JS.own review "rating") 4) eqn:Eg; cbn [negb implb].
  2:{ repeat split; try discriminate; reflexivity. }
  destruct (resolveReviewer_cases apolloState review Et Hs) as [Hwy Hwn].
  destruct (key_like _) eqn:Ek; cbn [andb].
  2:{ rewrite (Hwn eq_refl). repeat split; try discriminate; reflexivity. }
  destruct (Hwy eq_refl) as (who & ->). cbn [obind].
  destruct (date_of_date_like (JS.own review "createdAt")) as [Hdy Hdn].
  destruct (date_like _) eqn:Ed; cbn [andb].
  2:{ rewrite (Hdn eq_refl). repeat split; try discriminate; reflexivity. }
  destruct (Hdy eq_refl) as (d & ->). cbn [obind].
  destruct (content_of_text_like (JS.own review "text")) as [Hy Hn].
  destruct (text_like _) eqn:Etl.
  - destruct (Hy eq_refl) as (c & ->). cbn [obind].
    repeat split; try discriminate. eauto.
  - rewrite (Hn eq_refl). repeat split; try discriminate; reflexivity.
Qed.

(** The three cases of the body of the cursor loop. *)
Lemma reviewOfNode_cases (node : value) :
  (node_sound node = true -> kept node = false -> reviewOfNode node = Return None) /\
  (node_sound node = true -> kept node = true ->
   exists r, reviewOfNode node = Return (Some r)) /\
  (node_sound node = false -> reviewOfNode node = Throw).
Proof.
  unfold node_sound, kept, reviewOfNode, JS.at_least.
  destruct (JS.truthy node) eqn:Et; cbn [negb andb implb].
  2:{ repeat split; try discriminate; reflexivity. }
  rewrite !(member_truthy _ _ Et). cbn [obind].
  destruct (JS.convertible (JS.own node "rating")); cbn [andb obind].
  2:{ repeat split; try discriminate; reflexivity. }
  destruct (JS.ge (JS.own node "rating") 4) eqn:Eg; cbn [negb implb].
  2:{ repeat split; try discriminate; reflexivity. }
  destruct (date_of_date_like (JS.own node "createdAt")) as [Hdy Hdn].
  destruct (date_like _) eqn:Ed; cbn [andb].
  2:{ rewrite (Hdn eq_refl). repeat split; try discriminate; reflexivity. }
  destruct (Hdy eq_refl) as (d & ->). cbn [obind].
  destruct (content_of_text_like (JS.own node "text")) as [Hy Hn].
  destruct (text_like _) eqn:Etl.
  - destruct (Hy eq_refl) as (c & ->). cbn [obind].
    repeat split; try discriminate. eauto.
  - rewrite (Hn eq_refl). repeat split; try discriminate; reflexivity.
Qed.

(** The cursor loop returns exactly when every edge is sound, and then it
    has appended, in order, one review for each kept edge. *)
Lemma collectEdges_sound (edges : list value) :
  forall reviews,
    forallb edge_sound edges = true ->
    exists pushed,
      collectEdges edges reviews = Return (reviews ++ pushed)%list /\
      Forall2 (fun edge r => reviewOfNode (JS.own edge "node") = Return (Some r))
              (filter edge_kept edges) pushed.
Proof.
  induction edges as [|edge rest IH]; intros reviews H; simpl in H |- *.
  - exists []. rewrite app_nil_r. split; [reflexivity | constructor].
  - apply andb_true_iff in H as [He Hrest].
    unfold edge_sound in He. apply andb_true_iff in He as [Hn Ht].
    apply negb_true_iff in Hn. rewrite (member_not_nullish _ _ Hn). cbn [obind].
    destruct (reviewOfNode_cases (JS.own edge "node")) as (Hskip & Hpush & _).
    unfold edge_kept in *. destruct (kept (JS.own edge "node")) eqn:Ek.
    + destruct (Hpush Ht eq_refl) as (r & Hr). rewrite Hr. cbn [obind].
      destruct (IH (reviews ++ [r])%list Hrest) as (more & -> & Hmore).
      exists (r :: more). rewrite <- app_assoc. split; [reflexivity|].
      constructor; assumption.
    + rewrite (Hskip Ht eq_refl). cbn [obind]. apply (IH reviews Hrest).
Qed.

Lemma collectEdges_unsound (edges : list value) :
  forall reviews,
    forallb edge_sound edges = false -> collectEdges edges reviews = Throw.
Proof.
  induction edges as [|edge rest IH]; intros reviews H; simpl in H |- *;
    [discriminate|].
  unfold JS.member.
  destruct (JS.is_nullish edge) eqn:Hn; [reflexivity|]. cbn [obind].
  destruct (reviewOfNode_cases (JS.own edge "node")) as (Hskip & Hpush & Hthrow).
  unfold edge_sound, edge_kept in H. rewrite Hn in H. cbn [negb andb] in H.
  destruct (node_sound (JS.own edge "node")) eqn:Es.
  - cbn [andb] in H. destruct (kept (JS.own edge "node")) eqn:Ek.
    + destruct (Hpush eq_refl eq_refl) as (r & ->). cbn [obind].
      apply IH. exact H.
    + rewrite (Hskip eq_refl eq_refl). cbn [obind]. apply IH. exact H.
  - now rewrite (Hthrow eq_refl).
Qed.

(** The same for the loop over the review keys of the cache. *)
Lemma collectEntities_sound (apolloState : value) (keys : list string) :
  JS.is_nullish apolloState = false ->
  forall reviews,
    forallb (key_sound apolloState) keys = true ->
    exists pushed,
      collectEntities apolloState keys reviews = Return (reviews ++ pushed)%list /\
      Forall2 (fun key r => reviewOfEntity apolloState (JS.own apolloState key)
                            = Return (Some r))
              (filter (key_kept apolloState) keys) pushed.
Proof.
  intros Hs.
  induction keys as [|key rest IH]; intros reviews H; simpl in H |- *.
  - exists []. rewrite app_nil_r. split; [reflexivity | constructor].
  - apply andb_true_iff in H as [Ht Hrest].
    rewrite (member_not_nullish _ _ Hs). cbn [obind].
    destruct (reviewOfEntity_cases apolloState (JS.own apolloState key) Hs)
      as (Hskip & Hpush & _).
    unfold key_sound, key_kept in *.
    destruct (kept (JS.own apolloState key)) eqn:Ek.
    + destruct (Hpush Ht eq_refl) as (r & Hr). rewrite Hr. cbn [obind].
      destruct (IH (reviews ++ [r])%list Hrest) as (more & -> & Hmore).
      exists (r :: more). rewrite <- app_assoc. split; [reflexivity|].
      constructor; assumption.
    + rewrite (Hskip Ht eq_refl). cbn [obind]. apply (IH reviews Hrest).
Qed.

Lemma collectEntities_unsound (apolloState : value) (keys : list string) :
  JS.is_nullish apolloState = false ->
  forall reviews,
    forallb (key_sound apolloState) keys = false ->
    collectEntities apolloState keys reviews = Throw.
Proof.
  intros Hs.
  induction keys as [|key rest IH]; intros reviews H; simpl in H |- *;
    [discriminate|].
  rewrite (member_not_nullish _ _ Hs). cbn [obind].
  destruct (reviewOfEntity_cases apolloState (JS.own apolloState key) Hs)
    as (Hskip & Hpush & Hthrow).
  unfold key_sound, key_kept in H.
  destruct (entity_sound (JS.own apolloState key)) eqn:Es.
  - cbn [andb] in H. destruct (kept (JS.own apolloState key)) eqn:Ek.
    + destruct (Hpush eq_refl eq_refl) as (r & ->). cbn [obind].
      apply IH. exact H.
    + rewrite (Hskip eq_refl eq_refl). cbn [obind]. apply IH. exact H.
  - now rewrite (Hthrow eq_refl).
Qed.

End Loops.

Section CursorPath.
Context {rt : Runtime} (up : Upstream).

(** What [extractConnection] does with a body that has a connection. *)
Lemma extractConnection_connection (data : value) :
  JS.truthy (connection_of data) = true ->
  match iterate (edges_of data) with
  | Throw => extractConnection (Some data) = Throw
  | Return items =>
      if forallb edge_sound items then
        exists res,
          extractConnection (Some data) = Return (Some res) /\
          Forall2 (fun edge r => reviewOfNode (JS.own edge "node") = Return (Some r))
                  (filter edge_kept items) (GraphQLResult.reviews res)
      else extractConnection (Some data) = Throw
  end.
Proof.
  intros Ht. unfold extractConnection, edges_of. cbn [obind]. rewrite Ht. cbn [negb].
  rewrite !(member_truthy _ _ Ht). cbn [obind].
  destruct (iterate _) as [items|]; [|reflexivity]. cbn [obind].
  destruct (forallb edge_sound items) eqn:Hs.
  - destruct (collectEdges_sound items [] Hs) as (pushed & -> & Hp).
    cbn [obind app]. eexists. split; [reflexivity|]. exact Hp.
  - now rewrite (collectEdges_unsound items [] Hs).
Qed.

(** The cursor fetch resolves to [null] exactly on a [QueryFailure]. *)
Lemma fetchReviewsViaGraphQL_None (workId : string) (pageToken : option string)
    (apiKey : string) (log : list Call) :
  fst (fetchReviewsViaGraphQL up workId pageToken apiKey log) = Return None
  <-> QueryFailure up {| x_api_key := apiKey;
                         resourceType := "WORK";
                         resourceId := workId;
                         limit := 30;
                         after := or_null pageToken |}.
Proof.
  unfold fetchReviewsViaGraphQL, ibind, fetch_graphql, try_catch, lift, iret.
  fold (or_null pageToken).
  set (q := {| x_api_key := apiKey; resourceType := "WORK"; resourceId := workId;
               limit := 30; after := or_null pageToken |}).
  split.
  - destruct (review_service up q) as [response|] eqn:Hr; simpl;
      [|intros _; now apply query_rejected].
    destruct (ok response) eqn:Hok; simpl;
      [|intros _; now apply (query_not_ok up q response)].
    destruct (payload response) as [data|] eqn:Hp;
      [|intros _; now apply (query_body_not_json up q response)].
    destruct (JS.truthy (connection_of data)) eqn:Ht.
    + pose proof (extractConnection_connection data Ht) as Hc.
      destruct (iterate (edges_of data)) as [items|] eqn:Hi.
      * destruct (forallb edge_sound items) eqn:Hs.
        -- destruct Hc as (res & -> & _). discriminate.
        -- intros _. now apply (query_edge_unsound up q response data items).
      * intros _. now apply (query_edges_not_iterable up q response data).
    + intros _. now apply (query_connection_missing up q response data).
  - intros [Hr|response Hr Hok|response Hr Hok Hp|response data Hr Hok Hp Ht
           |response data Hr Hok Hp Ht Hi|response data items Hr Hok Hp Ht Hi Hs];
      rewrite Hr; simpl; try reflexivity; rewrite Hok; simpl; try reflexivity;
      rewrite Hp.
    + reflexivity.
    + unfold extractConnection. cbn [obind]. now rewrite Ht.
    + pose proof (extractConnection_connection data Ht) as Hc.
      rewrite Hi in Hc. now rewrite Hc.
    + pose proof (extractConnection_connection data Ht) as Hc.
      rewrite Hi, Hs in Hc. now rewrite Hc.
Qed.

End CursorPath.

(** X3. A request served in cursor mode is answered with status 500 and
    the error [Failed to fetch reviews] exactly when the cursor fetch
    fails: the fetch is rejected, the status is not ok, the body is not
    JSON, the connection object is missing, its edges cannot be iterated,
    or an edge is not sound.  An edge is not sound when it is [null] or
    [undefined], when its node is truthy and has a rating that cannot be
    converted to a primitive, such as [{"toString": 0}], so that
    [rating >= 4] throws, or when its node is kept and has a timestamp
    that cannot be converted or a text that is neither a string nor
    nullish.  One such edge fails the whole page. *)
Theorem cursor_failure_is_opaque {rt : Runtime} (up : Upstream)
    (request : Request) (url : string) (log : list Call) :
  valid_url request url ->
  bootstrap_mode request = false ->
  (QueryFailure up (cursor_query request) <->
   GET up request log
   = (Return (Failure 500 "Failed to fetch reviews"),
      (log ++ [GraphQLQuery (cursor_query request)])%list)).
Proof.
  intros Hv Hm. rewrite (GET_cursor up _ _ log Hv Hm).
  pose proof (fetchReviewsViaGraphQL_None up (or_else (q_workId request) "")
                (or_null (q_pageToken request))
                (or_else (q_apiKey request) FALLBACK_API_KEY) log) as Hn.
  rewrite or_null_idem in Hn. fold (cursor_query request) in Hn.
  split.
  - intros Hf. apply Hn in Hf. now rewrite Hf.
  - intros H. apply Hn.
    destruct (fetchReviewsViaGraphQL_returns up (or_else (q_workId request) "")
                (or_null (q_pageToken request))
                (or_else (q_apiKey request) FALLBACK_API_KEY) log) as (res & Hr).
    rewrite Hr in H |- *. destruct res; [discriminate H | reflexivity].
Qed.

(** A work one of whose reviews has a rating that cannot be compared. *)
Lemma cursor_failure_is_opaque_witness :
  QueryFailure (rt := Demo.runtime) Demo.upstream
    (cursor_query (Demo.request Demo.book_url (Some "2") None
                                (Some Demo.opaque_work_id) None))
  <->
  GET (rt := Demo.runtime) Demo.upstream
      (Demo.request Demo.book_url (Some "2") None (Some Demo.opaque_work_id) None) []
  = (Return (Failure 500 "Failed to fetch reviews"),
     [GraphQLQuery
        (cursor_query (Demo.request Demo.book_url (Some "2") None
                                    (Some Demo.opaque_work_id) None))]).
Proof.
  apply (cursor_failure_is_opaque (rt := Demo.runtime) Demo.upstream
           (Demo.request Demo.book_url (Some "2") None (Some Demo.opaque_work_id) None)
           Demo.book_url []).
  - split; [reflexivity | split; [discriminate | reflexivity]].
  - reflexivity.
Defined.

(** X4. The reviews of a successful cursor fetch are, in the order of the
    edges of the answer, the normalized nodes of exactly the kept edges
    (truthy node, [rating >= 4]): none is dropped, none is added, none is
    moved; in particular their ids are the ids of the kept nodes. *)
Theorem cursor_reviews_are_the_kept_edges {rt : Runtime} (up : Upstream)
    (workId : string) (pageToken : option string) (apiKey : string)
    (log log' : list Call) (res : GraphQLResult.t) :
  fetchReviewsViaGraphQL up workId pageToken apiKey log = (Return (Some res), log') ->
  exists response data items,
    review_service up {| x_api_key := apiKey;
                         resourceType := "WORK";
                         resourceId := workId;
                         limit := 30;
                         after := or_null pageToken |} = Some response /\
    payload response = Some data /\
    iterate (edges_of data) = Return items /\
    Forall2 (fun edge r => reviewOfNode (JS.own edge "node") = Return (Some r))
            (filter edge_kept items) (GraphQLResult.reviews res) /\
    map Review.id (GraphQLResult.reviews res)
      = map (fun edge => JS.own (JS.own edge "node") "id") (filter edge_kept items) /\
    (List.length (GraphQLResult.reviews res) <= List.length items)%nat.
Proof.
  intros H.
  destruct (fetchReviewsViaGraphQL_Some up _ _ _ _ _ _ H) as (response & Hr & Hok & Hx).
  destruct (extractConnection_Some _ _ Hx) as (data & items & Hp & Ht & Hi & Hc & _).
  assert (HF : Forall2 (fun edge r => reviewOfNode (JS.own edge "node") = Return (Some r))
                 (filter edge_kept items) (GraphQLResult.reviews res)).
  { destruct (forallb edge_sound items) eqn:Hs.
    - destruct (collectEdges_sound items [] Hs) as (pushed & Hc' & Hp').
      rewrite Hc in Hc'. injection Hc' as ->. exact Hp'.
    - rewrite (collectEdges_unsound items [] Hs) in Hc. discriminate. }
  exists response, data, items.
  split; [assumption|]. split; [assumption|]. split; [assumption|].
  split; [exact HF|]. split.
  - clear -HF. induction HF as [|edge r l l' Hr _ IH]; simpl; [reflexivity|].
    f_equal; [|exact IH].
    apply reviewOfNode_Some in Hr. tauto.
  - rewrite <- (Forall2_length HF). apply filter_length_le.
Qed.

(** The second page of the book: one of its two edges is kept. *)
Lemma cursor_reviews_are_the_kept_edges_witness :
  exists response data items,
    review_service Demo.upstream
      {| x_api_key := "da2-frompage1"; resourceType := "WORK";
         resourceId := Demo.work_id; limit := 30;
         after := or_null (Some "tok2") |} = Some response /\
    payload response = Some data /\
    iterate (edges_of data) = Return items /\
    Forall2 (fun edge r => reviewOfNode (rt := Demo.runtime) (JS.own edge "node")
                           = Return (Some r))
            (filter (edge_kept (rt := Demo.runtime)) items)
            (GraphQLResult.reviews Demo.page2_result) /\
    map Review.id (GraphQLResult.reviews Demo.page2_result)
      = map (fun edge => JS.own (JS.own edge "node") "id")
            (filter (edge_kept (rt := Demo.runtime)) items) /\
    (List.length (GraphQLResult.reviews Demo.page2_result) <= List.length items)%nat.
Proof.
  apply (cursor_reviews_are_the_kept_edges (rt := Demo.runtime) Demo.upstream
           Demo.work_id (Some "tok2") "da2-frompage1" []
           [GraphQLQuery (cursor_query Demo.second_page)] Demo.page2_result).
  vm_compute. reflexivity.
Defined.

(* ------------------------------------------------------------------ *)
(** *** The bootstrap, part by part *)

Section BootstrapPath.
Context {rt : Runtime} (up : Upstream).

Lemma Object_keys_Return (v : value) (keys : list string) :
  JS.Object_keys v = Return keys -> JS.is_nullish v = false.
Proof. destruct v; simpl; congruence. Qed.


Lemma or_truthy (a d : value) : JS.truthy d = true -> JS.truthy (JS.or a d) = true.
Proof. unfold JS.or. destruct (JS.truthy a) eqn:E; auto. Qed.




End BootstrapPath.



Section BootstrapParts.
Context {rt : Runtime} (up : Upstream).

Lemma prefix_app (p s : string) :
  String.prefix p s = true -> exists r, s = p ++ r.
Proof.
  revert s; induction p as [|c p IH]; intros s H.
  - now exists s.
  - destruct s as [|d s]; simpl in H; [discriminate|].
    destruct (Ascii.ascii_dec c d) as [->|]; [|discriminate].
    destruct (IH _ H) as (r & ->). now exists r.
Qed.

Lemma prefix_of_app (p r : string) : String.prefix p (p ++ r) = true.
Proof.
  induction p as [|c p IH]; simpl; [now destruct r|].
  destruct (Ascii.ascii_dec c c); [exact IH | congruence].
Qed.

Lemma drop_app (p r : string) : Str.drop (String.length p) (p ++ r) = r.
Proof. induction p as [|c p IH]; simpl; [now destruct r | exact IH]. Qed.

(** Removing a prefix that is there gives back the rest. *)
Lemma remove_first_prefix (p r : string) : Str.remove_first p (p ++ r) = r.
Proof.
  destruct p as [|c p].
  - simpl. destruct r; reflexivity.
  - cbn [Str.remove_first append].
    change (String c (p ++ r)) with (String c p ++ r).
    now rewrite prefix_of_app, drop_app.
Qed.

End BootstrapParts.

(** X6. The reviews of a successful bootstrap are, in the order of the keys
    of the entity cache, the normalized entities of exactly the kept
    [Review:] keys: none is dropped, none is added, none is moved. *)
Theorem bootstrap_reviews_are_the_kept_entities {rt : Runtime} (up : Upstream)
    (url : string) (log log' : list Call) (pageData : PageData.t) :
  fetchBookPageData up url log = (Return (Some pageData), log') ->
  exists response script nextData keys,
    book_page up url = Some response /\
    NEXT_DATA_html (payload response) = Some script /\
    JSON_parse script = Some nextData /\
    JS.Object_keys (apolloState_of nextData) = Return keys /\
    Forall2 (fun key r =>
               reviewOfEntity (apolloState_of nextData)
                              (JS.own (apolloState_of nextData) key)
               = Return (Some r))
            (filter (key_kept (apolloState_of nextData))
                    (filter (Str.startsWith "Review:") keys))
            (PageData.initialReviews pageData) /\
    map Review.id (PageData.initialReviews pageData)
      = map (fun key => JS.own (JS.own (apolloState_of nextData) key) "id")
            (filter (key_kept (apolloState_of nextData))
                    (filter (Str.startsWith "Review:") keys)).
Proof.
  intros H.
  destruct (fetchBookPageData_Some up _ _ _ _ H) as (response & script & Hb & _ & Hs & _ & Hx).
  destruct (extractPageData_Some _ _ _ Hx)
    as (nextData & keys & workKey & reviewsData & Hp & Ht & _ & Hk & _ & _ & _ & Hc & _).
  pose proof (truthy_not_nullish _ Ht) as Hn.
  assert (HF : Forall2 (fun key r =>
               reviewOfEntity (apolloState_of nextData)
                              (JS.own (apolloState_of nextData) key)
               = Return (Some r))
            (filter (key_kept (apolloState_of nextData))
                    (filter (Str.startsWith "Review:") keys))
            (PageData.initialReviews pageData)).
  { destruct (forallb (key_sound (apolloState_of nextData))
                      (filter (Str.startsWith "Review:") keys)) eqn:Hsound.
    - destruct (collectEntities_sound _ _ Hn [] Hsound) as (pushed & Hc' & Hp').
      rewrite Hc in Hc'. injection Hc' as ->. exact Hp'.
    - rewrite (collectEntities_unsound _ _ Hn [] Hsound) in Hc. discriminate. }
  exists response, script, nextData, keys.
  split; [assumption|]. split; [assumption|]. split; [assumption|].
  split; [assumption|]. split; [exact HF|].
  clear -HF. induction HF as [|key r l l' Hr _ IH]; simpl; [reflexivity|].
  f_equal; [|exact IH].
  apply reviewOfEntity_Some in Hr. tauto.
Qed.

(** The first page of the book: two of its three review entities are kept. *)
Lemma bootstrap_reviews_are_the_kept_entities_witness :
  exists response script nextData keys,
    book_page Demo.upstream Demo.book_url = Some response /\
    NEXT_DATA_html (payload response) = Some script /\
    JSON_parse (Runtime := Demo.runtime) script = Some nextData /\
    JS.Object_keys (apolloState_of nextData) = Return keys /\
    Forall2 (fun key r =>
               reviewOfEntity (rt := Demo.runtime) (apolloState_of nextData)
                              (JS.own (apolloState_of nextData) key)
               = Return (Some r))
            (filter (key_kept (rt := Demo.runtime) (apolloState_of nextData))
                    (filter (Str.startsWith "Review:") keys))
            [Demo.review_r1; Demo.review_r3] /\
    map Review.id [Demo.review_r1; Demo.review_r3]
      = map (fun key => JS.own (JS.own (apolloState_of nextData) key) "id")
            (filter (key_kept (rt := Demo.runtime) (apolloState_of nextData))
                    (filter (Str.startsWith "Review:") keys)).
Proof.
  apply (bootstrap_reviews_are_the_kept_entities (rt := Demo.runtime) Demo.upstream
           Demo.book_url [] [PageFetch Demo.book_url] Demo.page1).
  vm_compute. reflexivity.
Defined.

(** X7. The work identifier of a successful bootstrap is the first key of
    the entity cache that starts with [Work:kca://work/], without its
    [Work:]: it starts with [kca://work/], it is not empty, and putting
    [Work:] back in front gives that key again. *)
Theorem bootstrap_workId_is_the_work_key {rt : Runtime} (up : Upstream)
    (url : string) (log log' : list Call) (pageData : PageData.t) :
  fetchBookPageData up url log = (Return (Some pageData), log') ->
  exists response script nextData keys,
    book_page up url = Some response /\
    NEXT_DATA_html (payload response) = Some script /\
    JSON_parse script = Some nextData /\
    JS.Object_keys (apolloState_of nextData) = Return keys /\
    find (Str.startsWith "Work:kca://work/") keys
      = Some ("Work:" ++ PageData.workId pageData) /\
    In ("Work:" ++ PageData.workId pageData) keys /\
    Str.startsWith "kca://work/" (PageData.workId pageData) = true /\
    given (Some (PageData.workId pageData)) = true.
Proof.
  intros H.
  destruct (fetchBookPageData_Some up _ _ _ _ H) as (response & script & Hb & _ & Hs & _ & Hx).
  destruct (extractPageData_Some _ _ _ Hx)
    as (nextData & keys & workKey & reviewsData & Hp & _ & _ & Hk & Hw & Hid & _).
  exists response, script, nextData, keys.
  split; [assumption|]. split; [assumption|]. split; [assumption|].
  split; [assumption|].
  destruct (find_some _ _ Hw) as [Hin Hpre].
  destruct (prefix_app _ _ Hpre) as (rest & ->).
  change ("Work:kca://work/" ++ rest) with ("Work:" ++ ("kca://work/" ++ rest)) in *.
  rewrite remove_first_prefix in Hid. rewrite Hid.
  split; [assumption|]. split; [assumption|].
  split; [apply prefix_of_app | reflexivity].
Qed.

(** The first page of the book. *)
Lemma bootstrap_workId_is_the_work_key_witness :
  exists response script nextData keys,
    book_page Demo.upstream Demo.book_url = Some response /\
    NEXT_DATA_html (payload response) = Some script /\
    JSON_parse (Runtime := Demo.runtime) script = Some nextData /\
    JS.Object_keys (apolloState_of nextData) = Return keys /\
    find (Str.startsWith "Work:kca://work/") keys
      = Some ("Work:" ++ PageData.workId Demo.page1) /\
    In ("Work:" ++ PageData.workId Demo.page1) keys /\
    Str.startsWith "kca://work/" (PageData.workId Demo.page1) = true /\
    given (Some (PageData.workId Demo.page1)) = true.
Proof.
  apply (bootstrap_workId_is_the_work_key (rt := Demo.runtime) Demo.upstream
           Demo.book_url [] [PageFetch Demo.book_url]).
  vm_compute. reflexivity.
Defined.

(* ------------------------------------------------------------------ *)
(** *** Fields that are never left empty *)

Section Fields.
Context {rt : Runtime} (up : Upstream).

Lemma or_not_nullish (a : value) (s : string) :
  JS.is_nullish (JS.or a (VStr s)) = false.
Proof.
  unfold JS.or. destruct (JS.truthy a) eqn:E; [|reflexivity].
  now apply truthy_not_nullish.
Qed.

Lemma normalised_reviewer (raw : value) (creator : JS.Member) (r : Review.t) :
  normalised raw creator r ->
  JS.truthy (Review.reviewer r) = true /\
  JS.is_nullish (Review.reviewerUrl r) = false.
Proof.
  intros [st review r' H|node r' H].
  - apply reviewOfEntity_Some in H as (_ & _ & _ & _ & Hw & _).
    destruct (resolveReviewer_creator _ _ _ _ Hw) as [-> ->].
    split; [now apply or_truthy | apply or_not_nullish].
  - apply reviewOfNode_Some in H as (_ & _ & _ & _ & -> & -> & _).
    split; [now apply or_truthy | apply or_not_nullish].
Qed.

(** Lines 120-143, field by field. *)
Lemma extractBookInfo_fields (apolloState : value) (keys : list string)
    (info : BookInfo.t) :
  extractBookInfo apolloState keys = Return info ->
  JS.truthy (BookInfo.title info) = true /\
  JS.truthy (BookInfo.author info) = true /\
  JS.is_nullish (BookInfo.coverUrl info) = false /\
  (filter (Str.startsWith "Book:") keys = [] ->
   info = {| BookInfo.title := VStr "Unknown Title";
             BookInfo.author := VStr "Unknown Author";
             BookInfo.coverUrl := VStr "" |}) /\
  (forall k rest, filter (Str.startsWith "Book:") keys = k :: rest ->
     BookInfo.title info
       = JS.or (JS.optional (JS.own apolloState k) "title") (VStr "Unknown Title") /\
     BookInfo.coverUrl info
       = JS.or (JS.optional (JS.own apolloState k) "imageUrl") (VStr "")).
Proof.
  unfold extractBookInfo. intros H.
  destruct (filter (Str.startsWith "Book:") keys) as [|k rest].
  - injection H as <-. simpl. repeat split; try reflexivity; discriminate.
  - bind_inv H book Eb. apply member_Return in Eb as [-> _].
    bind_inv H author Ea. injection H as <-. cbn.
    split; [now apply or_truthy|].
    split.
    { test_inv Ea E1.
      - bind_inv Ea edge Ee. bind_inv Ea contribKey Ec. bind_inv Ea contrib Eco.
        test_inv Ea E2.
        + bind_inv Ea node En. bind_inv Ea ref Er. bind_inv Ea authorData Ead.
          injection Ea as <-. now apply or_truthy.
        + now injection Ea as <-.
      - now injection Ea as <-. }
    split; [apply or_not_nullish|].
    split; [discriminate|].
    intros k' rest' [= <- <-]. auto.
Qed.

End Fields.

(** X8. The reviewer of every review of a returned array is truthy: a
    missing, [null] or empty name has been replaced by [Anonymous]; and its
    [reviewerUrl] is never [null] or [undefined]. *)
Theorem produced_reviewer_never_empty {rt : Runtime} (up : Upstream) (r : Review.t) :
  produced up r ->
  JS.truthy (Review.reviewer r) = true /\
  JS.is_nullish (Review.reviewerUrl r) = false.
Proof.
  intros H. destruct (produced_normalised up r H) as (raw & creator & Hn).
  exact (normalised_reviewer raw creator r Hn).
Qed.

(** The review of the creator with the empty name. *)
Lemma produced_reviewer_never_empty_witness :
  JS.truthy (Review.reviewer Demo.review_r7) = true /\
  JS.is_nullish (Review.reviewerUrl Demo.review_r7) = false.
Proof.
  apply (produced_reviewer_never_empty (rt := Demo.runtime) Demo.upstream).
  apply (produced_response (rt := Demo.runtime) Demo.upstream _ Demo.second_page []
           [GraphQLQuery (cursor_query Demo.second_page)]
           (cursorBody (Num 2) Demo.work_id Demo.page2_result)).
  - vm_compute. reflexivity.
  - simpl. auto.
Defined.

(** X9. The book of a successful bootstrap always has a truthy title and a
    truthy author, and a cover that is not [null] or [undefined]: without
    any [Book:] entity in the cache they are [Unknown Title],
    [Unknown Author] and the empty string; with one, title and cover are
    those of the first [Book:] entity when truthy, the defaults otherwise. *)
Theorem bootstrap_book_never_untitled {rt : Runtime} (up : Upstream)
    (url : string) (log log' : list Call) (pageData : PageData.t) :
  fetchBookPageData up url log = (Return (Some pageData), log') ->
  JS.truthy (BookInfo.title (PageData.bookInfo pageData)) = true /\
  JS.truthy (BookInfo.author (PageData.bookInfo pageData)) = true /\
  JS.is_nullish (BookInfo.coverUrl (PageData.bookInfo pageData)) = false /\
  exists response script nextData keys,
    book_page up url = Some response /\
    NEXT_DATA_html (payload response) = Some script /\
    JSON_parse script = Some nextData /\
    JS.Object_keys (apolloState_of nextData) = Return keys /\
    (filter (Str.startsWith "Book:") keys = [] ->
     PageData.bookInfo pageData
     = {| BookInfo.title := VStr "Unknown Title";
          BookInfo.author := VStr "Unknown Author";
          BookInfo.coverUrl := VStr "" |}) /\
    (forall k rest, filter (Str.startsWith "Book:") keys = k :: rest ->
       BookInfo.title (PageData.bookInfo pageData)
         = JS.or (JS.optional (JS.own (apolloState_of nextData) k) "title")
                 (VStr "Unknown Title") /\
       BookInfo.coverUrl (PageData.bookInfo pageData)
         = JS.or (JS.optional (JS.own (apolloState_of nextData) k) "imageUrl")
                 (VStr "")).
Proof.
  intros H.
  destruct (fetchBookPageData_Some up _ _ _ _ H) as (response & script & Hb & _ & Hs & _ & Hx).
  destruct (extractPageData_Some _ _ _ Hx)
    as (nextData & keys & workKey & reviewsData & Hp & _ & _ & Hk & _ & _ & Hi & _).
  destruct (extractBookInfo_fields _ _ _ Hi) as (Ht & Ha & Hc & Hnone & Hsome).
  split; [assumption|]. split; [assumption|]. split; [assumption|].
  exists response, script, nextData, keys. auto 10.
Qed.

(** The first page of the book. *)
Lemma bootstrap_book_never_untitled_witness :
  JS.truthy (BookInfo.title (PageData.bookInfo Demo.page1)) = true /\
  JS.truthy (BookInfo.author (PageData.bookInfo Demo.page1)) = true /\
  JS.is_nullish (BookInfo.coverUrl (PageData.bookInfo Demo.page1)) = false.
Proof.
  destruct (bootstrap_book_never_untitled (rt := Demo.runtime) Demo.upstream
              Demo.book_url [] [PageFetch Demo.book_url] Demo.page1)
    as (Ht & Ha & Hc & _).
  - vm_compute. reflexivity.
  - auto.
Defined.

(* ------------------------------------------------------------------ *)
(** *** The key pattern *)

Section KeyFacts.

Lemma key_chars_split (s : string) :
  exists post,
    s = KeyPattern.key_chars s ++ post /\
    all_chars KeyPattern.is_key_char (KeyPattern.key_chars s) = true /\
    starts_with_key_char post = false.
Proof.
  induction s as [|c r (post & Hs & Ha & Hp)]; simpl.
  - exists "". auto.
  - destruct (KeyPattern.is_key_char c) eqn:E.
    + exists post. simpl. rewrite E, Ha. split; [now f_equal | auto].
    + exists (String c r). simpl. auto.
Qed.

Lemma key_chars_all (run post : string) :
  all_chars KeyPattern.is_key_char run = true ->
  starts_with_key_char post = false ->
  KeyPattern.key_chars (run ++ post) = run.
Proof.
  induction run as [|c run IH]; simpl; intros Ha Hp.
  - destruct post as [|d post]; simpl in *; [reflexivity | now rewrite Hp].
  - apply andb_true_iff in Ha as [-> Ha]. f_equal. auto.
Qed.

(** The group at the start of a string: what it captures has the shape of
    a key, is a prefix of the string, and is followed by no letter or digit. *)
Lemma group_here_Some (s k : string) :
  KeyPattern.group_here s = Some k ->
  key_shaped k = true /\
  exists post, s = k ++ post /\ starts_with_key_char post = false.
Proof.
  unfold KeyPattern.group_here.
  destruct s as [|c1 [|c2 [|c3 [|c4 r]]]]; try discriminate.
  destruct ((Ascii.eqb c1 "d" || Ascii.eqb c1 "D") &&
            (Ascii.eqb c2 "a" || Ascii.eqb c2 "A") &&
            Ascii.eqb c3 "2" && Ascii.eqb c4 "-")%bool eqn:E; [|discriminate].
  destruct (key_chars_split r) as (post & Hr & Ha & Hp).
  destruct (KeyPattern.key_chars r) as [|x run] eqn:Ek; [discriminate|].
  intros [= <-]. split.
  - unfold key_shaped. rewrite E, Ha. reflexivity.
  - exists post. split; [|assumption]. simpl. simpl in Hr. now rewrite Hr at 1.
Qed.

(** A key followed by no letter or digit is captured whole. *)
Lemma group_here_key (k post : string) :
  key_shaped k = true -> starts_with_key_char post = false ->
  KeyPattern.group_here (k ++ post) = Some k.
Proof.
  unfold key_shaped, KeyPattern.group_here.
  destruct k as [|c1 [|c2 [|c3 [|c4 run]]]]; try discriminate.
  intros H Hp. simpl.
  apply andb_true_iff in H as [H Ha]. apply andb_true_iff in H as [H Hne].
  rewrite H, (key_chars_all run post Ha Hp).
  destruct run; [discriminate | reflexivity].
Qed.

(** A key followed by anything: a key is captured, possibly a longer one. *)
Lemma group_here_key_prefix (k post : string) :
  key_shaped k = true -> KeyPattern.group_here (k ++ post) <> None.
Proof.
  unfold key_shaped, KeyPattern.group_here.
  destruct k as [|c1 [|c2 [|c3 [|c4 run]]]]; try discriminate.
  intros H. simpl.
  apply andb_true_iff in H as [H Ha]. apply andb_true_iff in H as [H Hne].
  rewrite H.
  destruct run as [|x run]; [discriminate|].
  simpl in Ha |- *. apply andb_true_iff in Ha as [-> _]. discriminate.
Qed.

Lemma group_here_quote (q : ascii) (r : string) :
  KeyPattern.is_quote q = true -> KeyPattern.group_here (String q r) = None.
Proof.
  intros Hq. unfold KeyPattern.group_here.
  destruct r as [|c2 [|c3 [|c4 r]]]; try reflexivity.
  assert (E : (Ascii.eqb q "d" || Ascii.eqb q "D")%bool = false).
  { apply orb_false_iff. split; apply Ascii.eqb_neq; intros ->; discriminate. }
  now rewrite E.
Qed.

Lemma match_here_None (s : string) :
  KeyPattern.match_here s = None -> KeyPattern.group_here s = None.
Proof.
  unfold KeyPattern.match_here. destruct s as [|q r]; [reflexivity|].
  destruct (KeyPattern.is_quote q); [|auto].
  destruct (KeyPattern.group_here r); [discriminate | auto].
Qed.

Lemma first_match_cons (c : ascii) (r : string) :
  KeyPattern.first_match (String c r)
  = match KeyPattern.match_here (String c r) with
    | Some k => Some k
    | None => KeyPattern.first_match r
    end.
Proof. reflexivity. Qed.

End KeyFacts.

(** X10. What [match] finds in a script is the leftmost key and the
    longest one: the captured text has the shape [da2-] plus letters and
    digits, it stands in the script followed by no letter or digit, and no
    key starts further left.  Nothing is found only when the script holds no
    text of that shape at all. *)
Theorem first_match_is_the_leftmost_key (s : string) :
  (forall k, KeyPattern.first_match s = Some k ->
     key_shaped k = true /\
     exists pre post,
       s = pre ++ k ++ post /\
       starts_with_key_char post = false /\
       (forall p t, pre = p ++ t -> t <> "" ->
                    KeyPattern.group_here (t ++ k ++ post) = None)) /\
  (KeyPattern.first_match s = None <->
   forall pre k post, key_shaped k = true -> s <> pre ++ k ++ post).
Proof.
  split.
  - induction s as [|c r IH]; intros k H.
    + discriminate.
    + rewrite first_match_cons in H.
      destruct (KeyPattern.match_here (String c r)) as [k'|] eqn:Em.
      * injection H as ->. unfold KeyPattern.match_here in Em.
        destruct (KeyPattern.is_quote c) eqn:Eq.
        -- destruct (KeyPattern.group_here r) as [k''|] eqn:Eg.
           ++ injection Em as ->.
              destruct (group_here_Some _ _ Eg) as (Hk & post & -> & Hp).
              split; [assumption|].
              exists (String c ""), post. split; [reflexivity|]. split; [assumption|].
              intros p t Hpt Ht.
              destruct p as [|x p]; simpl in Hpt.
              ** subst t. cbn [append]. now apply group_here_quote.
              ** injection Hpt as _ Hpt. destruct p; [|discriminate].
                 simpl in Hpt. subst t. congruence.
           ++ rewrite (group_here_quote c r Eq) in Em. discriminate.
        -- destruct (group_here_Some _ _ Em) as (Hk & post & Hs & Hp).
           split; [assumption|].
           exists "", post. split; [exact Hs|]. split; [assumption|].
           intros p t Hpt Ht. destruct p; simpl in Hpt; [congruence | discriminate].
      * destruct (IH k H) as (Hk & pre & post & -> & Hp & Hleft).
        split; [assumption|].
        exists (String c pre), post. split; [reflexivity|]. split; [assumption|].
        intros p t Hpt Ht.
        destruct p as [|x p]; simpl in Hpt.
        -- subst t. cbn [append]. now apply match_here_None.
        -- injection Hpt as _ Hpt. now apply (Hleft p t).
  - split.
    + intros H pre k post Hk ->. revert H.
      induction pre as [|c pre IH].
      * assert (Hg := group_here_key_prefix k post Hk).
        change ("" ++ k ++ post) with (k ++ post).
        destruct (k ++ post) as [|q r] eqn:E; [now destruct k|].
        rewrite first_match_cons. unfold KeyPattern.match_here.
        destruct (KeyPattern.is_quote q) eqn:Eq.
        -- now rewrite (group_here_quote q r Eq) in Hg.
        -- destruct (KeyPattern.group_here (String q r)); [discriminate | congruence].
      * change (String c pre ++ k ++ post) with (String c (pre ++ k ++ post)).
        rewrite first_match_cons.
        destruct (KeyPattern.match_here _); [discriminate | exact IH].
    + induction s as [|c r IH]; intros H; [reflexivity|].
      rewrite first_match_cons.
      destruct (KeyPattern.match_here (String c r)) as [k|] eqn:Em.
      * exfalso. unfold KeyPattern.match_here in Em.
        destruct (KeyPattern.is_quote c) eqn:Eq.
        -- destruct (KeyPattern.group_here r) as [k'|] eqn:Eg.
           ++ destruct (group_here_Some _ _ Eg) as (Hk & post & -> & _).
              now apply (H (String c "") k' post Hk).
           ++ rewrite (group_here_quote c r Eq) in Em. discriminate.
        -- destruct (group_here_Some _ _ Em) as (Hk & post & Hs & _).
           now apply (H "" k post Hk).
      * apply IH. intros pre k post Hk ->.
        now apply (H (String c pre) k post Hk).
Qed.

(* ------------------------------------------------------------------ *)
(** *** The credential, and the query that carries it *)

Section CredentialFacts.
Context {rt : Runtime} (up : Upstream).

Lemma first_match_shaped (s k : string) :
  KeyPattern.first_match s = Some k -> key_shaped k = true.
Proof.
  induction s as [|c r IH]; [discriminate|].
  rewrite first_match_cons.
  destruct (KeyPattern.match_here (String c r)) as [k'|] eqn:Em; [|exact IH].
  intros [= ->]. unfold KeyPattern.match_here in Em.
  destruct (KeyPattern.is_quote c).
  - destruct (KeyPattern.group_here r) as [k''|] eqn:Eg.
    + injection Em as ->. now destruct (group_here_Some _ _ Eg).
    + now destruct (group_here_Some _ _ Em).
  - now destruct (group_here_Some _ _ Em).
Qed.

Lemma key_shaped_truthy (k : string) : key_shaped k = true -> JS.truthy (VStr k) = true.
Proof. destruct k; [discriminate | reflexivity]. Qed.

Lemma FirstScriptMatch_shaped (scripts : list (option string)) (k : string) :
  FirstScriptMatch scripts (Some k) -> key_shaped k = true.
Proof.
  inversion 1 as [|before script rest k' _ Hk]; subst.
  exact (first_match_shaped _ _ Hk).
Qed.

End CredentialFacts.

(** X11. The credential of a successful bootstrap is never empty: it is
    truthy.  When the runtime configuration of the page gives no key, it is
    a string of the key format [da2-] plus letters and digits, found in a
    script or else the fallback constant. *)
Theorem bootstrap_credential_never_empty {rt : Runtime} (up : Upstream)
    (url : string) (log log' : list Call) (pageData : PageData.t) :
  fetchBookPageData up url log = (Return (Some pageData), log') ->
  JS.truthy (PageData.apiKey pageData) = true /\
  exists response script nextData,
    book_page up url = Some response /\
    NEXT_DATA_html (payload response) = Some script /\
    JSON_parse script = Some nextData /\
    (JS.truthy (JS.optional (runtimeConfig_of nextData) "apiKey") = false ->
     exists k, PageData.apiKey pageData = VStr k /\ key_shaped k = true).
Proof.
  intros H.
  destruct (fetchBookPageData_Some up _ _ _ _ H) as (response & script & Hb & _ & Hs & _ & Hx).
  destruct (extractPageData_Some _ _ _ Hx)
    as (nextData & keys & workKey & reviewsData & Hp & _ & Hk & _).
  destruct (resolveApiKey_resolved (payload response) nextData) as (key & Hr & m & Hm & Hkey).
  rewrite Hr in Hk. injection Hk as <-.
  assert (Hshape : JS.truthy (JS.optional (runtimeConfig_of nextData) "apiKey") = false ->
                   exists k, key = VStr k /\ key_shaped k = true).
  { intros Hf. rewrite Hf in Hkey. destruct m as [k|].
    - exists k. split; [assumption|]. exact (FirstScriptMatch_shaped _ _ Hm).
    - exists FALLBACK_API_KEY. split; [assumption | reflexivity]. }
  split.
  - destruct (JS.truthy (JS.optional (runtimeConfig_of nextData) "apiKey")) eqn:Ef.
    + now rewrite Hkey.
    + destruct (Hshape eq_refl) as (k & -> & Hk). now apply key_shaped_truthy.
  - exists response, script, nextData. auto.
Qed.

(** The page without a key in its scripts: the fallback is returned. *)
Lemma bootstrap_credential_never_empty_witness :
  exists pageData,
    fst (fetchBookPageData (rt := Demo.runtime) Demo.upstream Demo.last_url [])
      = Return (Some pageData) /\
    JS.truthy (PageData.apiKey pageData) = true.
Proof.
  destruct (fetchBookPageData (rt := Demo.runtime) Demo.upstream Demo.last_url [])
    as [[[pageData|]|] log'] eqn:E; try (vm_compute in E; discriminate E).
  exists pageData. split; [reflexivity|].
  exact (proj1 (bootstrap_credential_never_empty (rt := Demo.runtime) Demo.upstream
                  Demo.last_url [] log' pageData E)).
Defined.

(** X12. The query of a request served in cursor mode: it asks for the
    reviews of the [WORK] that the [workId] parameter names, which is not
    empty, 30 at a time; its key is the [apiKey] parameter, or the fallback
    constant when that parameter is absent or empty, so it is never empty;
    its cursor is the [pageToken] parameter, left out when that parameter is
    absent or empty, so it is never an empty cursor. *)
Theorem cursor_query_fields {rt : Runtime} (up : Upstream)
    (request : Request) (url : string) (log : list Call) :
  valid_url request url ->
  bootstrap_mode request = false ->
  exists response q,
    GET up request log = (Return response, (log ++ [GraphQLQuery q])%list) /\
    resourceType q = "WORK" /\ limit q = 30 /\
    q_workId request = Some (resourceId q) /\ resourceId q <> "" /\
    x_api_key q <> "" /\
    (given (q_apiKey request) = true -> q_apiKey request = Some (x_api_key q)) /\
    (given (q_apiKey request) = false -> x_api_key q = FALLBACK_API_KEY) /\
    after q <> Some "" /\
    (given (q_pageToken request) = true -> after q = q_pageToken request) /\
    (given (q_pageToken request) = false -> after q = None).
Proof.
  intros Hv Hm.
  eexists _, (cursor_query request). split; [apply (GET_cursor up _ _ log Hv Hm)|].
  unfold bootstrap_mode in Hm. apply orb_false_iff in Hm as [_ Hw].
  apply negb_false_iff in Hw.
  destruct (given_Some _ Hw) as (w & Ew & Hne & Eo).
  unfold cursor_query; simpl. rewrite Eo, Ew.
  split; [reflexivity|]. split; [reflexivity|]. split; [reflexivity|].
  split; [assumption|].
  split; [|split; [|split; [|split; [|split]]]].
  - unfold or_else. destruct (q_apiKey request) as [k|]; [|discriminate].
    destruct (String.eqb k "") eqn:E; [discriminate|]. now apply String.eqb_neq.
  - intros Hg. destruct (given_Some _ Hg) as (k & Ek & Hk & _).
    rewrite Ek. simpl. apply String.eqb_neq in Hk. now rewrite Hk.
  - unfold given, or_else. destruct (q_apiKey request) as [k|]; [|reflexivity].
    destruct (String.eqb k ""); [reflexivity | discriminate].
  - unfold or_null, given. destruct (q_pageToken request) as [t|]; [|discriminate].
    destruct (String.eqb t "") eqn:E; simpl; [discriminate|].
    intros [= ->]. discriminate.
  - unfold or_null. now intros ->.
  - unfold or_null. now intros ->.
Qed.

(** The request for the second page, and one for page 3 with an empty
    token and no key. *)
Lemma cursor_query_fields_witness :
  (exists response q,
     GET (rt := Demo.runtime) Demo.upstream Demo.second_page []
       = (Return response, [GraphQLQuery q]) /\
     resourceId q = Demo.work_id /\ x_api_key q = "da2-frompage1" /\
     after q = Some "tok2") /\
  (exists response q,
     GET (rt := Demo.runtime) Demo.upstream
         (Demo.request Demo.book_url (Some "3") (Some "") (Some Demo.work_id) None) []
       = (Return response, [GraphQLQuery q]) /\
     x_api_key q = FALLBACK_API_KEY /\ after q = None).
Proof.
  split.
  - destruct (cursor_query_fields (rt := Demo.runtime) Demo.upstream Demo.second_page
                Demo.book_url [])
      as (response & q & HG & _ & _ & Hw & _ & _ & Hk & _ & _ & Ht & _).
    + split; [reflexivity | split; [discriminate | reflexivity]].
    + reflexivity.
    + exists response, q. split; [exact HG|].
      split; [now injection Hw|]. split; [now injection (Hk eq_refl) | exact (Ht eq_refl)].
  - destruct (cursor_query_fields (rt := Demo.runtime) Demo.upstream
                (Demo.request Demo.book_url (Some "3") (Some "") (Some Demo.work_id) None)
                Demo.book_url [])
      as (response & q & HG & _ & _ & _ & _ & _ & _ & Hk & _ & _ & Ht).
    + split; [reflexivity | split; [discriminate | reflexivity]].
    + reflexivity.
    + exists response, q. split; [exact HG|].
      split; [exact (Hk eq_refl) | exact (Ht eq_refl)].
Defined.

(* ------------------------------------------------------------------ *)
(** *** More on [stripAllTags] *)

(** X13. A text is left as it is exactly when it holds no [<...>]; so
    stripping twice changes nothing more than stripping once. *)
Theorem stripAllTags_fixed_points (s : string) :
  (stripAllTags s = s <-> has_tag s = false) /\
  stripAllTags (stripAllTags s) = stripAllTags s.
Proof.
  assert (Hfix : forall t, has_tag t = false -> stripAllTags t = t).
  { intros t. functional induction (stripAllTags t); simpl; intros H.
    - reflexivity.
    - rewrite e0 in H. apply orb_false_iff in H as [Hg _].
      apply tag_end_none in Hg. congruence.
    - rewrite e0 in H. apply orb_false_iff in H as [_ H]. f_equal. auto.
    - rewrite e0 in H. f_equal. auto. }
  split.
  - split; [|apply Hfix].
    intros H. rewrite <- H. apply has_tag_stripAllTags.
  - apply Hfix, has_tag_stripAllTags.
Qed.

(** X14. Stripping only leaves characters out: the result is a
    subsequence of the text, so it is never longer, and it is shorter by at
    least two characters when the text holds a [<...>]. *)
Theorem stripAllTags_subsequence (s : string) :
  subsequence (stripAllTags s) s /\
  (String.length (stripAllTags s) <= String.length s)%nat /\
  (has_tag s = true -> (String.length (stripAllTags s) + 2 <= String.length s)%nat).
Proof.
  assert (Hlen : forall sub t, subsequence sub t ->
                   (String.length sub <= String.length t)%nat).
  { induction 1; simpl; lia. }
  assert (Hsub : forall t, subsequence (stripAllTags t) t).
  { intros t. functional induction (stripAllTags t).
    - constructor.
    - apply subsequence_drop.
      clear -e1 IHs0. revert rest e1 IHs0.
      induction r as [|d r IH]; simpl; intros rest H Hs; [discriminate|].
      destruct (Ascii.eqb d ">").
      + injection H as <-. now apply subsequence_drop.
      + apply subsequence_drop. now apply (IH rest).
    - now apply subsequence_keep.
    - now apply subsequence_keep. }
  split; [apply Hsub|]. split; [apply Hlen, Hsub|].
  functional induction (stripAllTags s); simpl; intros H.
  - discriminate.
  - pose proof (Hlen _ _ (Hsub rest)) as Hr.
    assert (String.length rest < String.length r)%nat.
    { clear -e1. revert rest e1.
      induction r as [|d r IH]; simpl; intros rest H; [discriminate|].
      destruct (Ascii.eqb d ">").
      - injection H as <-. lia.
      - specialize (IH _ H). lia. }
    lia.
  - rewrite e0 in H. apply tag_end_none in e1. rewrite e1 in H. simpl in H.
    specialize (IHs0 H). lia.
  - rewrite e0 in H. specialize (IHs0 H). lia.
Qed.

(** A text with two elements and a loose [<]. *)
Lemma stripAllTags_subsequence_witness :
  (String.length (stripAllTags "Great <b>book</b>, a<b") + 2
   <= String.length "Great <b>book</b>, a<b")%nat.
Proof.
  apply (proj2 (proj2 (stripAllTags_subsequence "Great <b>book</b>, a<b"))).
  reflexivity.
Defined.

(* ------------------------------------------------------------------ *)
(** *** The success response as a whole *)

(** X15. In every success response, of either mode: [totalFiltered] counts
    the reviews; [hasNext] is the truthiness of [nextPageToken], which is
    [null] or truthy and never, say, an empty string; [totalCount] is
    truthy or the number 0; the echoed [workId] is not empty; and [book] is
    [null] exactly when the request was served in cursor mode, which is the
    only mode in which [hasPrev] can be true. *)
Theorem success_response_is_consistent {rt : Runtime} (up : Upstream)
    (request : Request) (log log' : list Call) (body : Body.t) :
  GET up request log = (Return (Success body), log') ->
  Body.totalFiltered body = List.length (Body.reviews body) /\
  Pagination.hasNext (Body.pagination body)
    = JS.truthy (Pagination.nextPageToken (Body.pagination body)) /\
  (Pagination.hasNext (Body.pagination body) = false <->
   Pagination.nextPageToken (Body.pagination body) = VNull) /\
  (JS.truthy (Body.totalCount body) = true \/ Body.totalCount body = VNum 0) /\
  Pagination.workId (Body.pagination body) <> "" /\
  (Body.book body = None <-> bootstrap_mode request = false) /\
  (Pagination.hasPrev (Body.pagination body) = true -> Body.book body = None).
Proof.
  intros H.
  assert (Hnull : forall v, (JS.truthy v = true <-> v <> VNull) ->
                            (JS.truthy v = false <-> v = VNull)).
  { intros v [Hto Hfrom]. split.
    - intros Hf. destruct v; try reflexivity;
        (rewrite Hfrom in Hf; [discriminate Hf | discriminate]).
    - now intros ->. }
  assert (Hor : forall v d, JS.truthy (JS.or v d) = true \/ JS.or v d = d).
  { intros v d. unfold JS.or. destruct (JS.truthy v) eqn:E; auto. }
  destruct (GET_Success_cases up _ _ _ _ H)
    as (url & _ & [(Hm & pd & Hf & ->)|(Hm & res & Hf & ->)]); simpl.
  - split; [reflexivity|]. split; [reflexivity|].
    pose proof (bootstrap_token up _ _ _ _ Hf) as Ht.
    destruct (fetchBookPageData_Some up _ _ _ _ Hf)
      as (response & script & Hb & _ & Hs & _ & Hx).
    destruct (extractPageData_Some _ _ _ Hx)
      as (nextData & keys & workKey & reviewsData & _ & _ & _ & _ & Hw & Hid & _ & _ & _ & Hc).
    split.
    { exact (Hnull _ Ht). }
    split; [rewrite Hc; apply Hor|].
    split.
    { destruct (find_some _ _ Hw) as [_ Hpre].
      destruct (prefix_app _ _ Hpre) as (rest & ->).
      change ("Work:kca://work/" ++ rest) with ("Work:" ++ ("kca://work/" ++ rest)) in Hid.
      rewrite remove_first_prefix in Hid. rewrite Hid. discriminate. }
    split; [|discriminate].
    rewrite Hm. split; discriminate.
  - split; [reflexivity|]. split; [reflexivity|].
    pose proof (cursor_token up _ _ _ _ _ _ Hf) as Ht.
    destruct (fetchReviewsViaGraphQL_Some up _ _ _ _ _ _ Hf) as (response & _ & _ & Hx).
    destruct (extractConnection_Some _ _ Hx) as (data & items & _ & _ & _ & _ & _ & Hc).
    split.
    { exact (Hnull _ Ht). }
    split; [rewrite Hc; apply Hor|].
    split.
    { unfold bootstrap_mode in Hm. apply orb_false_iff in Hm as [_ Hw].
      apply negb_false_iff in Hw.
      destruct (given_Some _ Hw) as (w & _ & Hne & ->). assumption. }
    split; [|reflexivity].
    rewrite Hm. split; reflexivity.
Qed.

(** The response for the second page of the book. *)
Lemma success_response_is_consistent_witness :
  Pagination.hasNext
    (Body.pagination (cursorBody (Num 2) Demo.work_id Demo.page2_result)) = false /\
  Body.totalFiltered (cursorBody (Num 2) Demo.work_id Demo.page2_result) = 1%nat.
Proof.
  destruct (success_response_is_consistent (rt := Demo.runtime) Demo.upstream
              Demo.second_page [] [GraphQLQuery (cursor_query Demo.second_page)]
              (cursorBody (Num 2) Demo.work_id Demo.page2_result))
    as (Hn & _ & Ht & _).
  - vm_compute. reflexivity.
  - split; [apply Ht; reflexivity | exact Hn].
Defined.

(* ------------------------------------------------------------------ *)
(** *** [parseInt] reads back what was printed *)

Section ParseInt.

Lemma leading_digits_decimal (d : Decimal.uint) (tail : string) :
  starts_with_digit tail = false ->
  forall acc,
    JS.leading_digits (Some acc) (NilEmpty.string_of_uint d ++ tail)
    = Some (decimal_value acc d).
Proof.
  intros Ht. induction d; intros acc; simpl;
    try (rewrite IHd; f_equal; f_equal; unfold JS.digit_value; simpl; lia).
  destruct tail as [|c tail]; simpl in *; [reflexivity | now rewrite Ht].
Qed.

Lemma leading_digits_first (d : Decimal.uint) (tail : string) :
  starts_with_digit tail = false -> d <> Decimal.Nil ->
  JS.leading_digits None (NilEmpty.string_of_uint d ++ tail)
  = Some (decimal_value 0 d).
Proof.
  intros Ht Hd. destruct d; [congruence|..]; simpl;
    rewrite (leading_digits_decimal _ _ Ht); reflexivity.
Qed.

Lemma of_uint_acc_decimal (d : Decimal.uint) :
  forall acc, Zpos (Pos.of_uint_acc d acc) = decimal_value (Zpos acc) d.
Proof.
  induction d; intros acc; cbn [Pos.of_uint_acc decimal_value]; try reflexivity;
    rewrite IHd; f_equal; lia.
Qed.

Lemma of_uint_decimal (d : Decimal.uint) :
  Z.of_N (Pos.of_uint d) = decimal_value 0 d.
Proof.
  induction d; simpl; try reflexivity; try exact IHd;
    rewrite of_uint_acc_decimal; reflexivity.
Qed.

Lemma decimal_value_to_uint (p : positive) :
  decimal_value 0 (Pos.to_uint p) = Zpos p.
Proof.
  rewrite <- of_uint_decimal, DecimalPos.Unsigned.of_to. reflexivity.
Qed.

(** The first character of a run of digits. *)
Lemma string_of_uint_head (d : Decimal.uint) :
  d <> Decimal.Nil ->
  exists c r, NilEmpty.string_of_uint d = String c r /\ Str.is_digit c = true.
Proof. destruct d; [congruence|..]; intros _; simpl; eauto. Qed.

Lemma digit_is_plain (c : ascii) :
  Str.is_digit c = true ->
  JS.is_white_space c = false /\ Ascii.eqb c "-" = false /\ Ascii.eqb c "+" = false.
Proof.
  destruct c as [[|] [|] [|] [|] [|] [|] [|] [|]]; intros H;
    try discriminate H; repeat split; reflexivity.
Qed.

Lemma parseInt_positive (p : positive) (tail : string) :
  starts_with_digit tail = false ->
  JS.parseInt (NilEmpty.string_of_uint (Pos.to_uint p) ++ tail) = Num (Zpos p).
Proof.
  intros Ht.
  pose proof (DecimalPos.Unsigned.to_uint_nonnil p) as Hn.
  pose proof (leading_digits_first _ tail Ht Hn) as Hl.
  destruct (string_of_uint_head _ Hn) as (c & r & Hs & Hc).
  destruct (digit_is_plain c Hc) as (Hw & Hm & Hp).
  unfold JS.parseInt. rewrite Hs in *. simpl append in *.
  cbn [JS.trim_start]. rewrite Hw, Hm, Hp. cbn [snd fst].
  rewrite Hl, decimal_value_to_uint. f_equal.
Qed.

Lemma string_of_uint_nonnil (d : Decimal.uint) :
  d <> Decimal.Nil -> NilZero.string_of_uint d = NilEmpty.string_of_uint d.
Proof. destruct d; [congruence | reflexivity..]. Qed.

End ParseInt.

(* ------------------------------------------------------------------ *)
(** *** The cache that has a work key *)

Section CacheShape.

Lemma index_is_no_work_key (n : nat) :
  Str.startsWith "Work:kca://work/" (Str.of_nat n) = false.
Proof.
  unfold Str.startsWith, Str.of_nat.
  destruct (Nat.to_uint n) as [|d|d|d|d|d|d|d|d|d|d] eqn:E; try reflexivity.
Qed.

(** Only an object has a work key: the keys of an array and of a string
    are their indices, and a number and a boolean have none.  So the
    reads under a computed key, which come after the work key was found,
    are reads from an object. *)
Lemma work_key_object (v : value) (keys : list string) (workKey : string) :
  JS.Object_keys v = Return keys ->
  find (Str.startsWith "Work:kca://work/") keys = Some workKey ->
  exists l, v = VObj l.
Proof.
  assert (Hnone : forall l : list nat,
             find (Str.startsWith "Work:kca://work/") (map Str.of_nat l) = None).
  { intros l. apply find_none_Forall. apply Forall_map.
    apply Forall_forall. intros n _. apply index_is_no_work_key. }
  destruct v as [| |b|z|s|l|l]; simpl; try discriminate;
    intros H; injection H as <-; intros Hf;
    try (rewrite Hnone in Hf; discriminate Hf);
    try discriminate Hf.
  now exists l.
Qed.

End CacheShape.

(* ------------------------------------------------------------------ *)
(** ** The page and the route together *)

Lemma or_else_nonempty_default (s d : string) :
  s <> "" -> or_else (Some s) d = s.
Proof. intros H. simpl. apply String.eqb_neq in H. now rewrite H. Qed.

Lemma append_empty (s : string) : s ++ "" = s.
Proof. induction s as [|c s IH]; simpl; [reflexivity | now rewrite IH]. Qed.

Section Wire.
Context {rt : Runtime} (up : Upstream).

Lemma route_answers (request : Request) :
  exists response,
    Client.route up request = Client.Answered response /\
    fst (GET up request []) = Return response.
Proof.
  unfold Client.route. destruct (GET_returns up request []) as (response & ->).
  now exists response.
Qed.

Lemma route_Success (request : Request) (body : Body.t) :
  Client.route up request = Client.Answered (Success body) <->
  fst (GET up request []) = Return (Success body).
Proof.
  unfold Client.route. destruct (fst (GET up request [])) as [r|]; split;
    congruence.
Qed.

(** The failures of the route have a status that is not ok, and a message. *)
Lemma GET_Failure (request : Request) (log : list Call) (st : Z) (message : string) :
  fst (GET up request log) = Return (Failure st message) ->
  Client.response_ok (Failure st message) = false /\ message <> "".
Proof.
  destruct (given (q_url request)) eqn:Hg.
  - destruct (given_Some _ Hg) as (url & Hu & Hne & Ho).
    destruct (Str.includes "goodreads.com" url) eqn:Hi.
    + assert (Hv : valid_url request url) by (repeat split; assumption).
      destruct (bootstrap_mode request) eqn:Hm.
      * rewrite (GET_bootstrap up _ _ log Hv Hm). simpl.
        destruct (fst (fetchBookPageData up url log)) as [[pd|]|];
          intros [= <- <-]; split; [reflexivity | discriminate
                                   | reflexivity | discriminate].
      * rewrite (GET_cursor up _ _ log Hv Hm). simpl.
        destruct (fst (fetchReviewsViaGraphQL up _ _ _ log)) as [[res|]|];
          intros [= <- <-]; split; [reflexivity | discriminate
                                   | reflexivity | discriminate].
    + unfold GET. rewrite Hg, Ho, Hi. simpl. intros [= <- <-].
      split; [reflexivity | discriminate].
  - unfold GET. rewrite Hg. simpl. intros [= <- <-].
    split; [reflexivity | discriminate].
Qed.

Lemma parseInt_of_Z (z : Z) : JS.parseInt (Str.of_Z z) = Num z.
Proof.
  unfold Str.of_Z. destruct z as [|p|p]; simpl Z.to_int.
  - reflexivity.
  - unfold NilZero.string_of_int.
    rewrite (string_of_uint_nonnil _ (DecimalPos.Unsigned.to_uint_nonnil p)).
    rewrite <- (parseInt_positive p "" eq_refl).
    f_equal. now rewrite append_empty.
  - unfold NilZero.string_of_int.
    rewrite (string_of_uint_nonnil _ (DecimalPos.Unsigned.to_uint_nonnil p)).
    pose proof (leading_digits_first (Pos.to_uint p) "" eq_refl
                  (DecimalPos.Unsigned.to_uint_nonnil p)) as Hl.
    rewrite append_empty in Hl.
    unfold JS.parseInt. cbn [JS.trim_start].
    change (JS.is_white_space "-") with false. cbv iota.
    change (Ascii.eqb "-" "-") with true. cbv iota. cbn [snd fst].
    rewrite Hl, decimal_value_to_uint. reflexivity.
Qed.

(** The page of a query of the page is the number that was printed. *)
Lemma page_of_query (bookUrl : string) (page : Z) (pageToken : value)
    (w : option string) (k : value) :
  page_of (Client.query bookUrl page pageToken w k) = Num page.
Proof.
  unfold page_of, Client.query. cbn [q_page].
  assert (Hne : Str.of_Z page <> "").
  { intros E. pose proof (parseInt_of_Z page) as H. rewrite E in H. discriminate H. }
  rewrite (or_else_nonempty_default _ "1" Hne). apply parseInt_of_Z.
Qed.

End Wire.

(* ------------------------------------------------------------------ *)
(** *** The array of tokens *)

Section Arrays.

Lemma nth_set_nth_same (l : list value) (n : nat) (v : value) :
  nth n (Client.set_nth l n v) VUndef = v.
Proof.
  revert l; induction n as [|n IH]; intros [|x l]; simpl; auto.
Qed.

Lemma nth_set_nth_other (l : list value) (n m : nat) (v : value) :
  n <> m -> nth m (Client.set_nth l n v) VUndef = nth m l VUndef.
Proof.
  revert l m; induction n as [|n IH]; intros [|x l] [|m] H; simpl; auto;
    try congruence.
  - now destruct m.
  - rewrite IH by congruence. now destruct m.
Qed.

Lemma get_set_same (a : Client.JSArray) (i : Z) (v : value) :
  Client.get (Client.set a i v) i = v.
Proof.
  unfold Client.get, Client.set. destruct (Client.is_index i); simpl.
  - apply nth_set_nth_same.
  - now rewrite Z.eqb_refl.
Qed.

(** Storing under one number leaves what is stored under another index. *)
Lemma get_set_other (a : Client.JSArray) (i j : Z) (v : value) :
  Client.is_index j = true -> i <> j ->
  Client.get (Client.set (Client.spread a) i v) j = Client.get a j.
Proof.
  intros Hj Hij. unfold Client.get, Client.set, Client.spread. rewrite Hj.
  destruct (Client.is_index i) eqn:Hi; simpl; [|reflexivity].
  apply nth_set_nth_other.
  unfold Client.is_index in Hi, Hj.
  apply andb_true_iff in Hi as [Hi _]. apply andb_true_iff in Hj as [Hj _].
  apply Z.leb_le in Hi, Hj. intros E. apply Hij. now apply Z2Nat.inj.
Qed.

End Arrays.

(* ------------------------------------------------------------------ *)
(** *** One request of the page *)

Section OneRequest.
Context {rt : Runtime} (up : Upstream).

Lemma fetchReviews_blank (server : Request -> Client.Answer) (s : Client.State)
    (bookUrl : string) (page : Z) (pageToken : value) (w : option string) (k : value) :
  Client.trim bookUrl = "" ->
  Client.fetchReviews server s bookUrl page pageToken w k = s.
Proof. intros H. unfold Client.fetchReviews. now rewrite H. Qed.

(** A request that cannot be built is not sent: the error is the message
    of the [TypeError], and nothing else changes. *)
Lemma fetchReviews_unsendable (server : Request -> Client.Answer) (s : Client.State)
    (bookUrl : string) (page : Z) (pageToken : value) (w : option string) (k : value) :
  Client.trim bookUrl <> "" ->
  (Client.encodable pageToken && Client.encodable k)%bool = false ->
  exists message,
    Client.fetchReviews server s bookUrl page pageToken w k
    = Client.setLoading false
        (Client.setError (Some message)
           (Client.setError None (Client.setLoading true s))).
Proof.
  intros Hb H. unfold Client.fetchReviews.
  apply String.eqb_neq in Hb. rewrite Hb.
  destruct (Client.encodable pageToken); cbn [negb andb] in H |- *; [|eauto].
  rewrite H. cbn [negb]. eauto.
Qed.

Lemma fetchReviews_sendable (server : Request -> Client.Answer) (s : Client.State)
    (bookUrl : string) (page : Z) (pageToken : value) (w : option string) (k : value) :
  Client.trim bookUrl <> "" ->
  Client.encodable pageToken = true -> Client.encodable k = true ->
  Client.fetchReviews server s bookUrl page pageToken w k
  = Client.setLoading false
      match server (Client.query bookUrl page pageToken w k) with
      | Client.Rejected message =>
          Client.setError (Some message)
            (Client.setError None (Client.setLoading true s))
      | Client.Answered response =>
          if negb (Client.response_ok response)
          then Client.setError
                 (Some (or_else (Client.error_of response) "Failed to fetch reviews"))
                 (Client.setError None (Client.setLoading true s))
          else Client.store page bookUrl response
                 (Client.setError None (Client.setLoading true s))
      end.
Proof.
  intros Hb Ht Hk. unfold Client.fetchReviews.
  apply String.eqb_neq in Hb. rewrite Hb, Ht, Hk. reflexivity.
Qed.

Lemma fetchReviews_failed (s : Client.State) (bookUrl : string) (page : Z)
    (pageToken : value) (w : option string) (k : value) (st : Z) (message : string) :
  Client.trim bookUrl <> "" ->
  Client.encodable pageToken = true -> Client.encodable k = true ->
  fst (GET up (Client.query bookUrl page pageToken w k) [])
    = Return (Failure st message) ->
  Client.fetchReviews (Client.route up) s bookUrl page pageToken w k
  = Client.setLoading false
      (Client.setError (Some message)
         (Client.setError None (Client.setLoading true s))).
Proof.
  intros Hb Ht Hk H. rewrite (fetchReviews_sendable _ _ _ _ _ _ _ Hb Ht Hk).
  destruct (GET_Failure up _ _ _ _ H) as [Hok Hm].
  unfold Client.route. rewrite H, Hok. cbn [negb Client.error_of].
  now rewrite (or_else_nonempty_default _ _ Hm).
Qed.

Lemma fetchReviews_succeeded (s : Client.State) (bookUrl : string) (page : Z)
    (pageToken : value) (w : option string) (k : value) (body : Body.t) :
  Client.trim bookUrl <> "" ->
  Client.encodable pageToken = true -> Client.encodable k = true ->
  fst (GET up (Client.query bookUrl page pageToken w k) []) = Return (Success body) ->
  Client.fetchReviews (Client.route up) s bookUrl page pageToken w k
  = Client.setLoading false
      (Client.store page bookUrl (Success body)
         (Client.setError None (Client.setLoading true s))).
Proof.
  intros Hb Ht Hk H. rewrite (fetchReviews_sendable _ _ _ _ _ _ _ Hb Ht Hk).
  unfold Client.route. now rewrite H.
Qed.

Lemma given_or_null (w : option string) : given (or_null w) = given w.
Proof. unfold or_null. now destruct (given w) eqn:E. Qed.

Lemma bootstrap_mode_query (bookUrl : string) (page : Z) (pageToken : value)
    (w : option string) (k : value) :
  bootstrap_mode (Client.query bookUrl page pageToken w k)
  = ((page =? 1) || negb (given w))%bool.
Proof.
  unfold bootstrap_mode. rewrite page_of_query.
  unfold Client.query. cbn [q_workId]. now rewrite given_or_null.
Qed.

(** The two kinds of success that a query of the page can get. *)
Lemma GET_query_Success (bookUrl : string) (page : Z) (pageToken : value)
    (w : option string) (k : value) (body : Body.t) :
  fst (GET up (Client.query bookUrl page pageToken w k) []) = Return (Success body) ->
  (((page =? 1) || negb (given w))%bool = true /\
   exists pageData,
     fst (fetchBookPageData up bookUrl []) = Return (Some pageData) /\
     body = bootstrapBody pageData)
  \/
  (((page =? 1) || negb (given w))%bool = false /\
   exists graphqlResult,
     body = cursorBody (Num page) (or_else w "") graphqlResult).
Proof.
  intros H.
  destruct (GET up (Client.query bookUrl page pageToken w k) []) as [o log'] eqn:HG.
  simpl in H. subst o.
  destruct (GET_Success_cases up _ _ _ _ HG)
    as (url & Hv & [(Hm & pd & Hf & ->)|(Hm & res & Hf & ->)]);
    rewrite bootstrap_mode_query in Hm.
  - left. split; [assumption|]. exists pd. split; [|reflexivity].
    destruct Hv as (Hu & _). unfold Client.query in Hu. cbn [q_url] in Hu.
    injection Hu as <-. now rewrite Hf.
  - right. split; [assumption|]. exists res.
    rewrite page_of_query. unfold Client.query. cbn [q_workId].
    f_equal. unfold or_null, or_else.
    destruct w as [x|]; simpl; [|reflexivity].
    now destruct (String.eqb x "") eqn:E; simpl; rewrite ?E.
Qed.

(** The work of a bootstrap is not empty, and its credential is truthy. *)
Lemma bootstrap_result_given (url : string) (pageData : PageData.t) :
  fst (fetchBookPageData up url []) = Return (Some pageData) ->
  given (Some (PageData.workId pageData)) = true /\
  JS.truthy (PageData.apiKey pageData) = true /\
  (JS.truthy (PageData.nextPageToken pageData) = false ->
   PageData.nextPageToken pageData = VNull).
Proof.
  intros H.
  destruct (fetchBookPageData up url []) as [o log'] eqn:HF. simpl in H. subst o.
  destruct (fetchBookPageData_Some up _ _ _ _ HF) as (response & script & _ & _ & _ & _ & Hx).
  destruct (extractPageData_Some _ _ _ Hx)
    as (nextData & keys & workKey & reviewsData & _ & _ & Hk & _ & Hw & Hid & _ & _ & Ht & _).
  split; [|split].
  - destruct (find_some _ _ Hw) as [_ Hpre].
    destruct (prefix_app _ _ Hpre) as (rest & ->).
    change ("Work:kca://work/" ++ rest) with ("Work:" ++ ("kca://work/" ++ rest)) in Hid.
    rewrite remove_first_prefix in Hid. now rewrite Hid.
  - destruct (resolveApiKey_resolved (payload response) nextData)
      as (key & Hr & m & Hm & Hkey).
    rewrite Hr in Hk. injection Hk as <-.
    destruct (JS.truthy (JS.optional (runtimeConfig_of nextData) "apiKey")) eqn:Ef.
    + now rewrite Hkey.
    + rewrite Hkey. destruct m as [x|]; [|reflexivity].
      apply key_shaped_truthy. exact (FirstScriptMatch_shaped _ _ Hm).
  - rewrite Ht. unfold JS.or.
    set (x := JS.optional (JS.optional reviewsData "pageInfo") "nextPageToken").
    destruct (JS.truthy x) eqn:E; [congruence | reflexivity].
Qed.

End OneRequest.

(* ------------------------------------------------------------------ *)
(** *** The session is kept *)

Section Coherence.
Context {rt : Runtime} (up : Upstream).

(** [showing] looks at six cells of the state only. *)
Lemma showing_ext (s s' : Client.State) (body : Body.t) (n : Z) (pd : PageData.t) :
  Client.data s' = Client.data s ->
  Client.currentUrl s' = Client.currentUrl s ->
  Client.workId s' = Client.workId s ->
  Client.apiKey s' = Client.apiKey s ->
  Client.bookInfo s' = Client.bookInfo s ->
  Client.pageTokens s' = Client.pageTokens s ->
  showing up s body n pd -> showing up s' body n pd.
Proof.
  intros Hd Hu Hw Hk Hb Ht [H1 H2 H3 H4 H5 H6 H7 H8 H9 H10].
  assert (Hr : refetch s' n = refetch s n)
    by (unfold refetch; now rewrite Hu, Hw, Hk, Ht).
  constructor; rewrite ?Hd, ?Hu, ?Hw, ?Hk, ?Hb, ?Ht, ?Hr; assumption.
Qed.

(** A body that is shown is an answer of the route: its [hasNext] is the
    truthiness of its token, and only a page after the first has a
    [hasPrev]. *)
Lemma showing_flags (s : Client.State) (body : Body.t) (n : Z) (pd : PageData.t) :
  showing up s body n pd ->
  Pagination.hasNext (Body.pagination body)
    = JS.truthy (Pagination.nextPageToken (Body.pagination body)) /\
  (Pagination.hasPrev (Body.pagination body) = true -> 2 <= n) /\
  (n = 1 -> body = bootstrapBody pd) /\
  (2 <= n -> Body.book body = None).
Proof.
  intros [H1 H2 H3 H4 H5 H6 H7 H8 H9].
  apply route_Success in H8. unfold refetch in H8.
  destruct (n =? 1) eqn:En.
  - apply Z.eqb_eq in En. subst n.
    destruct (GET_query_Success up _ _ _ _ _ _ H8)
      as [(_ & pd' & Hf & ->)|(Hm & _)]; [|discriminate Hm].
    rewrite H4 in Hf. injection Hf as <-.
    repeat split; try reflexivity; try discriminate; lia.
  - apply Z.eqb_neq in En.
    destruct (GET_query_Success up _ _ _ _ _ _ H8)
      as [(_ & pd' & _ & ->)|(_ & res & ->)].
    + simpl in H2. injection H2 as <-. congruence.
    + simpl in *.
      repeat split; try reflexivity; intros; lia.
Qed.

(** The state after a request that failed shows what it showed. *)
Lemma failed_showing (s : Client.State) (message : string)
    (body : Body.t) (n : Z) (pd : PageData.t) :
  showing up s body n pd ->
  showing up (Client.setLoading false
                (Client.setError (Some message)
                   (Client.setError None (Client.setLoading true s))))
          body n pd.
Proof. apply showing_ext; reflexivity. Qed.

(** The state after a successful bootstrap of [bookUrl]. *)
Lemma bootstrapped_showing (s : Client.State) (bookUrl : string) (pd : PageData.t) :
  fst (fetchBookPageData up bookUrl []) = Return (Some pd) ->
  fst (GET up (Client.query bookUrl 1 VUndef None VUndef) [])
    = Return (Success (bootstrapBody pd)) ->
  showing up (Client.setLoading false
                (Client.store 1 bookUrl (Success (bootstrapBody pd))
                   (Client.setError None (Client.setLoading true s))))
          (bootstrapBody pd) 1 pd.
Proof.
  intros Hf HG.
  destruct (bootstrap_result_given up _ _ Hf) as (Hw & Hk & _).
  unfold Client.store. cbn [Body.book Body.pagination bootstrapBody
                             Pagination.workId Pagination.apiKey
                             Pagination.nextPageToken].
  rewrite Hw, Hk.
  destruct (JS.truthy (PageData.nextPageToken pd)) eqn:Et;
    (constructor;
     cbn -[Client.get Client.set Client.spread Client.route GET fetchBookPageData];
     try reflexivity; try assumption; try lia;
     [now apply route_Success | ]).
  - intros _. apply get_set_same.
  - intros E. congruence.
Qed.

(** The state after a successful query for page [m] of the session. *)
Lemma queried_showing (s : Client.State) (m : Z) (token : value)
    (body : Body.t) (n : Z) (pd : PageData.t) (res : GraphQLResult.t) :
  showing up s body n pd ->
  2 <= m -> Client.is_index (m - 1) = true ->
  Client.get (Client.pageTokens s) (m - 1) = token ->
  Client.encodable token = true -> Client.encodable (Client.apiKey s) = true ->
  fst (GET up (Client.query (Client.currentUrl s) m token
                            (Client.workId s) (Client.apiKey s)) [])
    = Return (Success (cursorBody (Num m) (PageData.workId pd) res)) ->
  showing up (Client.setLoading false
                (Client.store m (Client.currentUrl s)
                   (Success (cursorBody (Num m) (PageData.workId pd) res))
                   (Client.setError None (Client.setLoading true s))))
          (cursorBody (Num m) (PageData.workId pd) res) m pd.
Proof.
  intros Hs Hm Hi Htok Het Hek HG.
  destruct Hs as [H1 H2 H3 H4 H5 H6 H7 H8 H9 H10].
  destruct (bootstrap_result_given up _ _ H4) as (Hw & _).
  unfold Client.store. cbn [Body.book Body.pagination cursorBody
                             Pagination.workId Pagination.apiKey
                             Pagination.nextPageToken].
  rewrite Hw.
  assert (Hm1 : (m =? 1) = false) by (apply Z.eqb_neq; lia).
  destruct (JS.truthy (GraphQLResult.nextPageToken res)) eqn:Et;
    constructor;
    cbn -[Client.get Client.set Client.spread Client.route GET fetchBookPageData
          Client.encodable];
    try reflexivity; try assumption; try lia.
  - unfold refetch.
    cbn -[Client.get Client.set Client.spread Client.route GET fetchBookPageData].
    rewrite Hm1.
    rewrite get_set_other by (assumption || lia).
    rewrite Htok, <- H5. now apply route_Success.
  - intros _. apply get_set_same.
  - intros _. rewrite get_set_other by (assumption || lia).
    rewrite Htok. now split.
  - unfold refetch.
    cbn -[Client.get Client.set Client.spread Client.route GET fetchBookPageData].
    rewrite Hm1.
    rewrite Htok, <- H5. now apply route_Success.
  - intros E. congruence.
  - intros _. rewrite Htok. now split.
Qed.

End Coherence.

(* ------------------------------------------------------------------ *)
(** *** The handlers *)

Section Handlers.
Context {rt : Runtime} (up : Upstream).

Lemma blank_or_not (s : string) : Client.trim s = "" \/ Client.trim s <> "".
Proof.
  destruct (String.eqb (Client.trim s) "") eqn:E.
  - left. now apply String.eqb_eq.
  - right. now apply String.eqb_neq.
Qed.

(** After a submit nothing is shown and nothing of a session is
    remembered, or the first page of the url that was typed is shown. *)
Lemma handleSubmit_shows (s : Client.State) :
  Client.loading s = false ->
  let s' := Client.handleSubmit (Client.route up) s in
  Client.loading s' = false /\
  ((Client.data s' = None /\ Client.bookInfo s' = None /\
    Client.workId s' = None /\ Client.apiKey s' = VNull /\
    Client.currentUrl s' = Client.currentUrl s) \/
   exists pd, showing up s' (bootstrapBody pd) 1 pd /\
              Client.currentUrl s' = Client.url s).
Proof.
  intros Hl. unfold Client.handleSubmit.
  set (cleared := Client.setPageTokens _ _).
  destruct (blank_or_not (Client.url s)) as [Hb|Hb].
  - rewrite fetchReviews_blank by assumption. split; [assumption|now left].
  - destruct (route_answers up (Client.query (Client.url s) 1 VUndef None VUndef))
      as ([st message|body] & _ & HG).
    + rewrite (fetchReviews_failed up _ _ _ VUndef _ VUndef _ _ Hb eq_refl eq_refl HG).
      split; [reflexivity|now left].
    + rewrite (fetchReviews_succeeded up _ _ _ VUndef _ VUndef _ Hb eq_refl eq_refl HG).
      destruct (GET_query_Success up _ _ _ _ _ _ HG)
        as [(_ & pd & Hf & ->)|(Hm & _)]; [|discriminate Hm].
      pose proof (bootstrapped_showing up cleared _ _ Hf HG) as Hs.
      split; [reflexivity|]. right. exists pd. split; [exact Hs|].
      unfold Client.store. now destruct Hs.
Qed.

(** After [goToNextPage] on a page with a token, the page that was shown
    is shown still, or the page after it is. *)
Lemma goToNextPage_shows (s : Client.State) (b : Body.t) (n : Z) (pd : PageData.t) :
  Client.loading s = false ->
  showing up s b n pd ->
  Client.is_index n = true ->
  Pagination.hasNext (Body.pagination b) = true ->
  let s' := Client.goToNextPage (Client.route up) s in
  Client.loading s' = false /\
  ((Client.data s' = Client.data s /\ showing up s' b n pd) \/
   exists res,
     Client.trim (Client.currentUrl s) <> "" /\
     showing up s' (cursorBody (Num (n + 1)) (PageData.workId pd) res) (n + 1) pd /\
     Client.currentUrl s' = Client.currentUrl s /\
     forall j, Client.is_index j = true -> j <> n + 1 ->
               Client.get (Client.pageTokens s') j = Client.get (Client.pageTokens s) j).
Proof.
  intros Hl Hs Hi Hn.
  destruct (showing_flags up _ _ _ _ Hs) as (Hflag & _).
  rewrite Hn in Hflag. symmetry in Hflag.
  pose proof Hs as [H1 H2 H3 H4 H5 H6 H7 H8 H9 H10].
  specialize (H9 Hflag).
  unfold Client.goToNextPage. rewrite H1, H2. cbn [Client.plus_one].
  destruct (blank_or_not (Client.currentUrl s)) as [Hb|Hb].
  { rewrite fetchReviews_blank by assumption.
    split; [assumption|]. left. now split. }
  destruct (Client.encodable (Pagination.nextPageToken (Body.pagination b))
            && Client.encodable (Client.apiKey s))%bool eqn:He.
  2:{ destruct (fetchReviews_unsendable (Client.route up) s _ (n + 1) _
                  (Client.workId s) _ Hb He) as (message & ->).
      split; [reflexivity|]. left. split; [exact H1|]. now apply failed_showing. }
  apply andb_true_iff in He as [Het Hek].
  destruct (route_answers up
              (Client.query (Client.currentUrl s) (n + 1)
                 (Pagination.nextPageToken (Body.pagination b))
                 (Client.workId s) (Client.apiKey s)))
    as ([st message|body] & _ & HG).
  - rewrite (fetchReviews_failed up _ _ _ _ _ _ _ _ Hb Het Hek HG).
    split; [reflexivity|]. left. split; [exact H1|].
    now apply failed_showing.
  - rewrite (fetchReviews_succeeded up _ _ _ _ _ _ _ Hb Het Hek HG).
    destruct (bootstrap_result_given up _ _ H4) as (Hw & _).
    destruct (GET_query_Success up _ _ _ _ _ _ HG)
      as [(Hm & _)|(_ & res & ->)].
    + rewrite H5, Hw in Hm.
      replace (n + 1 =? 1) with false in Hm by (symmetry; apply Z.eqb_neq; lia).
      discriminate Hm.
    + rewrite H5 in HG |- *. rewrite or_else_Some in HG |- *.
      rewrite <- H5 in HG.
      assert (Hprev : Client.get (Client.pageTokens s) (n + 1 - 1)
                      = Pagination.nextPageToken (Body.pagination b))
        by (now replace (n + 1 - 1) with n by lia).
      pose proof (queried_showing up s (n + 1) _ b n pd res Hs ltac:(lia)
                    ltac:(now replace (n + 1 - 1) with n by lia) Hprev
                    Het Hek HG) as Hs'.
      split; [reflexivity|]. right. exists res.
      split; [assumption|]. split; [exact Hs'|].
      split; [reflexivity|].
      intros j Hj Hne. unfold Client.store.
      cbn [Body.book Body.pagination cursorBody Pagination.workId
           Pagination.apiKey Pagination.nextPageToken].
      rewrite Hw.
      destruct (JS.truthy (GraphQLResult.nextPageToken res));
        cbn -[Client.get Client.set Client.spread]; [|reflexivity].
      now apply get_set_other.
Qed.

(** After [goToPrevPage] on a page that has a page before it, the page
    that was shown is shown still, or the page before it is. *)
Lemma goToPrevPage_shows (s : Client.State) (b : Body.t) (n : Z) (pd : PageData.t) :
  Client.loading s = false ->
  showing up s b n pd ->
  Client.is_index n = true ->
  Pagination.hasPrev (Body.pagination b) = true ->
  let s' := Client.goToPrevPage (Client.route up) s in
  Client.loading s' = false /\
  ((Client.data s' = Client.data s /\ showing up s' b n pd) \/
   exists b', showing up s' b' (n - 1) pd).
Proof.
  intros Hl Hs Hi Hp.
  destruct (showing_flags up _ _ _ _ Hs) as (_ & Hge & _).
  specialize (Hge Hp).
  pose proof Hs as [H1 H2 H3 H4 H5 H6 H7 H8 H9 H10].
  destruct (bootstrap_result_given up _ _ H4) as (Hw & _).
  unfold Client.goToPrevPage. rewrite H1, H2. cbn [Client.minus_one].
  destruct (blank_or_not (Client.currentUrl s)) as [Hb|Hb].
  { rewrite !fetchReviews_blank by assumption.
    split; [now destruct (n - 1 =? 1)|]. left. now destruct (n - 1 =? 1). }
  destruct (n - 1 =? 1) eqn:E1.
  - apply Z.eqb_eq in E1.
    destruct (route_answers up (Client.query (Client.currentUrl s) 1 VUndef None VUndef))
      as ([st message|body] & _ & HG).
    + rewrite (fetchReviews_failed up _ _ _ VUndef _ VUndef _ _ Hb eq_refl eq_refl HG).
      split; [reflexivity|]. left. split; [exact H1|].
      now apply failed_showing.
    + rewrite (fetchReviews_succeeded up _ _ _ VUndef _ VUndef _ Hb eq_refl eq_refl HG).
      destruct (GET_query_Success up _ _ _ _ _ _ HG)
        as [(_ & pd' & Hf & ->)|(Hm & _)]; [|discriminate Hm].
      rewrite H4 in Hf. injection Hf as <-.
      split; [reflexivity|]. right. exists (bootstrapBody pd).
      rewrite E1. now apply bootstrapped_showing.
  - apply Z.eqb_neq in E1.
    destruct (Client.encodable (Client.get (Client.pageTokens s) (n - 1 - 1))
              && Client.encodable (Client.apiKey s))%bool eqn:He.
    2:{ destruct (fetchReviews_unsendable (Client.route up) s _ (n - 1) _
                    (Client.workId s) _ Hb He) as (message & ->).
        split; [reflexivity|]. left. split; [exact H1|]. now apply failed_showing. }
    apply andb_true_iff in He as [Het Hek].
    destruct (route_answers up
                (Client.query (Client.currentUrl s) (n - 1)
                   (Client.get (Client.pageTokens s) (n - 1 - 1))
                   (Client.workId s) (Client.apiKey s)))
      as ([st message|body] & _ & HG).
    + rewrite (fetchReviews_failed up _ _ _ _ _ _ _ _ Hb Het Hek HG).
      split; [reflexivity|]. left. split; [exact H1|].
      now apply failed_showing.
    + rewrite (fetchReviews_succeeded up _ _ _ _ _ _ _ Hb Het Hek HG).
      destruct (GET_query_Success up _ _ _ _ _ _ HG)
        as [(Hm & _)|(_ & res & ->)].
      * rewrite H5, Hw in Hm.
        replace (n - 1 =? 1) with false in Hm by (symmetry; apply Z.eqb_neq; lia).
        discriminate Hm.
      * rewrite H5 in HG |- *. rewrite or_else_Some in HG |- *.
        rewrite <- H5 in HG.
        assert (Hi' : Client.is_index (n - 1 - 1) = true).
        { unfold Client.is_index in Hi |- *.
          apply andb_true_iff in Hi as [_ Hi]. apply Z.ltb_lt in Hi.
          apply andb_true_iff. split; [apply Z.leb_le|apply Z.ltb_lt]; lia. }
        split; [reflexivity|]. right. eexists.
        exact (queried_showing up s (n - 1) _ b n pd res Hs ltac:(lia)
                 Hi' eq_refl Het Hek HG).
Qed.

End Handlers.

(* ------------------------------------------------------------------ *)
(** *** Sessions *)

Section Sessions.
Context {rt : Runtime} (up : Upstream).

Lemma showing_within (s : Client.State) (b : Body.t) (n k : Z) (pd : PageData.t) :
  showing up s b n pd -> n <= k -> within k s.
Proof.
  intros [H1 H2 _ _ _ _ _ _ _] Hn body m Hd Hp.
  rewrite H1 in Hd. injection Hd as <-. rewrite H2 in Hp. injection Hp as <-.
  assumption.
Qed.

Lemma nothing_within (s : Client.State) (k : Z) : Client.data s = None -> within k s.
Proof. intros H body m Hd. rewrite H in Hd. discriminate Hd. Qed.

Lemma within_index (s : Client.State) (b : Body.t) (n k : Z) (pd : PageData.t) :
  showing up s b n pd -> within k s -> k < 4294967295 -> Client.is_index n = true.
Proof.
  intros Hs Hw Hk. pose proof Hs as [H1 H2 H3 _ _ _ _ _ _].
  specialize (Hw b n H1 H2). unfold Client.is_index.
  apply andb_true_iff. split; [apply Z.leb_le|apply Z.ltb_lt]; lia.
Qed.

(** One event keeps a state at rest coherent, and moves at most one page
    on. *)
Lemma react_coherent (k : Z) (s : Client.State) (e : Client.Event) :
  0 <= k < 4294967295 ->
  coherent up s -> within k s ->
  coherent up (Client.react (Client.route up) s e) /\
  within (k + 1) (Client.react (Client.route up) s e).
Proof.
  intros Hk [Hl Hc] Hw.
  assert (Hsame : coherent up s /\ within (k + 1) s).
  { split; [now split|]. intros body m Hd Hp. specialize (Hw body m Hd Hp). lia. }
  destruct e as [text| | |]; cbn [Client.react].
  - split.
    + split; [assumption|]. destruct Hc as [Hc|(b & n & pd & Hs)]; [now left|].
      right. exists b, n, pd. revert Hs. now apply showing_ext.
    + intros body m Hd Hp. specialize (Hw body m Hd Hp). lia.
  - rewrite Hl.
    destruct (handleSubmit_shows up s Hl) as (Hl' & [(Hn & _)|(pd & Hs & _)]).
    + split; [split; [assumption|now left]|now apply nothing_within].
    + split; [split; [assumption|right; now exists (bootstrapBody pd), 1, pd]|].
      apply (showing_within _ _ _ _ _ Hs). lia.
  - destruct Hc as [Hc|(b & n & pd & Hs)]; [now rewrite Hc|].
    rewrite (showing_data up _ _ _ _ Hs), Hl.
    destruct (Pagination.hasPrev (Body.pagination b)) eqn:Hp; [|exact Hsame].
    cbn [negb orb].
    pose proof (within_index _ _ _ _ _ Hs Hw ltac:(lia)) as Hi.
    destruct (goToPrevPage_shows up s b n pd Hl Hs Hi Hp)
      as (Hl' & [(_ & Hs')|(b' & Hs')]).
    + split; [split; [assumption|right; now exists b, n, pd]|].
      apply (showing_within _ _ _ _ _ Hs').
      pose proof Hs as [H1 H2 _ _ _ _ _ _ _]. specialize (Hw b n H1 H2). lia.
    + split; [split; [assumption|right; now exists b', (n - 1), pd]|].
      apply (showing_within _ _ _ _ _ Hs').
      pose proof Hs as [H1 H2 _ _ _ _ _ _ _]. specialize (Hw b n H1 H2). lia.
  - destruct Hc as [Hc|(b & n & pd & Hs)]; [now rewrite Hc|].
    rewrite (showing_data up _ _ _ _ Hs), Hl.
    destruct (Pagination.hasNext (Body.pagination b)) eqn:Hn; [|exact Hsame].
    cbn [negb orb].
    pose proof (within_index _ _ _ _ _ Hs Hw ltac:(lia)) as Hi.
    destruct (goToNextPage_shows up s b n pd Hl Hs Hi Hn)
      as (Hl' & [(_ & Hs')|(res & _ & Hs' & _)]).
    + split; [split; [assumption|right; now exists b, n, pd]|].
      apply (showing_within _ _ _ _ _ Hs').
      pose proof Hs as [H1 H2 _ _ _ _ _ _ _]. specialize (Hw b n H1 H2). lia.
    + split; [split; [assumption|right; eexists _, (n + 1), pd; exact Hs']|].
      apply (showing_within _ _ _ _ _ Hs').
      pose proof Hs as [H1 H2 _ _ _ _ _ _ _]. specialize (Hw b n H1 H2). lia.
Qed.

Lemma run_coherent (events : list Client.Event) :
  forall (k : Z) (s : Client.State),
    0 <= k -> k + Z.of_nat (List.length events) <= 4294967295 ->
    coherent up s -> within k s ->
    coherent up (Client.run (Client.route up) s events) /\
    within (k + Z.of_nat (List.length events)) (Client.run (Client.route up) s events).
Proof.
  induction events as [|e events IH]; intros k s Hk Hb Hc Hw.
  - cbn [List.length Client.run fold_left]. now rewrite Z.add_0_r.
  - cbn [List.length] in Hb |- *. rewrite Nat2Z.inj_succ in Hb |- *.
    destruct (react_coherent k s e ltac:(lia) Hc Hw) as [Hc' Hw'].
    destruct (IH (k + 1) _ ltac:(lia) ltac:(lia) Hc' Hw') as [Hc'' Hw''].
    split; [exact Hc''|].
    now replace (k + Z.succ (Z.of_nat (List.length events)))
      with (k + 1 + Z.of_nat (List.length events)) by lia.
Qed.

Lemma initial_coherent : coherent up Client.initial /\ within 0 Client.initial.
Proof. split; [split; [reflexivity|now left]|now apply nothing_within]. Qed.

Lemma reachable_coherent (events : list Client.Event) :
  Z.of_nat (List.length events) <= 4294967295 ->
  coherent up (Client.run (Client.route up) Client.initial events) /\
  within (Z.of_nat (List.length events)) (Client.run (Client.route up) Client.initial events).
Proof.
  intros Hb. destruct initial_coherent as [Hc Hw].
  exact (run_coherent events 0 _ ltac:(lia) ltac:(lia) Hc Hw).
Qed.

Lemma store_data (page : Z) (bookUrl : string) (b : Body.t) (s : Client.State) :
  Client.data (Client.store page bookUrl (Success b) s) = Some (Client.ShownBody b).
Proof.
  unfold Client.store.
  destruct (Body.book b), (given _), (Pagination.apiKey _) as [key|];
    try destruct (JS.truthy key);
    destruct (JS.truthy (Pagination.nextPageToken _)); reflexivity.
Qed.

End Sessions.

(* ------------------------------------------------------------------ *)
(** *** The page and the route together *)

Section Together.
Context {rt : Runtime} (up : Upstream).


Lemma normalised_convertible (raw : value) (creator : JS.Member) (r : Review.t) :
  normalised raw creator r -> JS.convertible (Review.rating r) = true.
Proof.
  intros [st review r' H|node r' H].
  - apply reviewOfEntity_Some in H. tauto.
  - apply reviewOfNode_Some in H. tauto.
Qed.

Lemma ge_below (v : value) (m n : Z) :
  m <= n -> JS.ge v n = true -> JS.ge v m = true.
Proof.
  unfold JS.ge. destruct (JS.ToNumber v) as [|z]; [discriminate|].
  intros Hmn H. apply Z.leb_le in H. apply Z.leb_le. lia.
Qed.

End Together.

(** X17. Whatever the user does, in fewer than 2^32 - 1 events from the
    first render, the page comes to rest ([loading] is off) in a state
    that shows nothing or shows a page of a session: [data] is the body
    that the route answers to the request that fetches the page once more
    from what the page remembers, [workId], [apiKey] and [bookInfo] are
    those of the bootstrap of [currentUrl], and the token of the page that
    is shown is stored under the number of the page.  The page never
    holds an error body as its data. *)
Theorem reachable_states_are_coherent {rt : Runtime} (up : Upstream)
    (events : list Client.Event) :
  Z.of_nat (List.length events) < 4294967295 ->
  coherent up (Client.run (Client.route up) Client.initial events).
Proof.
  intros Hb. now destruct (reachable_coherent up events ltac:(lia)).
Qed.

Lemma reachable_states_are_coherent_witness :
  coherent (rt := Demo.runtime) Demo.upstream
    (Client.run (rt := Demo.runtime) DemoPage.server Client.initial
       [Client.Type_ Demo.book_url; Client.Submit; Client.Next; Client.Previous]).
Proof.
  apply (reachable_states_are_coherent (rt := Demo.runtime) Demo.upstream).
  reflexivity.
Defined.

(** X18. Next and then Previous is a round trip: when Next has put another
    page on show, Previous asks the route for the page that was shown
    before with the request that had fetched it (the bootstrap for page
    1, the token stored under the page before for a later page), so that,
    upstream answering as it did, the data is again what it was. *)
Theorem previous_undoes_next {rt : Runtime} (up : Upstream)
    (events : list Client.Event) :
  Z.of_nat (List.length events) < 4294967295 ->
  let s := Client.run (Client.route up) Client.initial events in
  let s1 := Client.react (Client.route up) s Client.Next in
  Client.data s1 <> Client.data s ->
  Client.data (Client.react (Client.route up) s1 Client.Previous) = Client.data s.
Proof.
  intros Hb s s1 Hd.
  destruct (reachable_coherent up events ltac:(lia)) as [[Hl Hc] Hw].
  fold s in Hl, Hc, Hw. subst s1. cbn [Client.react] in Hd |- *.
  destruct Hc as [Hc|(b & n & pd & Hs)]; [rewrite Hc in Hd; now elim Hd|].
  pose proof Hs as [H1 H2 H3 H4 H5 H6 H7 H8 H9 H10].
  rewrite H1, Hl in Hd |- *.
  destruct (Pagination.hasNext (Body.pagination b)) eqn:Hn;
    cbn [negb orb] in Hd |- *; [|rewrite H1 in Hd; now elim Hd].
  pose proof (within_index up _ _ _ _ _ Hs Hw Hb) as Hi.
  destruct (goToNextPage_shows up s b n pd Hl Hs Hi Hn)
    as (Hl1 & [(Hsame & _)|(res & Hnb & Hs1 & Hu1 & Ht1)]);
    [rewrite Hsame, H1 in Hd; now elim Hd|].
  set (s1 := Client.goToNextPage (Client.route up) s) in *.
  pose proof Hs1 as [G1 G2 G3 G4 G5 G6 G7 G8 G9].
  rewrite G1, Hl1.
  assert (Hp : Pagination.hasPrev
                 (Body.pagination (cursorBody (Num (n + 1)) (PageData.workId pd) res))
               = true) by (cbn; apply Z.ltb_lt; lia).
  rewrite Hp. cbn [negb orb].
  unfold Client.goToPrevPage. rewrite G1, G2. cbn [Client.minus_one].
  replace (n + 1 - 1) with n by lia.
  rewrite Hu1.
  apply route_Success in H8. unfold refetch in H8.
  destruct (n =? 1) eqn:E1.
  - rewrite (fetchReviews_succeeded up _ _ _ VUndef _ VUndef _ Hnb eq_refl eq_refl H8).
    cbn [Client.data Client.setLoading]. apply store_data.
  - apply Z.eqb_neq in E1.
    assert (Hj : Client.is_index (n - 1) = true).
    { unfold Client.is_index in Hi |- *.
      apply andb_true_iff in Hi as [_ Hi]. apply Z.ltb_lt in Hi.
      apply andb_true_iff. split; [apply Z.leb_le|apply Z.ltb_lt]; lia. }
    destruct (H10 E1) as [Het Hek].
    rewrite (Ht1 (n - 1) Hj ltac:(lia)), G5, G6, <- H5, <- H6.
    rewrite (fetchReviews_succeeded up _ _ _ _ _ _ _ Hnb Het Hek H8).
    cbn [Client.data Client.setLoading]. apply store_data.
Qed.

Lemma previous_undoes_next_witness :
  let s := Client.run (rt := Demo.runtime) DemoPage.server Client.initial
             [Client.Type_ Demo.book_url; Client.Submit] in
  let s1 := Client.react (rt := Demo.runtime) DemoPage.server s
              Client.Next in
  Client.data s1 <> Client.data s /\
  Client.data (Client.react (rt := Demo.runtime) DemoPage.server s1
                 Client.Previous)
  = Client.data s.
Proof.
  split.
  - vm_compute. discriminate.
  - apply (previous_undoes_next (rt := Demo.runtime) Demo.upstream
             [Client.Type_ Demo.book_url; Client.Submit]).
    + reflexivity.
    + vm_compute. discriminate.
Defined.



(** X20. The book that is displayed over a page of a session is the book
    that the bootstrap of the current url finds: on page 1 from the body,
    on a later page, whose body has no book, from what the page kept. *)
Theorem displayed_book_is_the_bootstrap_book {rt : Runtime} (up : Upstream)
    (events : list Client.Event) :
  Z.of_nat (List.length events) < 4294967295 ->
  let s := Client.run (Client.route up) Client.initial events in
  Client.data s <> None ->
  exists pageData,
    fst (fetchBookPageData up (Client.currentUrl s) []) = Return (Some pageData) /\
    Client.displayBook s = Some (PageData.bookInfo pageData).
Proof.
  intros Hb s Hd.
  destruct (reachable_coherent up events ltac:(lia)) as [[Hl Hc] Hw].
  fold s in Hl, Hc, Hw.
  destruct Hc as [Hc|(b & n & pd & Hs)]; [contradiction|].
  pose proof Hs as [H1 H2 H3 H4 H5 H6 H7 H8 H9].
  destruct (showing_flags up _ _ _ _ Hs) as (_ & _ & Hone & Hlater).
  exists pd. split; [assumption|].
  unfold Client.displayBook. rewrite H1.
  destruct (Z.eq_dec n 1) as [E|E].
  - now rewrite (Hone E).
  - now rewrite (Hlater ltac:(lia)).
Qed.

Lemma displayed_book_is_the_bootstrap_book_witness :
  exists pageData,
    fst (fetchBookPageData (rt := Demo.runtime) Demo.upstream
           (Client.currentUrl
              (Client.run (rt := Demo.runtime) DemoPage.server
                 Client.initial
                 [Client.Type_ Demo.book_url; Client.Submit; Client.Next])) [])
      = Return (Some pageData) /\
    Client.displayBook
      (Client.run (rt := Demo.runtime) DemoPage.server Client.initial
         [Client.Type_ Demo.book_url; Client.Submit; Client.Next])
    = Some (PageData.bookInfo pageData).
Proof.
  apply (displayed_book_is_the_bootstrap_book (rt := Demo.runtime) Demo.upstream
           [Client.Type_ Demo.book_url; Client.Submit; Client.Next]).
  - reflexivity.
  - vm_compute. discriminate.
Defined.

(** X21. When the route answers a request of the page with a failure, the
    page shows the message of the route, never its own default: every
    failure of the route has a status that is not ok and a message that
    is not empty.  Nothing else changes: the page that was shown, the
    book, the work, the credential and the tokens are kept.  That is so
    for a request that can be built; when the token or the credential
    cannot be converted to a string, the request is not sent, whatever
    the server, and the page shows the message of that [TypeError], and
    again nothing else changes. *)
Theorem route_failure_keeps_the_page {rt : Runtime} (up : Upstream)
    (s : Client.State) (bookUrl : string) (page : Z) (pageToken : value)
    (existingWorkId : option string) (existingApiKey : value) :
  Client.trim bookUrl <> "" ->
  (Client.encodable pageToken = true -> Client.encodable existingApiKey = true ->
   forall st message,
     fst (GET up (Client.query bookUrl page pageToken existingWorkId existingApiKey) [])
       = Return (Failure st message) ->
     message <> "" /\
     Client.fetchReviews (Client.route up) s bookUrl page pageToken
                         existingWorkId existingApiKey
     = Client.setError (Some message) (Client.setLoading false s)) /\
  ((Client.encodable pageToken && Client.encodable existingApiKey)%bool = false ->
   forall server,
   exists v,
     (v = pageToken \/ v = existingApiKey) /\ JS.convertible v = false /\
     Client.fetchReviews server s bookUrl page pageToken
                         existingWorkId existingApiKey
     = Client.setError (Some (TypeError_message v)) (Client.setLoading false s)).
Proof.
  intros Hb. split.
  - intros Ht Hk st message HG. split.
    + now destruct (GET_Failure up _ _ _ _ HG).
    + now rewrite (fetchReviews_failed up _ _ _ _ _ _ _ _ Hb Ht Hk HG).
  - intros He server. unfold Client.fetchReviews.
    apply String.eqb_neq in Hb. rewrite Hb.
    destruct (Client.encodable pageToken) eqn:Et; cbn [negb andb] in He |- *.
    + rewrite He. cbn [negb]. exists existingApiKey.
      split; [now right|]. split; [|reflexivity].
      unfold Client.encodable in He.
      destruct (JS.truthy existingApiKey); [exact He | discriminate He].
    + exists pageToken. split; [now left|]. split; [|reflexivity].
      unfold Client.encodable in Et.
      destruct (JS.truthy pageToken); [exact Et | discriminate Et].
Qed.

(** A request for another site, and a request with a token that cannot
    be converted. *)
Lemma route_failure_keeps_the_page_witness :
  ("URL must be a Goodreads URL" <> "" /\
   Client.fetchReviews (rt := Demo.runtime) DemoPage.server
     Client.initial "https://example.com/book" 1 VUndef None VUndef
   = Client.setError (Some "URL must be a Goodreads URL")
       (Client.setLoading false Client.initial)) /\
  (forall server,
   exists v,
     (v = Demo.opaque \/ v = VStr "da2-frompage1") /\ JS.convertible v = false /\
     Client.fetchReviews (rt := Demo.runtime) server
       Client.initial Demo.book_url 2 Demo.opaque (Some Demo.work_id)
       (VStr "da2-frompage1")
     = Client.setError (Some (TypeError_message (Runtime := Demo.runtime) v))
         (Client.setLoading false Client.initial)).
Proof.
  split.
  - apply (proj1 (route_failure_keeps_the_page (rt := Demo.runtime) Demo.upstream
             Client.initial "https://example.com/book" 1 VUndef None VUndef
             ltac:(vm_compute; discriminate)) eq_refl eq_refl 400).
    vm_compute. reflexivity.
  - apply (proj2 (route_failure_keeps_the_page (rt := Demo.runtime) Demo.upstream
             Client.initial Demo.book_url 2 Demo.opaque (Some Demo.work_id)
             (VStr "da2-frompage1") ltac:(vm_compute; discriminate))).
    reflexivity.
Defined.

(** X22. A review that the route returned is drawn, and with its first
    four stars lit: the test [star <= rating] of the page does not throw
    and holds for the stars 1 to 4 of a rating that passed the test
    [rating >= 4] of the route. *)
Theorem produced_review_lights_four_stars {rt : Runtime} (up : Upstream)
    (r : Review.t) :
  produced up r ->
  Client.StarRating (Review.rating r)
  = Return [true; true; true; true; JS.ge (Review.rating r) 5].
Proof.
  intros H. destruct (produced_normalised up r H) as (raw & creator & Hn).
  destruct (normalised_rating _ _ _ Hn) as [_ Hge].
  pose proof (normalised_convertible _ _ _ Hn) as Hc.
  unfold Client.StarRating, Client.each, JS.at_least. rewrite Hc. cbn [obind].
  rewrite (ge_below _ 1 4 ltac:(lia) Hge), (ge_below _ 2 4 ltac:(lia) Hge),
          (ge_below _ 3 4 ltac:(lia) Hge), Hge.
  reflexivity.
Qed.

Lemma produced_review_lights_four_stars_witness :
  Client.StarRating (rt := Demo.runtime) (Review.rating Demo.review_r1)
  = Return [true; true; true; true;
            JS.ge (rt := Demo.runtime) (Review.rating Demo.review_r1) 5].
Proof.
  apply (produced_review_lights_four_stars (rt := Demo.runtime) Demo.upstream).
  apply (produced_response (rt := Demo.runtime) Demo.upstream _
           (Demo.request Demo.book_url None None None None) []
           [PageFetch Demo.book_url] (bootstrapBody Demo.page1)).
  - vm_compute. reflexivity.
  - simpl. auto.
Defined.

(** X23. A submit starts afresh.  From a state at rest it leaves the page
    at rest, and either the first page of the url that was typed is shown,
    as a session of its own, or nothing is shown and nothing of the
    session before is displayed or remembered: no book, no work and no
    credential. *)
Theorem submit_starts_a_new_session {rt : Runtime} (up : Upstream)
    (s : Client.State) :
  Client.loading s = false ->
  let s' := Client.react (Client.route up) s Client.Submit in
  Client.loading s' = false /\
  ((Client.data s' = None /\ Client.displayBook s' = None /\
    Client.workId s' = None /\ Client.apiKey s' = VNull) \/
   exists pageData,
     fst (fetchBookPageData up (Client.url s) []) = Return (Some pageData) /\
     Client.currentUrl s' = Client.url s /\
     Client.data s' = Some (Client.ShownBody (bootstrapBody pageData)) /\
     Client.displayBook s' = Some (PageData.bookInfo pageData) /\
     Client.workId s' = Some (PageData.workId pageData) /\
     Client.apiKey s' = PageData.apiKey pageData).
Proof.
  intros Hl s'. subst s'. cbn [Client.react]. rewrite Hl.
  destruct (handleSubmit_shows up s Hl)
    as (Hl' & [(Hd & Hb & Hw & Hk & _)|(pd & Hs & Hu)]).
  - split; [assumption|]. left. unfold Client.displayBook. now rewrite Hd.
  - split; [assumption|]. right. exists pd.
    destruct Hs as [H1 H2 H3 H4 H5 H6 H7 H8 H9].
    rewrite Hu in H4. unfold Client.displayBook. rewrite H1.
    repeat split; assumption || reflexivity.
Qed.

Lemma submit_starts_a_new_session_witness :
  let s' := Client.react (rt := Demo.runtime) DemoPage.server
              (Client.setUrl Demo.book_url Client.initial) Client.Submit in
  Client.loading s' = false /\
  ((Client.data s' = None /\ Client.displayBook s' = None /\
    Client.workId s' = None /\ Client.apiKey s' = VNull) \/
   exists pageData,
     fst (fetchBookPageData (rt := Demo.runtime) Demo.upstream Demo.book_url [])
       = Return (Some pageData) /\
     Client.currentUrl s' = Demo.book_url /\
     Client.data s' = Some (Client.ShownBody (bootstrapBody pageData)) /\
     Client.displayBook s' = Some (PageData.bookInfo pageData) /\
     Client.workId s' = Some (PageData.workId pageData) /\
     Client.apiKey s' = PageData.apiKey pageData).
Proof.
  apply (submit_starts_a_new_session (rt := Demo.runtime) Demo.upstream
           (Client.setUrl Demo.book_url Client.initial)).
  reflexivity.
Defined.
